(** * socialsim: metrics library and measurement orchestration

    A shallow embedding of [socialsim/metrics/metrics.py] and
    [socialsim/run.py], and the properties of the specification that are
    settled against it.

    Conventions of the embedding.
    - A Python call either returns or raises: [outcome].
    - Python's [None] is the [None] of an [option].
    - Finite floating-point numbers are embedded in [Q] (every finite float
      is a dyadic rational); [nan] and the infinities are separate
      constructors.  Arithmetic on finite values is exact, so rounding is
      not modelled.  Logarithms and square roots live in [R].
    - Dictionaries that are only written and read by key are [gmap]s;
      dictionaries that are iterated (the configuration) are association
      lists in insertion order. *)

From Stdlib Require Import QArith Qpower Qabs Qminmax Qreals Reals Lra Lia.
From Stdlib Require Import DecimalString.
From stdpp Require Import base gmap strings list fin_maps.

Set Warnings "-clear-no-such-hyp".
Local Open Scope string_scope.
Local Open Scope list_scope.

(** ** Python outcomes *)

Inductive exn : Type :=
| AttributeError (name : string)
| IndexError
| KeyError (key : string)
| TypeError
| ValueError
| UnboundLocalError (var : string)
| External (what : string).

Inductive outcome (A : Type) : Type :=
| Ret (a : A)
| Raise (e : exn).
Arguments Ret {A} a.
Arguments Raise {A} e.

Definition obind {A B} (m : outcome A) (k : A -> outcome B) : outcome B :=
  match m with
  | Ret a => k a
  | Raise e => Raise e
  end.

Notation "'do' x <- m ; k" := (obind m (fun x => k))
  (at level 10, x name, m at level 100, k at level 200).

Definition returns {A} (m : outcome A) : Prop := exists a, m = Ret a.
Definition raises {A} (m : outcome A) : Prop := exists e, m = Raise e.

(** ** Rank-biased overlap ([rbo_score]) *)

Module Rbo.

(** The part of a pandas DataFrame that [rbo_score] reads: the column
    labels, the columns and the index, entities being strings. *)
Record DataFrame : Type := {
  columns : list string;
  column : gmap string (list string);
  index : list string
}.

(** [df[name].tolist()] *)
Definition getitem (df : DataFrame) (name : string) : outcome (list string) :=
  match column df !! name with
  | Some c => Ret c
  | None => Raise (KeyError name)
  end.

(** Python's ordering of lists of strings (lexicographic). *)
Fixpoint list_leb (a b : list string) : bool :=
  match a, b with
  | [], _ => true
  | _ :: _, [] => false
  | x :: a', y :: b' =>
      match String.compare x y with
      | Lt => true
      | Gt => false
      | Eq => list_leb a' b'
      end
  end.

(** [sl, ll = sorted([(len(gt), gt), (len(sim), sim)])]: the pair in
    ascending order of (length, list); the sort is stable. *)
Definition sorted_pair (gt sim : list string)
  : (nat * list string) * (nat * list string) :=
  let a := (length gt, gt) in
  let b := (length sim, sim) in
  if (length sim <? length gt)%nat then (b, a)
  else if (length gt <? length sim)%nat then (a, b)
  else if list_leb gt sim then (a, b) else (b, a).

(** [len(set(x).intersection(set(y)))] *)
Definition overlap (x y : list string) : nat :=
  size ((list_to_set x : gset string) ∩ list_to_set y).

(** First loop: [x_d[i] = len(set(L[:i]).intersection(set(S[:i])))] for
    [i] in [range(1, s + 1)]. *)
Definition overlaps (s : nat) (L S' : list string) : gmap nat nat :=
  fold_left (fun x_d i => <[i := overlap (take i L) (take i S')]> x_d)
            (seq 1 s) ∅.

(** [float(x_d[i]) / float(i) * pow(p, i - 1)] *)
Definition term (x_d : gmap nat nat) (p : Q) (i : nat) : outcome Q :=
  match x_d !! i with
  | Some x =>
      Ret ((inject_Z (Z.of_nat x) / inject_Z (Z.of_nat i))
           * p ^ (Z.of_nat (i - 1)))%Q
  | None => Raise (KeyError "x_d")
  end.

(** Second loop: [rbo_score += ...] for [i] in [range(1, s + 1)]. *)
Definition accumulate (x_d : gmap nat nat) (p : Q) (s : nat) : outcome Q :=
  fold_left (fun acc i => do a <- acc; do t <- term x_d p i; Ret (a + t)%Q)
            (seq 1 s) (Ret 0%Q).

(** The body of [rbo_score] once the two ranked lists are extracted. *)
Definition rbo_lists (ground_truth simulation : list string) (p : Q)
  : outcome (option Q) :=
  let '((s, S'), (l, L)) := sorted_pair ground_truth simulation in
  if (s =? 0)%nat then Ret (Some 0%Q)
  else
    let x_d := overlaps s L S' in
    do total <- accumulate x_d p s;
    Ret (Some (total * (1 - p))%Q).

(** [rbo_score(ground_truth, simulation, p)] *)
Definition rbo_score (ground_truth : DataFrame) (simulation : option DataFrame)
    (p : Q) : outcome (option Q) :=
  match simulation with
  | None => Ret None
  | Some simulation =>
      if (length (columns ground_truth) =? 2)%nat then
        match filter (fun c => c ≠ "value") (columns ground_truth) with
        | [] => Raise IndexError
        | entity :: _ =>
            do gt <- getitem ground_truth entity;
            do sim <- getitem simulation entity;
            rbo_lists gt sim p
        end
      else rbo_lists (index ground_truth) (index simulation) p
  end.

(** The ranked list that [rbo_score] extracts from a frame compared with
    itself. *)
Definition ranked (df : DataFrame) : outcome (list string) :=
  if (length (columns df) =? 2)%nat then
    match filter (fun c => c ≠ "value") (columns df) with
    | [] => Raise IndexError
    | entity :: _ => getitem df entity
    end
  else Ret (index df).

(** A one-row frame: entity column ["a"], one value. *)
Definition one_entity : DataFrame :=
  {| columns := ["entity"; "value"];
     column := {[ "entity" := ["a"] ]};
     index := ["0"] |}.

End Rbo.

(** ** Floating-point values *)

(** A float: a finite value, an infinity or [nan].  Signed zeros are not
    distinguished.  Arithmetic on finite values is exact: the rounding and
    the overflow of doubles, and the wrap-around of 64-bit integers, are not
    modelled.  The properties below are stated with the rounded
    computation in mind: equalities are kept to values that are computed
    without rounding, other results are bounded by signs and by
    tolerances, and magnitudes are bounded where an overflow could occur. *)
Inductive pyfloat : Type :=
| Fin (q : Q)
| PosInf
| NegInf
| NaN.

(** A float that came out of a logarithm or a square root. *)
Inductive npfloat : Type :=
| Real (r : R)
| PInf
| NInf
| Nan.

Definition Qltb (a b : Q) : bool := negb (Qle_bool b a).

(** [np.isfinite] *)
Definition isfinite (x : pyfloat) : bool :=
  match x with
  | Fin _ => true
  | _ => false
  end.

Definition fopp (x : pyfloat) : pyfloat :=
  match x with
  | Fin a => Fin (- a)
  | PosInf => NegInf
  | NegInf => PosInf
  | NaN => NaN
  end.

Definition fadd (x y : pyfloat) : pyfloat :=
  match x, y with
  | NaN, _ | _, NaN => NaN
  | Fin a, Fin b => Fin (a + b)
  | PosInf, NegInf | NegInf, PosInf => NaN
  | PosInf, _ | _, PosInf => PosInf
  | NegInf, _ | _, NegInf => NegInf
  end.

Definition fsub (x y : pyfloat) : pyfloat := fadd x (fopp y).

Definition fabs (x : pyfloat) : pyfloat :=
  match x with
  | Fin a => Fin (Qabs a)
  | PosInf | NegInf => PosInf
  | NaN => NaN
  end.

(** The sign of a float that is not [nan]. *)
Definition fsign (x : pyfloat) : comparison :=
  match x with
  | Fin a => (a ?= 0)%Q
  | PosInf => Gt
  | NegInf => Lt
  | NaN => Eq
  end.

Definition signed_inf (s : comparison) : pyfloat :=
  match s with
  | Gt => PosInf
  | Lt => NegInf
  | Eq => NaN
  end.

Definition sign_mul (s t : comparison) : comparison :=
  match s, t with
  | Eq, _ | _, Eq => Eq
  | Gt, Gt | Lt, Lt => Gt
  | _, _ => Lt
  end.

Definition fmul (x y : pyfloat) : pyfloat :=
  match x, y with
  | NaN, _ | _, NaN => NaN
  | Fin a, Fin b => Fin (a * b)
  | _, _ => signed_inf (sign_mul (fsign x) (fsign y))
  end.

(** Division of numpy floats: a zero divisor gives an infinity or [nan]
    and no exception. *)
Definition fdiv (x y : pyfloat) : pyfloat :=
  match x, y with
  | NaN, _ | _, NaN => NaN
  | Fin a, Fin b =>
      if Qeq_bool b 0 then signed_inf (a ?= 0)%Q else Fin (a / b)
  | Fin _, _ => Fin 0
  | _, Fin b =>
      signed_inf (sign_mul (fsign x) (if Qeq_bool b 0 then Gt else (b ?= 0)%Q))
  | _, _ => NaN
  end.

(** [a.sum()] *)
Definition fsum (v : list pyfloat) : pyfloat := fold_left fadd v (Fin 0).

(** [a / a.sum()] *)
Definition normalize (v : list pyfloat) : list pyfloat :=
  map (fun x => fdiv x (fsum v)) v.

Definition nadd (x y : npfloat) : npfloat :=
  match x, y with
  | Nan, _ | _, Nan => Nan
  | Real a, Real b => Real (a + b)
  | PInf, NInf | NInf, PInf => Nan
  | PInf, _ | _, PInf => PInf
  | NInf, _ | _, NInf => NInf
  end.

(** Division of a numpy float by the real [d]. *)
Definition ndiv (x : npfloat) (d : R) : npfloat :=
  match x with
  | Nan => Nan
  | Real a =>
      if Req_EM_T d 0 then
        if Req_EM_T a 0 then Nan
        else if Rlt_dec 0 a then PInf else NInf
      else Real (a / d)
  | PInf => if Rlt_dec d 0 then NInf else PInf
  | NInf => if Rlt_dec d 0 then PInf else NInf
  end.

(** [scipy.special.rel_entr]: [x log(x / y)] for positive [x] and [y],
    [0] for [x = 0] and [y >= 0], infinity otherwise. *)
Definition rel_entr (x y : pyfloat) : npfloat :=
  match x, y with
  | NaN, _ | _, NaN => Nan
  | Fin a, Fin b =>
      if Qltb 0 a && Qltb 0 b then Real (Q2R a * ln (Q2R a / Q2R b))
      else if Qeq_bool a 0 && Qle_bool 0 b then Real 0
      else PInf
  | Fin a, PosInf =>
      if Qltb 0 a then NInf else if Qeq_bool a 0 then Real 0 else PInf
  | Fin _, NegInf => PInf
  | PosInf, Fin b => PInf
  | PosInf, PosInf => Nan
  | PosInf, NegInf => PInf
  | NegInf, _ => PInf
  end.

(** [scipy.stats.entropy(pk, qk, base)]: both vectors are normalised to
    sum 1, the relative entropies are summed and the sum is divided by
    [log(base)] when a base is given.  Vectors of different lengths are
    refused. *)
Definition entropy (pk qk : list pyfloat) (base : option R)
  : outcome npfloat :=
  if negb (length pk =? length qk)%nat then Raise ValueError
  else
    let vec := map (fun xy => rel_entr xy.1 xy.2)
                   (zip (normalize pk) (normalize qk)) in
    let S' := fold_left nadd vec (Real 0) in
    Ret (match base with
         | Some b => ndiv S' (ln b)
         | None => S'
         end).

(** ** The metric library ([socialsim/metrics/metrics.py]) *)

Module Metrics.

(** The [bins] argument of [np.histogram] when it names a rule. *)
Inductive bin_method : Type :=
| Auto
| Doane.

(** The [how] argument of [DataFrame.merge]. *)
Inductive join_kind : Type :=
| Inner
| Outer
| Left
| Right.

(** The [fill_value] argument of [join_dfs]: a number, or the name of a
    fill method such as ["ffill"]. *)
Inductive fill : Type :=
| FillNumber (q : Q)
| FillMethod (name : string).

(** A scalar argument of the scalar metrics. *)
Inductive pyobj : Type :=
| PyNumber (x : pyfloat)
| PyStr (s : string)
| PyNone
| PyContainer.

Section Library.

(** The values of the key columns of one row. *)
Context {key : Type}.

(** A table: rows of key columns and one ['value'] column. *)
Definition frame : Type := list (key * pyfloat).
(** Two tables merged on their key columns: ['value_gt'], ['value_sim'];
    a missing cell is [NaN]. *)
Definition merged : Type := list (key * (pyfloat * pyfloat)).

(** A measurement result handed to a metric.  Sequences and value columns
    hold numbers. *)
Inductive measurement : Type :=
| MNone
| MList (xs : list pyfloat)
| MFrame (rows : frame).

(** numpy, pandas and Python builtins that are used but not modelled in
    detail. *)
Record library : Type := {
  (** the number of equal-width bins that [np.histogram] derives from a
      named rule for a nonempty finite sample *)
  n_equal_bins : bin_method -> list Q -> positive;
  (** [left.merge(right, on=keys, suffixes=('_gt', '_sim'), how=...)] *)
  merge : join_kind -> frame -> frame -> outcome merged;
  (** [df.sort_values(keys)] *)
  sort_values : merged -> merged;
  (** [df.fillna(method=name)] *)
  fillna_method : string -> merged -> outcome merged;
  (** the cells of [np.nan_to_num(df)] for a table [df], row by row *)
  frame_cells : frame -> outcome (list pyfloat);
  (** [float(s)] for a string [s]: [None] when [s] is not a float
      literal *)
  str_to_float : string -> option pyfloat
}.

Variable P : library.

(** A numpy array: one-dimensional, or the zero-dimensional array that
    [np.array(None)] is. *)
Inductive ndarray : Type :=
| ZeroDim
| Arr (xs : list pyfloat).

(** [check_data_types] for one argument: a table gives its ['value']
    column, then [np.array]. *)
Definition as_array (x : measurement) : ndarray :=
  match x with
  | MNone => ZeroDim
  | MList xs => Arr xs
  | MFrame rows => Arr (map snd rows)
  end.

Definition check_data_types (ground_truth simulation : measurement)
  : ndarray * ndarray :=
  (as_array ground_truth, as_array simulation).

(** The finite values of an array, if all are finite. *)
Fixpoint all_finite (a : list pyfloat) : option (list Q) :=
  match a with
  | [] => Some []
  | Fin q :: a' => option_map (cons q) (all_finite a')
  | _ :: _ => None
  end.

(** [a[np.isfinite(a)]] *)
Definition finite_part (a : ndarray) : ndarray :=
  match a with
  | ZeroDim => ZeroDim
  | Arr xs => Arr (List.filter isfinite xs)
  end.

Definition Qminimum (x : Q) (a : list Q) : Q := fold_left Qmin a x.
Definition Qmaximum (x : Q) (a : list Q) : Q := fold_left Qmax a x.

(** The range that [np.histogram] gives to the bins: [(0, 1)] for an
    empty sample, the extreme values otherwise, widened by one half on
    each side when they coincide. *)
Definition outer_edges (a : list Q) : Q * Q :=
  match a with
  | [] => (0, 1)%Q
  | x :: a' =>
      let first_edge := Qminimum x a' in
      let last_edge := Qmaximum x a' in
      if Qeq_bool first_edge last_edge
      then (first_edge - (1 # 2), last_edge + (1 # 2))%Q
      else (first_edge, last_edge)
  end.

(** [np.linspace(first_edge, last_edge, n + 1)] *)
Definition linspace (first_edge last_edge : Q) (n : positive) : list Q :=
  map (fun i => first_edge
                + inject_Z (Z.of_nat i) * ((last_edge - first_edge)
                                           / inject_Z (Z.pos n)))%Q
      (seq 0 (Pos.to_nat n + 1)).

(** The bin edges of [np.histogram(a, bins=method)] for a finite sample.
    numpy can fail on finite doubles whose range degenerates or overflows;
    the properties below that need the edges say so with a condition that
    the edges are returned. *)
Definition bin_edges (qs : list Q) (method : bin_method) : list Q :=
  let '(first_edge, last_edge) := outer_edges qs in
  let n := match qs with
           | [] => 1%positive
           | _ => n_equal_bins P method qs
           end in
  linspace first_edge last_edge n.

(** A sample with a non-finite value is refused. *)
Definition histogram_bin_edges (a : list pyfloat) (method : bin_method)
  : outcome (list Q) :=
  match all_finite a with
  | None => Raise ValueError
  | Some qs => Ret (bin_edges qs method)
  end.

(** [get_hist_bins(ground_truth, simulation, method)]; a
    zero-dimensional array cannot be concatenated. *)
Definition get_hist_bins (ground_truth simulation : ndarray)
    (method : bin_method) : outcome (list Q) :=
  match ground_truth, simulation with
  | Arr gt, Arr sim =>
      let all_data := gt ++ sim in
      histogram_bin_edges all_data method
  | _, _ => Raise ValueError
  end.

(** The default of the [method] parameter of [get_hist_bins]. *)
Definition default_method : bin_method := Auto.

(** The number of values of [a] in a bin: half-open, except the last bin,
    which is closed. *)
Definition in_bin (lo hi : Q) (last_bin : bool) (x : Q) : bool :=
  Qle_bool lo x && (if last_bin then Qle_bool x hi else Qltb x hi).

Fixpoint bin_counts (a : list Q) (edges : list Q) : list nat :=
  match edges with
  | [] => []
  | lo :: rest =>
      match rest with
      | [] => []
      | hi :: rest' =>
          length (List.filter
                    (in_bin lo hi (match rest' with [] => true | _ => false end))
                    a)
          :: bin_counts a rest
      end
  end.

(** The finite values of an array. *)
Fixpoint finite_values (a : list pyfloat) : list Q :=
  match a with
  | [] => []
  | Fin q :: a' => q :: finite_values a'
  | _ :: a' => finite_values a'
  end.

(** [np.histogram(a, bins=edges)[0]]: with explicit edges, [nan] and the
    infinities fall in no bin. *)
Definition histogram (a : ndarray) (edges : list Q) : outcome (list nat) :=
  match a with
  | ZeroDim => Raise TypeError
  | Arr xs => Ret (bin_counts (finite_values xs) edges)
  end.

(** [counts.astype(float)] *)
Definition astype_float (counts : list nat) : list pyfloat :=
  map (fun c => Fin (inject_Z (Z.of_nat c))) counts.

(** [df.fillna(0)] on the two value columns. *)
Definition fillna0 (x : pyfloat) : pyfloat :=
  match x with
  | NaN => Fin 0
  | _ => x
  end.

(** The discrete branch shared by the divergences: outer merge, zero
    fill, the two value columns. *)
Definition merged_columns (ground_truth simulation : measurement)
  : outcome (list pyfloat * list pyfloat) :=
  match ground_truth, simulation with
  | MFrame gt, MFrame sim =>
      do df <- merge P Outer gt sim;
      Ret (map (fun r => fillna0 r.2.1) df, map (fun r => fillna0 r.2.2) df)
  | MFrame _, _ => Raise TypeError
  | _, _ => Raise (AttributeError "merge")
  end.

(** The defaults of the keyword parameters ([alpha=0.01],
    [discrete=False], [base=2.0], [join='inner'], [fill_value=0]). *)
Definition default_alpha : pyfloat := Fin (1 # 100).
Definition default_discrete : bool := false.
Definition default_base : R := 2%R.
Definition default_join : join_kind := Inner.
Definition default_fill_value : fill := FillNumber 0.

(** [entropy(p, q)] under the test [len(p) == len(q)] that ends the
    divergences; [q] may be an unbound local. *)
Definition entropy_if_same_length (p compared : list pyfloat)
    (q : outcome (list pyfloat)) : outcome (option npfloat) :=
  if (length p =? length compared)%nat then
    do q' <- q;
    do e <- entropy p q' None;
    Ret (Some e)
  else Ret None.

(** [kl_divergence(ground_truth, simulation, discrete)] *)
Definition kl_divergence (ground_truth simulation : measurement)
    (discrete : bool) : outcome (option npfloat) :=
  match simulation with
  | MNone => Ret None
  | _ =>
      do cols <-
        (if negb discrete then
           let '(gt, sim) := check_data_types ground_truth simulation in
           do bins <- get_hist_bins gt sim Doane;
           do g <- histogram gt bins;
           do s <- histogram sim bins;
           Ret (astype_float g, astype_float s)
         else
           do c <- merged_columns ground_truth simulation;
           Ret (normalize c.1, normalize c.2));
      entropy_if_same_length cols.1 cols.2 (Ret cols.2)
  end.

(** [(1 - alpha) * simulation + alpha * np.ones(simulation.shape)] *)
Definition smooth (alpha : pyfloat) (simulation : list pyfloat)
  : list pyfloat :=
  map (fun c => fadd (fmul (fsub (Fin 1) alpha) c) (fmul alpha (Fin 1)))
      simulation.

(** The bin edges that [kl_divergence_smoothed] uses: [get_hist_bins] is
    called without [method]. *)
Definition smoothed_bins (ground_truth simulation : measurement)
  : outcome (list Q) :=
  let '(gt, sim) := check_data_types ground_truth simulation in
  get_hist_bins gt sim default_method.

(** [kl_divergence_smoothed(ground_truth, simulation, alpha, discrete)];
    the local [smoothed_simulation] is assigned in the first branch
    only. *)
Definition kl_divergence_smoothed (ground_truth simulation : measurement)
    (alpha : pyfloat) (discrete : bool) : outcome (option npfloat) :=
  do vars <-
    (if negb discrete then
       let '(gt, sim) := check_data_types ground_truth simulation in
       do bins <- get_hist_bins gt sim default_method;
       do g <- histogram gt bins;
       do s <- histogram sim bins;
       Ret (astype_float g, astype_float s,
            Ret (smooth alpha (astype_float s)))
     else
       do c <- merged_columns ground_truth simulation;
       Ret (normalize c.1, normalize c.2,
            Raise (UnboundLocalError "smoothed_simulation")));
  entropy_if_same_length vars.1.1 vars.1.2 vars.2.

(** The rows of a table whose value is finite:
    [df[np.isfinite(df.value)]]. *)
Definition finite_rows (rows : frame) : frame :=
  List.filter (fun r => isfinite r.2) rows.

(** [x is None or len(x) == 0] *)
Definition none_or_empty (x : measurement) : bool :=
  match x with
  | MNone => true
  | MList xs => (length xs =? 0)%nat
  | MFrame rows => (length rows =? 0)%nat
  end.

(** [1. / 2 * (ground_truth + simulation)] *)
Definition mixture (ground_truth simulation : list pyfloat) : list pyfloat :=
  map (fun xy => fmul (Fin (1 # 2)) (fadd xy.1 xy.2))
      (zip ground_truth simulation).

(** The end of [js_divergence]: both vectors are normalised, and if their
    lengths agree the two entropies against the mixture are averaged. *)
Definition jensen_shannon (ground_truth simulation : list pyfloat) (base : R)
  : outcome (option npfloat) :=
  let gt := normalize ground_truth in
  let sim := normalize simulation in
  if (length gt =? length sim)%nat then
    let m := mixture gt sim in
    do e1 <- entropy gt m (Some base);
    do e2 <- entropy sim m (Some base);
    Ret (Some (nadd (ndiv e1 2) (ndiv e2 2)))
  else Ret None.

(** [js_divergence(ground_truth, simulation, discrete, base)].  The
    arrays hold numbers, so [np.isfinite] does not raise. *)
Definition js_divergence (ground_truth simulation : measurement)
    (discrete : bool) (base : R) : outcome (option npfloat) :=
  if none_or_empty simulation || none_or_empty ground_truth then Ret None
  else
    do cols <-
      (if negb discrete then
         let '(gt, sim) := check_data_types ground_truth simulation in
         let gt := finite_part gt in
         let sim := finite_part sim in
         do bins <- get_hist_bins gt sim Doane;
         do g <- histogram gt bins;
         do s <- histogram sim bins;
         Ret (astype_float g, astype_float s)
       else
         match ground_truth, simulation with
         | MFrame gt, MFrame sim =>
             merged_columns (MFrame (finite_rows gt))
                            (MFrame (finite_rows sim))
         | _, _ => Raise (AttributeError "value")
         end);
    jensen_shannon cols.1 cols.2 base.

(** The values of a measurement. *)
Definition values (x : measurement) : list pyfloat :=
  match x with
  | MNone => []
  | MList xs => xs
  | MFrame rows => map snd rows
  end.

(** [np.nan_to_num]: [nan] becomes 0 and the infinities the largest
    finite doubles. *)
Definition DBL_MAX : Q := inject_Z (2 ^ 1024 - 2 ^ 971).

Definition nan_to_num (x : pyfloat) : pyfloat :=
  match x with
  | Fin q => Fin q
  | PosInf => Fin DBL_MAX
  | NegInf => Fin (- DBL_MAX)
  | NaN => Fin 0
  end.

(** [a - b] on one-dimensional arrays, with numpy's broadcasting. *)
Definition broadcast_sub (a b : list pyfloat) : outcome (list pyfloat) :=
  if (length a =? length b)%nat
  then Ret (map (fun xy => fsub xy.1 xy.2) (zip a b))
  else match a, b with
       | [x], _ => Ret (map (fun y => fsub x y) b)
       | _, [y] => Ret (map (fun x => fsub x y) a)
       | _, _ => Raise ValueError
       end.

(** [a.mean()] *)
Definition mean (a : list pyfloat) : pyfloat :=
  fdiv (fsum a) (Fin (inject_Z (Z.of_nat (length a)))).

(** [np.sqrt] *)
Definition nsqrt (x : pyfloat) : npfloat :=
  match x with
  | Fin a => if Qltb a 0 then Nan else Real (sqrt (Q2R a))
  | PosInf => PInf
  | NegInf | NaN => Nan
  end.

(** [np.sqrt(((a - b) ** 2).mean())] *)
Definition root_mean_square (a b : list pyfloat) : outcome npfloat :=
  do d <- broadcast_sub a b;
  Ret (nsqrt (mean (map (fun x => fmul x x) d))).

(** [df.fillna(c)] for a number [c]. *)
Definition fillna (c : Q) (x : pyfloat) : pyfloat :=
  match x with
  | NaN => Fin c
  | _ => x
  end.

(** [join_dfs(ground_truth, simulation, join, fill_value)] *)
Definition join_dfs (ground_truth simulation : frame) (join : join_kind)
    (fill_value : fill) : outcome merged :=
  do df <- merge P join ground_truth simulation;
  let df := sort_values P df in
  match fill_value with
  | FillNumber c =>
      Ret (map (fun r => (r.1, (fillna c r.2.1, fillna c r.2.2))) df)
  | FillMethod name => fillna_method P name df
  end.

Definition Qsum (l : list Q) : Q := fold_left Qplus l 0%Q.

(** [sklearn.metrics.r2_score(y_true, y_pred)]: non-finite input is
    refused; a zero total sum of squares gives 1 for a perfect fit and 0
    otherwise. *)
Definition r2_score (y_true y_pred : list pyfloat) : outcome npfloat :=
  match all_finite y_true, all_finite y_pred with
  | Some yt, Some yp =>
      if negb (length yt =? length yp)%nat then Raise ValueError
      else
        let n := inject_Z (Z.of_nat (length yt)) in
        let numerator :=
          Qsum (map (fun tp => (tp.1 - tp.2) * (tp.1 - tp.2))%Q (zip yt yp)) in
        let average := (Qsum yt / n)%Q in
        let denominator :=
          Qsum (map (fun t => (t - average) * (t - average))%Q yt) in
        if negb (Qeq_bool denominator 0)
        then Ret (Real (Q2R (1 - numerator / denominator)))
        else if negb (Qeq_bool numerator 0) then Ret (Real 0)
        else Ret (Real 1)
  | _, _ => Raise ValueError
  end.

(** [r2(ground_truth, simulation, join, fill_value)].  The block under
    [type(ground_truth) is list] mixes tabs and spaces; it is read with tab
    stops of 8 columns, which puts its five statements in one block. *)
Definition r2 (ground_truth simulation : measurement) (join : join_kind)
    (fill_value : fill) : outcome (option npfloat) :=
  match simulation, ground_truth with
  | MNone, _ | _, MNone => Ret None
  | _, _ =>
      if none_or_empty simulation || none_or_empty ground_truth then Ret None
      else
        match ground_truth with
        | MList gt =>
            (* type(ground_truth) is list *)
            let gt := map nan_to_num gt in
            do sim <- match simulation with
                      | MFrame rows => frame_cells P rows
                      | MList xs => Ret (map nan_to_num xs)
                      | MNone => Ret []
                      end;
            let gt := List.filter isfinite gt in
            let sim := List.filter isfinite sim in
            do v <- root_mean_square gt sim;
            Ret (Some v)
        | _ =>
            match ground_truth, simulation with
            | MFrame gt, MFrame sim =>
                let gt := finite_rows gt in
                let sim := finite_rows sim in
                do joined <- join_dfs gt sim join fill_value;
                let df := map (fun r => (r.1, (fillna0 r.2.1, fillna0 r.2.2)))
                              joined in
                if (length df <=? 1)%nat then Ret None
                else
                  do v <- r2_score (map (fun r => r.2.1) df)
                                   (map (fun r => r.2.2) df);
                  Ret (Some v)
            | _, _ => Raise (AttributeError "value")
            end
        end
  end.

(** *** Scalar metrics *)

(** [float(x)] *)
Definition to_float (x : pyobj) : outcome pyfloat :=
  match x with
  | PyNumber v => Ret v
  | PyStr s =>
      match str_to_float P s with
      | Some v => Ret v
      | None => Raise ValueError
      end
  | PyNone | PyContainer => Raise TypeError
  end.

(** [try: ... except TypeError: return None] *)
Definition except_TypeError {A} (body : outcome (option A))
  : outcome (option A) :=
  match body with
  | Raise TypeError => Ret None
  | _ => body
  end.

(** [x == 0] *)
Definition equals_zero (x : pyobj) : bool :=
  match x with
  | PyNumber (Fin q) => Qeq_bool q 0
  | _ => false
  end.

(** [absolute_difference(ground_truth, simulation)] *)
Definition absolute_difference (ground_truth simulation : pyobj)
  : outcome (option pyfloat) :=
  except_TypeError
    (do s <- to_float simulation;
     do g <- to_float ground_truth;
     Ret (Some (fabs (fsub s g)))).

(** [absolute_percentage_error(ground_truth, simulation)] *)
Definition absolute_percentage_error (ground_truth simulation : pyobj)
  : outcome (option pyfloat) :=
  except_TypeError
    (if equals_zero ground_truth then Ret None
     else
       do s <- to_float simulation;
       do g <- to_float ground_truth;
       do g' <- to_float ground_truth;
       Ret (Some (fdiv (fmul (Fin 100) (fabs (fsub s g))) g'))).

End Library.

End Metrics.

(** ** Measurement orchestration ([socialsim/run.py]) *)

Module Run.

(** The seven measurement classes imported from [.measurements]. *)
Inductive collaborator : Type :=
| SocialActivityMeasurements
| InformationCascadeMeasurements
| SocialStructureMeasurements
| CrossPlatformMeasurements
| MultiPlatformMeasurements
| RecurrenceMeasurements
| PersistentGroupsMeasurements.

(** The [if]/[elif] chain of [run_measurements]: it assigns the local
    variable [Measurement] for the seven names and has no [else], so any
    other name leaves the variable as it was. *)
Definition resolve (measurement_type : string)
    (Measurement : option collaborator) : option collaborator :=
  if String.eqb measurement_type "social_activity"
  then Some SocialActivityMeasurements
  else if String.eqb measurement_type "information_cascades"
  then Some InformationCascadeMeasurements
  else if String.eqb measurement_type "social_structure"
  then Some SocialStructureMeasurements
  else if String.eqb measurement_type "cross_platform"
  then Some CrossPlatformMeasurements
  else if String.eqb measurement_type "multi_platform"
  then Some MultiPlatformMeasurements
  else if String.eqb measurement_type "recurrence"
  then Some RecurrenceMeasurements
  else if String.eqb measurement_type "persistent_groups"
  then Some PersistentGroupsMeasurements
  else Measurement.

Definition known_names : list string :=
  ["social_activity"; "information_cascades"; "social_structure";
   "cross_platform"; "multi_platform"; "recurrence"; "persistent_groups"].

Definition known (measurement_type : string) : bool :=
  existsb (String.eqb measurement_type) known_names.

(** The value of the local [dataset_subset]: the initial [[]] or a frame. *)
Inductive dataset_subset (dataset : Type) : Type :=
| EmptyList
| Frame (d : dataset).
Arguments EmptyList {dataset}.
Arguments Frame {dataset} d.

(** The keyword arguments handed to [measurement.run]. *)
Record kwargs : Type := {
  kw_verbose : bool;
  kw_save : bool;
  kw_save_directory : string;
  kw_save_format : string
}.

(** A value of [measurement_logs]: what the collaborator's [run] returned,
    or one of the [{'status': ..., 'error': ...}] dicts built here. *)
Inductive log_entry (mlogs : Type) : Type :=
| RunLogs (l : mlogs)
| Failure (status : string) (error : exn).
Arguments RunLogs {mlogs} l.
Arguments Failure {mlogs} status error.

Section Orchestrator.

Context {dataset metadata config_subset mobject mresults mlogs : Type}.
Context {metrics metrics_logs : Type}.

(** The configuration, in iteration order; the nested result and log
    collections: platform, then measurement type. *)
Definition configuration : Type :=
  list (string * list (string * config_subset)).
Abbreviation results_t := (gmap string (gmap string (option mresults))).
Abbreviation logs_t := (gmap string (gmap string (log_entry mlogs))).

(** Code outside this module that [run.py] calls. *)
Record externals : Type := {
  (** [dataset[dataset['platform'] == platform]] *)
  select_platform : dataset -> string -> outcome dataset;
  (** [utils.subset_for_test] *)
  subset_for_test : dataset -> outcome dataset;
  (** [Measurement(dataset_subset, [platform,] configuration_subset,
      metadata)]: the platform is omitted for ['multi_platform']. *)
  construct : collaborator -> dataset_subset dataset -> option string ->
              config_subset -> metadata -> outcome mobject;
  (** [measurement.run] with the keyword arguments *)
  run : mobject -> kwargs -> outcome (mresults * mlogs);
  (** [load.load_measurements(str)] *)
  load_measurements : outcome (results_t * logs_t);
  (** [Metrics(simulation, ground_truth, configuration).run(verbose,
      plot_dir)] *)
  metrics_run : results_t -> results_t -> configuration -> bool -> string ->
                outcome (metrics * metrics_logs)
}.

Variable E : externals.

(** The function-level locals of [run_measurements] that survive from one
    loop iteration to the next; [None] is an unbound name. *)
Record locals : Type := {
  Measurement : option collaborator;
  measurement_results : option (option mresults);
  measurement_logs : option (log_entry mlogs)
}.

Definition unbound : locals :=
  {| Measurement := None; measurement_results := None;
     measurement_logs := None |}.

(** The [try] block that subsets the dataset: the value of
    [dataset_subset] afterwards, and the exception if one was raised. *)
Definition subset_step (data : dataset) (platform : string) (test : bool)
  : dataset_subset dataset * option exn :=
  match (if String.eqb platform "multi_platform" then Ret data
         else select_platform E data platform) with
  | Raise error => (EmptyList, Some error)
  | Ret d =>
      if test then
        match subset_for_test E d with
        | Raise error => (Frame d, Some error)
        | Ret d' => (Frame d', None)
        end
      else (Frame d, None)
  end.

(** The [except] clause of the subsetting step: it assigns
    [measurement_logs] and nothing else. *)
Definition subset_except (platform : string) (failure : option exn)
    (vars : locals) : locals :=
  match failure with
  | None => vars
  | Some error =>
      {| Measurement := Measurement vars;
         measurement_results := measurement_results vars;
         measurement_logs :=
           Some (Failure ("Failed to subset " ++ platform)%string error) |}
  end.

(** The nested [try] blocks: instantiate, then run. *)
Definition instantiate_and_run (M : option collaborator)
    (subset : dataset_subset dataset) (platform : string)
    (configuration_subset : config_subset) (meta : metadata) (kw : kwargs)
  : option mresults * log_entry mlogs :=
  let instance :=
    match M with
    | None => Raise (UnboundLocalError "Measurement")
    | Some c =>
        if String.eqb platform "multi_platform"
        then construct E c subset None configuration_subset meta
        else construct E c subset (Some platform) configuration_subset meta
    end in
  match instance with
  | Raise error =>
      (None, Failure "Failed to instantiate measurements object" error)
  | Ret measurement =>
      match run E measurement kw with
      | Raise error => (None, Failure "Measurements object failed to run." error)
      | Ret (r, l) => (Some r, RunLogs l)
      end
  end.

Definition platform_state : Type :=
  locals * gmap string (option mresults) * gmap string (log_entry mlogs).

(** One iteration of the loop over measurement types. *)
Definition measurement_step (subset : dataset_subset dataset)
    (platform : string) (meta : metadata) (kw : kwargs)
    (st : platform_state) (item : string * config_subset) : platform_state :=
  let '(vars, platform_results, platform_logs) := st in
  let '(measurement_type, configuration_subset) := item in
  let M := resolve measurement_type (Measurement vars) in
  let '(r, l) :=
    instantiate_and_run M subset platform configuration_subset meta kw in
  ({| Measurement := M; measurement_results := Some r;
      measurement_logs := Some l |},
   <[measurement_type := r]> platform_results,
   <[measurement_type := l]> platform_logs).

Definition run_state : Type := locals * results_t * logs_t.

(** One iteration of the loop over platforms. *)
Definition platform_step (data : dataset) (meta : metadata) (kw : kwargs)
    (test : bool) (st : run_state)
    (item : string * list (string * config_subset)) : run_state :=
  let '(vars, results, logs) := st in
  let '(platform, types) := item in
  let '(subset, failure) := subset_step data platform test in
  let vars1 := subset_except platform failure vars in
  let '(vars2, platform_results, platform_logs) :=
    fold_left (measurement_step subset platform meta kw) types
              (vars1, ∅, ∅) in
  (vars2, <[platform := platform_results]> results,
   <[platform := platform_logs]> logs).

Definition run_loop (data : dataset) (config : configuration)
    (meta : metadata) (kw : kwargs) (test : bool) : run_state :=
  fold_left (platform_step data meta kw test) config (unbound, ∅, ∅).

(** [run_measurements(dataset, configuration, metadata, timing, verbose,
    save, save_directory, save_format, test)] *)
Definition run_measurements (data : dataset) (config : configuration)
    (meta : metadata) (timing verbose save : bool)
    (save_directory save_format : string) (test : bool)
  : results_t * logs_t :=
  let kw := {| kw_verbose := verbose; kw_save := save;
               kw_save_directory := save_directory;
               kw_save_format := save_format |} in
  let '(_, results, logs) := run_loop data config meta kw test in
  (results, logs).

(** [run_metrics(simulation, ground_truth, configuration, verbose,
    plot_dir)] *)
Definition run_metrics (simulation ground_truth : results_t)
    (config : configuration) (verbose : bool) (plot_dir : string)
  : outcome (metrics * metrics_logs) :=
  metrics_run E simulation ground_truth config verbose plot_dir.

End Orchestrator.

(** *** [TaskRunner] *)

Section Runner.

Context {dataset metadata config_subset mobject mresults mlogs : Type}.
Context {metrics metrics_logs : Type}.

Abbreviation results_of := (gmap string (gmap string (option mresults))).
Abbreviation logs_of := (gmap string (gmap string (log_entry mlogs))).
Abbreviation externals_of :=
  (@externals dataset metadata config_subset mobject mresults mlogs
              metrics metrics_logs).

(** Python dicts are shared objects: a result collection lives in a store
    and is held through its address, so that two names for one collection
    see each other's changes. *)
Abbreviation store := (gmap nat results_of).

(** [dict(...)] for a new result collection: a fresh address. *)
Definition allocate (s : store) (r : results_of) : nat * store :=
  (fresh (dom s), <[fresh (dom s) := r]> s).

(** The code around the runner as it is at one moment: the measurement
    classes, loaders and metrics engine, and what the metrics engine does
    to the two result collections that it is handed (it receives the
    objects themselves, not copies). *)
Record surroundings : Type := {
  at_externals : externals_of;
  (** [Metrics(simulation, ground_truth, configuration).run(...)] on the
      store: the arguments are the addresses of the simulation and of the
      ground-truth collection *)
  metrics_effect : store -> nat -> nat -> store
}.

(** The [ground_truth] argument of the constructor: [ground_truth is str]
    holds for the type object [str] alone. *)
Inductive ground_truth_arg : Type :=
| StrType
| Data (d : dataset).

(** The attributes of a runner; [ground_truth_results] is the address of
    the collection. *)
Record TaskRunner : Type := {
  ground_truth : ground_truth_arg;
  tr_metadata : metadata;
  tr_configuration : @configuration config_subset;
  tr_test : bool;
  plot_dir : string;
  ground_truth_results : nat;
  ground_truth_logs : logs_of
}.

(** [TaskRunner.__init__], in the surroundings [W] and the store [s]. *)
Definition init (W : surroundings) (s : store) (gt : ground_truth_arg)
    (config : @configuration config_subset) (meta : metadata) (test : bool)
    (plots : string) : outcome (TaskRunner * store) :=
  do temp <-
    match gt with
    | StrType => load_measurements (at_externals W)
    | Data d =>
        Ret (run_measurements (at_externals W) d config meta false true false
                              "./" "json" test)
    end;
  let '(address, s') := allocate s (fst temp) in
  Ret ({| ground_truth := gt; tr_metadata := meta;
          tr_configuration := config; tr_test := test;
          plot_dir := plots;
          ground_truth_results := address;
          ground_truth_logs := snd temp |}, s').

(** The two dicts that an invocation returns; the result collections are
    held by address. *)
Record result_bundle : Type := {
  b_simulation_results : nat;
  b_ground_truth_results : nat;
  b_metrics : metrics
}.

Record log_bundle : Type := {
  b_simulation_logs : logs_of;
  b_ground_truth_logs : logs_of;
  b_metrics_logs : metrics_logs
}.

(** The arguments of one invocation of the runner. *)
Record invocation : Type := {
  i_dataset : dataset;
  i_timing : bool;
  i_verbose : bool;
  i_save : bool;
  i_save_directory : string;
  i_save_format : string
}.

(** [TaskRunner.__call__] in the surroundings [W] and the store [s]: the
    outcome and the store afterwards.  No attribute of the runner is
    assigned.  The metrics engine reads the two collections as they are in
    the store and may change them, also when it raises. *)
Definition call (W : surroundings) (s : store) (self : TaskRunner)
    (a : invocation) : outcome (result_bundle * log_bundle) * store :=
  let config := tr_configuration self in
  let '(simulation_results, simulation_logs) :=
    run_measurements (at_externals W) (i_dataset a) config (tr_metadata self)
                     (i_timing a) (i_verbose a) (i_save a)
                     (i_save_directory a) (i_save_format a) (tr_test self) in
  let '(simulation_address, s1) := allocate s simulation_results in
  let gt_results := ground_truth_results self in
  let gt_logs := ground_truth_logs self in
  (do m <- run_metrics (at_externals W) simulation_results
                       (default ∅ (s1 !! gt_results)) config (i_verbose a)
                       (plot_dir self);
   Ret ({| b_simulation_results := simulation_address;
           b_ground_truth_results := gt_results;
           b_metrics := fst m |},
        {| b_simulation_logs := simulation_logs;
           b_ground_truth_logs := gt_logs;
           b_metrics_logs := snd m |}),
   metrics_effect W s1 simulation_address gt_results).



End Runner.

(** The collaborator that the [if]/[elif] chain names, if any. *)
Definition class_of (measurement_type : string) : option collaborator :=
  resolve measurement_type None.

(** The collaborator named by the last known name of a list. *)
Definition last_known (names : list string) : option collaborator :=
  last (omap class_of names).

(** The measurement-type names of the platforms of a configuration, in
    iteration order. *)
Definition type_names {config_subset : Type}
    (config : list (string * list (string * config_subset))) : list string :=
  concat (map (fun item => map fst (snd item)) config).

End Run.

(** ** A small concrete instance of the external code *)

Module Example.
Import Run.

(** A dataset is a list of (platform, payload) rows; [None] stands for an
    object that cannot be indexed by ['platform']. *)
Definition dataset : Type := option (list (string * nat)).

Definition rows_of (s : dataset_subset dataset) : nat :=
  match s with
  | EmptyList => 0
  | Frame None => 0
  | Frame (Some rows) => length rows
  end.

Definition world
  : @externals dataset unit nat (collaborator * nat) nat string unit unit :=
  {| select_platform := fun d platform =>
       match d with
       | None => Raise TypeError
       | Some rows =>
           Ret (Some (List.filter (fun r => String.eqb (fst r) platform) rows))
       end;
     subset_for_test := fun d => Ret (option_map (take 1) d);
     construct := fun c subset platform configuration_subset meta =>
       match c with
       | SocialStructureMeasurements => Raise (External "construction failed")
       | _ => Ret (c, rows_of subset + configuration_subset)%nat
       end;
     run := fun m kw => Ret (snd m, "success");
     load_measurements := Raise (External "no measurements file");
     metrics_run := fun simulation gt config verbose plots => Ret (tt, tt) |}.

Definition tweets : dataset :=
  Some [("twitter", 1%nat); ("reddit", 2%nat); ("twitter", 3%nat)].

(** A configuration with one platform and one measurement type. *)
Definition twitter_activity : list (string * list (string * nat)) :=
  [("twitter", [("social_activity", 5%nat)])].

(** A configuration whose second measurement type is not a known name. *)
Definition twitter_bogus : list (string * list (string * nat)) :=
  [("twitter", [("social_activity", 1%nat); ("bogus", 2%nat)])].

End Example.

(** ** A small concrete instance of the libraries *)

Module MetricsExample.
Import Metrics.

(** Sturges' rule, [ceil(log2(n)) + 1] bins, for both named rules. *)
Definition sturges (qs : list Q) : positive :=
  Pos.of_succ_nat (Nat.log2_up (length qs)).

(** A nested-loop join on one string key column; it never fails. *)
Definition has_key (k : string) (rows : @frame string) : bool :=
  existsb (fun r => String.eqb r.1 k) rows.

Definition join_rows (how : join_kind) (gt sim : @frame string)
  : @merged string :=
  let matched :=
    concat (map (fun l =>
                   map (fun r => (l.1, (l.2, r.2)))
                       (List.filter (fun r => String.eqb r.1 l.1) sim))
                gt) in
  let left_only :=
    map (fun l => (l.1, (l.2, NaN)))
        (List.filter (fun l => negb (has_key l.1 sim)) gt) in
  let right_only :=
    map (fun r => (r.1, (NaN, r.2)))
        (List.filter (fun r => negb (has_key r.1 gt)) sim) in
  match how with
  | Inner => matched
  | Left => matched ++ left_only
  | Right => matched ++ right_only
  | Outer => matched ++ left_only ++ right_only
  end.

Fixpoint insert_row (r : string * (pyfloat * pyfloat))
    (df : @merged string) : @merged string :=
  match df with
  | [] => [r]
  | r' :: df' =>
      if String.leb r.1 r'.1 then r :: df else r' :: insert_row r df'
  end.

Definition sort_rows (df : @merged string) : @merged string :=
  fold_right insert_row [] df.

(** Decimal digit strings only. *)
Definition digits_to_float (s : string) : option pyfloat :=
  match s with
  | "" => None
  | _ => option_map (fun u => Fin (inject_Z (Z.of_nat (Nat.of_uint u))))
                    (NilEmpty.uint_of_string s)
  end.

Definition lib : @library string :=
  {| n_equal_bins := fun method qs => sturges qs;
     merge := fun how gt sim => Ret (join_rows how gt sim);
     sort_values := sort_rows;
     fillna_method := fun name df => Raise ValueError;
     frame_cells := fun rows => Raise TypeError;
     str_to_float := digits_to_float |}.

End MetricsExample.

(** ** Notions used in the statements and proofs below *)

(** The [i]-th of the [n + 1] evenly spaced edges from [lo] to [hi]. *)
Definition edge (lo hi : Q) (n : positive) (i : nat) : Q :=
  (lo + inject_Z (Z.of_nat i) * ((hi - lo) / inject_Z (Z.pos n)))%Q.

(** The mean of a pair of finite values, as in [mixture]. *)
Definition mix (xy : Q * Q) : Q := ((1 # 2) * (xy.1 + xy.2))%Q.

(** A chain [e0 <= e1 <= ...]. *)
Fixpoint ascending (e0 : Q) (rest : list Q) : Prop :=
  match rest with
  | [] => True
  | e1 :: rest' => (e0 <= e1)%Q /\ ascending e1 rest'
  end.

(** Componentwise conditions under which a relative entropy is a real
    number: nonnegative entries, and no mass where the reference has
    none. *)
Definition dominated (a b : list Q) : Prop :=
  Forall2 (fun x y => 0 <= x /\ 0 <= y /\ (0 < x -> 0 < y))%Q a b.

(** A measurement with at least one finite value. *)
Definition has_finite_value {key : Type} (x : @Metrics.measurement key)
  : Prop :=
  Metrics.finite_values (Metrics.values x) <> [].

(** ** Further embedded code *)

(** *** Rank-biased overlap: the lists compared, and grouped scores *)

Module RboMore.
Import Rbo.

(** The two ranked lists that [rbo_score] extracts: the entity column
    named by the ground truth's columns from both frames when the ground
    truth has two columns, the two indexes otherwise. *)
Definition ranked_pair (ground_truth simulation : DataFrame)
  : outcome (list string * list string) :=
  if (length (columns ground_truth) =? 2)%nat then
    match filter (fun c => c ≠ "value") (columns ground_truth) with
    | [] => Raise IndexError
    | entity :: _ =>
        do gt <- getitem ground_truth entity;
        do sim <- getitem simulation entity;
        Ret (gt, sim)
    end
  else Ret (index ground_truth, index simulation).

(** Two frames indexed by disjoint entities. *)
Definition by_index (entities : list string) : DataFrame :=
  {| columns := ["value"]; column := ∅; index := entities |}.

(** A Python dict with string keys, in insertion order. *)
Definition dict (V : Type) : Type := list (string * V).

Fixpoint dict_get {V} (d : dict V) (k : string) : option V :=
  match d with
  | [] => None
  | (k', v) :: d' => if String.eqb k' k then Some v else dict_get d' k
  end.

(** [d[k]] *)
Definition dict_item {V} (d : dict V) (k : string) : outcome V :=
  match dict_get d k with
  | Some v => Ret v
  | None => Raise (KeyError k)
  end.

(** [k in d] *)
Definition dict_has {V} (d : dict V) (k : string) : bool :=
  match dict_get d k with
  | Some _ => true
  | None => false
  end.

(** The first component of a ranked tuple: a string or a tuple of
    strings. *)
Inductive entity : Type :=
| EStr (s : string)
| ETuple (parts : list string).

(** [len(tups[0])] *)
Definition entity_len (e : entity) : nat :=
  match e with
  | EStr s => String.length s
  | ETuple parts => length parts
  end.

(** [list(tups[0])]: the characters of a string, the parts of a tuple. *)
Definition entity_parts (e : entity) : list string :=
  match e with
  | EStr s => map (fun c => String c EmptyString) (String.list_ascii_of_string s)
  | ETuple parts => parts
  end.

(** ['-'.join(list(tups[0])) if len(tups[0]) == 2 else tups[0]] *)
Definition entity_name (e : entity) : entity :=
  if (entity_len e =? 2)%nat
  then EStr (String.concat "-" (entity_parts e))
  else e.

(** [rbo_score(ent_gt, ent_sm, wt)] on two Python lists: the simulation is
    not [None], and a list has no attribute [columns]. *)
Definition rbo_score_of_lists (ground_truth simulation : list entity)
    (p : Q) : outcome (option Q) :=
  Raise (AttributeError "columns").

(** One iteration of the loop of [rbo_for_te] over the groups of the
    ground truth; the state is [(metric, count)]. *)
Definition rbo_group_step {value : Type}
    (simulation : dict (list (entity * value))) (wt : Q) (ct : nat)
    (acc : outcome (Q * nat)) (item : string * list (entity * value))
  : outcome (Q * nat) :=
  do st <- acc;
  let ent_gt := map (fun tups => entity_name tups.1) item.2 in
  if (length ent_gt <? ct)%nat then Ret st
  else
    match dict_get simulation item.1 with
    | None => Ret st
    | Some sim_tups =>
        let count := S st.2 in
        let ent_sm := map (fun tups => entity_name tups.1) sim_tups in
        do r <- rbo_score_of_lists ent_gt ent_sm wt;
        match r with
        | Some v => Ret ((st.1 + v)%Q, count)
        | None => Raise TypeError
        end
    end.

(** [rbo_for_te(ground_truth, simulation, idx, wt, ct)] *)
Definition rbo_for_te {value : Type}
    (ground_truth simulation : dict (dict (list (entity * value))))
    (idx : string) (wt : Q) (ct : nat) : outcome Q :=
  do ground_truth <- dict_item ground_truth idx;
  if (length simulation =? 0)%nat then Ret 0%Q
  else
    do simulation <- dict_item simulation idx;
    do st <- fold_left (rbo_group_step simulation wt ct) ground_truth
                       (Ret (0%Q, 0%nat));
    if (0 <? st.2)%nat
    then Ret (st.1 / inject_Z (Z.of_nat st.2))%Q
    else Ret st.1.

(** Whether some group of the ground truth is long enough and also a
    group of the simulation. *)
Definition comparable_group {value : Type}
    (ground_truth simulation : dict (list (entity * value))) (ct : nat)
  : bool :=
  existsb (fun item => negb (length item.2 <? ct)%nat
                       && dict_has simulation item.1)
          ground_truth.

(** Ranked hashtags per community, for one measurement. *)
Definition te_ground_truth : dict (dict (list (entity * nat))) :=
  [("hashtags", [("c1", [(EStr "covid", 9%nat); (EStr "bt", 4%nat)]);
                 ("c2", [(ETuple ["a"; "b"], 2%nat)])])].

Definition te_simulation : dict (dict (list (entity * nat))) :=
  [("hashtags", [("c1", [(EStr "covid", 7%nat)])])].

End RboMore.

(** *** Orchestration: the shape of an entry *)

Module RunMore.
Import Run.

(** The two statuses that [run_measurements] can store in a log. *)
Definition stored_statuses : list string :=
  ["Failed to instantiate measurements object";
   "Measurements object failed to run."].

(** A result and a log that belong together: both absent, a result with
    the collaborator's logs, or null with one of the stored failure
    statuses. *)
Definition well_logged {mresults mlogs : Type}
    (r : option (option mresults)) (l : option (log_entry mlogs)) : Prop :=
  match r, l with
  | None, None => True
  | Some (Some _), Some (RunLogs _) => True
  | Some None, Some (Failure status _) => status ∈ stored_statuses
  | _, _ => False
  end.

(** The entries of one platform, and of a whole run, are well logged. *)
Definition entries_well_logged {mresults mlogs : Type}
    (pr : gmap string (option mresults))
    (pl : gmap string (log_entry mlogs)) : Prop :=
  forall name, well_logged (pr !! name) (pl !! name).

Definition run_well_logged {mresults mlogs : Type}
    (results : gmap string (gmap string (option mresults)))
    (logs : gmap string (gmap string (log_entry mlogs))) : Prop :=
  forall platform,
    match results !! platform, logs !! platform with
    | Some pr, Some pl => entries_well_logged pr pl
    | None, None => True
    | _, _ => False
    end.

(** A configuration in which the second of three measurement types has a
    collaborator whose construction fails in [Example.world]. *)
Definition twitter_three : list (string * list (string * nat)) :=
  [("twitter", [("social_activity", 1%nat); ("social_structure", 2%nat);
                ("recurrence", 3%nat)])].


(** Surroundings whose metrics engine changes nothing in the store. *)
Definition quiet
    (E : @externals Example.dataset unit nat (collaborator * nat) nat string
                    unit unit)
  : surroundings :=
  {| at_externals := E; metrics_effect := fun s simulation ground_truth => s |}.

(** Surroundings whose metrics engine empties the ground-truth collection
    that it is handed. *)
Definition meddling
    (E : @externals Example.dataset unit nat (collaborator * nat) nat string
                    unit unit)
  : surroundings :=
  {| at_externals := E;
     metrics_effect := fun s simulation ground_truth =>
                         <[ground_truth := ∅]> s |}.

Definition invoke (d : Example.dataset) : @invocation Example.dataset :=
  {| i_dataset := d; i_timing := false; i_verbose := false;
     i_save := false; i_save_directory := "./"; i_save_format := "json" |}.

End RunMore.

(** *** Root mean squared error *)

Module MetricsMore.
Import Metrics.

(** [np.isnan] *)
Definition isnan (x : pyfloat) : bool :=
  match x with
  | NaN => true
  | _ => false
  end.

(** pandas' [Series.mean()]: missing values are skipped. *)
Definition series_mean (v : list pyfloat) : pyfloat :=
  mean (List.filter (fun x => negb (isnan x)) v).

(** [x > 0] for a float *)
Definition fpositive (x : pyfloat) : bool :=
  match x with
  | Fin q => Qltb 0 q
  | PosInf => true
  | _ => false
  end.

(** Division of a numpy float by a positive float. *)
Definition ndiv_positive (x : npfloat) (d : pyfloat) : npfloat :=
  match d with
  | Fin q => ndiv x (Q2R q)
  | _ => match x with
         | Real _ => Real 0
         | _ => Nan
         end
  end.

Section MoreLibrary.

Context {key : Type}.
Variable P : @library key.

(** [scipy.stats.iqr] of an array, as a float *)
Variable iqr : list pyfloat -> pyfloat.

(** [rmse(ground_truth, simulation, join, fill_value, relative)] *)
Definition rmse (ground_truth simulation : @measurement key)
    (join : join_kind) (fill_value : fill) (relative : bool)
  : outcome (option npfloat) :=
  match simulation, ground_truth with
  | MNone, _ | _, MNone => Ret None
  | _, MList gt =>
      (* type(ground_truth) is list *)
      let gt := map nan_to_num gt in
      do sim <- match simulation with
                | MFrame rows => frame_cells P rows
                | MList xs => Ret (map nan_to_num xs)
                | MNone => Ret []
                end;
      do v <- root_mean_square gt sim;
      Ret (Some v)
  | MFrame sim, MFrame gt =>
      do df <- join_dfs P gt sim join fill_value;
      if (0 <? length df)%nat then
        let squares :=
          map (fun r => fmul (fsub r.2.2 r.2.1) (fsub r.2.2 r.2.1)) df in
        if negb relative then Ret (Some (nsqrt (series_mean squares)))
        else
          let iq_range := iqr (map (fun r => r.2.1) df) in
          if fpositive iq_range
          then Ret (Some (ndiv_positive (nsqrt (series_mean squares))
                                        iq_range))
          else Ret None
      else Ret None
  | _, MFrame _ => Raise TypeError
  end.

End MoreLibrary.

(** The sum of the squared differences of two lists of finite values. *)
Definition squared_error (a b : list Q) : Q :=
  Qsum (map (fun xy => (xy.1 + - xy.2) * (xy.1 + - xy.2))%Q (zip a b)).

(** The finite value that [np.nan_to_num] puts in the place of a float. *)
Definition to_num (x : pyfloat) : Q :=
  match x with
  | Fin q => q
  | PosInf => DBL_MAX
  | NegInf => - DBL_MAX
  | NaN => 0
  end.

(** The blend of one count with the uniform vector, on finite values. *)
Definition blend (alpha c : Q) : Q := ((1 + - alpha) * c + alpha * 1)%Q.

(** A float that is not positive, and one that is not negative; an
    infinity counts, [nan] does not. *)
Definition at_most_zero (x : pyfloat) : Prop :=
  match x with
  | Fin q => (q <= 0)%Q
  | NegInf => True
  | _ => False
  end.

Definition at_least_zero (x : pyfloat) : Prop :=
  match x with
  | Fin q => (0 <= q)%Q
  | PosInf => True
  | _ => False
  end.

(** A number of magnitude at most [2^30]: the difference of two such
    numbers and its square fit a 64-bit integer and are far below the
    largest double. *)
Definition small (x : pyfloat) : Prop :=
  match x with
  | Fin q => (Qabs q <= inject_Z (2 ^ 30))%Q
  | _ => False
  end.

(** A small number, or a missing cell. *)
Definition small_or_missing (x : pyfloat) : Prop := x = NaN \/ small x.

(** A numpy float that is at most 1: a real number up to 1, or minus
    infinity; [nan] does not count. *)
Definition at_most_one (v : npfloat) : Prop :=
  match v with
  | Real r => (r <= 1)%R
  | NInf => True
  | _ => False
  end.

End MetricsMore.

(** * Properties *)

(** ** Rank-biased overlap *)

Section RboFacts.
Import Rbo.

Lemma sorted_pair_self (X : list string) :
  sorted_pair X X = ((length X, X), (length X, X)).
Proof.
  unfold sorted_pair. rewrite Nat.ltb_irrefl.
  destruct (list_leb X X); reflexivity.
Qed.

Lemma overlaps_lookup (s : nat) (L S' : list string) (i : nat) :
  (1 <= i <= s)%nat ->
  overlaps s L S' !! i = Some (overlap (take i L) (take i S')).
Proof.
  unfold overlaps. intros Hi.
  assert (Hgen : forall (l : list nat) (m : gmap nat nat),
    (i ∈ l \/ m !! i = Some (overlap (take i L) (take i S'))) ->
    fold_left (fun x_d i => <[i := overlap (take i L) (take i S')]> x_d) l m !! i
    = Some (overlap (take i L) (take i S'))).
  { induction l as [|j l IH]; intros m [Hin|Hm]; simpl.
    - inversion Hin.
    - exact Hm.
    - apply IH. destruct (decide (j = i)) as [->|Hne].
      + right. apply lookup_insert_eq.
      + left. inversion Hin; subst; [congruence | assumption].
    - apply IH. right. destruct (decide (j = i)) as [->|Hne].
      + apply lookup_insert_eq.
      + rewrite lookup_insert_ne; auto. }
  apply Hgen. left. apply list_elem_of_In, in_seq. lia.
Qed.

Lemma overlap_self_NoDup (X : list string) :
  NoDup X -> overlap X X = length X.
Proof.
  intros Hnd. unfold overlap.
  assert (Hself : (list_to_set X : gset string) ∩ list_to_set X
                  = list_to_set X) by apply (idemp_L (∩)).
  rewrite Hself. apply size_list_to_set, Hnd.
Qed.

Lemma term_self (X : list string) (p : Q) (i : nat) :
  NoDup X -> (1 <= i <= length X)%nat ->
  exists t, term (overlaps (length X) X X) p i = Ret t
            /\ (t == p ^ Z.of_nat (i - 1))%Q.
Proof.
  intros Hnd Hi. unfold term. rewrite overlaps_lookup by exact Hi.
  eexists; split; [reflexivity|].
  rewrite overlap_self_NoDup by (eapply sublist_NoDup; [exact Hnd | apply sublist_take]).
  rewrite length_take, Nat.min_l by lia.
  assert (Hnz : ~ (inject_Z (Z.of_nat i) == 0)%Q).
  { unfold Qeq; simpl. lia. }
  field. exact Hnz.
Qed.

(** The sum accumulated over the first [k] depths is the geometric sum. *)
Lemma accumulate_prefix (X : list string) (p : Q) (k : nat) :
  NoDup X -> (k <= length X)%nat ->
  exists v,
    fold_left (fun acc i => do a <- acc;
                            do t <- term (overlaps (length X) X X) p i;
                            Ret (a + t)%Q)
              (seq 1 k) (Ret 0%Q) = Ret v
    /\ (v * (1 - p) == 1 - p ^ Z.of_nat k)%Q.
Proof.
  intros Hnd. induction k as [|k IH]; intros Hk.
  - exists 0%Q. split; [reflexivity|]. simpl. ring.
  - destruct IH as (v & Hv & Hsum); [lia|].
    destruct (term_self X p (S k) Hnd) as (t & Ht & Hteq); [lia|].
    exists (v + t)%Q. split.
    + rewrite seq_S, fold_left_app. simpl. rewrite Hv. simpl.
      rewrite Ht. reflexivity.
    + rewrite Hteq.
      replace (S k - 1)%nat with k by lia.
      rewrite Nat2Z.inj_succ. unfold Z.succ.
      rewrite Qpower_plus' by lia.
      change (p ^ 1)%Q with p.
      transitivity (v * (1 - p) + p ^ Z.of_nat k * (1 - p))%Q; [ring|].
      rewrite Hsum. ring.
Qed.

Lemma rbo_lists_self (X : list string) (p : Q) :
  X <> [] -> NoDup X ->
  exists v, rbo_lists X X p = Ret (Some v)
            /\ (v == 1 - p ^ Z.of_nat (length X))%Q.
Proof.
  intros Hne Hnd. unfold rbo_lists. rewrite sorted_pair_self.
  destruct X as [|x X']; [congruence|].
  change (length (x :: X') =? 0)%nat with false. cbv iota.
  destruct (accumulate_prefix (x :: X') p (length (x :: X')) Hnd)
    as (v & Hv & Hsum); [lia|].
  unfold accumulate. rewrite Hv. simpl obind.
  eexists; split; [reflexivity | exact Hsum].
Qed.

(** C1, as stated, fails.  The one-entity list ["a"] compared with itself
    at p = 1/2 scores 1/2, not 1: the sum stops at the shorter length and
    the tail weight p^s is not added back. *)
Lemma rbo_score_self_not_one :
  ranked one_entity = Ret ["a"] /\
  (0 < 1 # 2)%Q /\ (1 # 2 < 1)%Q /\
  exists v, rbo_score one_entity (Some one_entity) (1 # 2) = Ret (Some v)
            /\ (v == 1 # 2)%Q /\ ~ (v == 1)%Q.
Proof.
  split; [reflexivity|]. split; [reflexivity|]. split; [reflexivity|].
  eexists. split; [vm_compute; reflexivity|].
  split; [reflexivity | discriminate].
Qed.

Lemma Qpower_le_base (p : Q) (n : nat) :
  (0 <= p)%Q -> (p <= 1)%Q -> (p ^ Z.of_nat (S n) <= p)%Q.
Proof.
  intros Hp0 Hp1. induction n as [|n IH]; [apply Qle_refl|].
  rewrite Nat2Z.inj_succ. unfold Z.succ.
  rewrite Qpower_plus' by lia. change (p ^ 1)%Q with p.
  apply Qle_trans with (y := (p * p)%Q).
  - apply Qmult_le_compat_r; [exact IH | exact Hp0].
  - rewrite <- (Qmult_1_l p) at 3. apply Qmult_le_compat_r; assumption.
Qed.

(** C1 (amended).  For a frame whose ranked list is nonempty and has no
    repeated entity, and for [1/2 <= p < 1], [rbo_score(X, X, p)] returns a
    score of at least [1 - p]; for a list of one entity the score is
    [1 - p], at most one half and so not 1. *)
Theorem rbo_score_self (X : DataFrame) (l : list string) (p : Q) :
  ranked X = Ret l -> l <> [] -> NoDup l ->
  (1 # 2 <= p)%Q -> (p < 1)%Q ->
  exists v, rbo_score X (Some X) p = Ret (Some v)
            /\ (1 - p <= v)%Q
            /\ (length l = 1%nat ->
                (v == 1 - p)%Q /\ (v <= 1 # 2)%Q /\ ~ (v == 1)%Q).
Proof.
  intros Hr Hne Hnd Hhalf Hp1.
  assert (Hp0 : (0 <= p)%Q)
    by (apply Qle_trans with (y := (1 # 2)%Q); [discriminate | exact Hhalf]).
  destruct (rbo_lists_self l p Hne Hnd) as (v & Hv & Hval).
  assert (Hone : (1 - p <= 1 # 2)%Q).
  { apply (Qplus_le_l _ _ (p - (1 # 2))%Q). ring_simplify. exact Hhalf. }
  exists v. split; [|split].
  - unfold rbo_score. unfold ranked in Hr.
    destruct (length (columns X) =? 2)%nat.
    + destruct (filter (fun c => c ≠ "value") (columns X)) as [|entity ?];
        [discriminate|].
      rewrite Hr. simpl. exact Hv.
    + injection Hr as ->. exact Hv.
  - rewrite Hval. destruct l as [|x l']; [congruence|].
    unfold Qminus. apply Qplus_le_r, Qopp_le_compat.
    apply Qpower_le_base; [exact Hp0 | apply Qlt_le_weak; exact Hp1].
  - intros Hlen. rewrite Hlen in Hval. change (p ^ Z.of_nat 1)%Q with p in Hval.
    split; [exact Hval|]. split; [rewrite Hval; exact Hone|].
    intros H1. rewrite <- Hval, H1 in Hone. exact (Hone eq_refl).
Qed.

Lemma rbo_score_self_witness :
  exists v, rbo_score one_entity (Some one_entity) (1 # 2) = Ret (Some v)
            /\ (1 - (1 # 2) <= v)%Q
            /\ (length ["a"] = 1%nat ->
                (v == 1 - (1 # 2))%Q /\ (v <= 1 # 2)%Q /\ ~ (v == 1)%Q).
Proof.
  apply (rbo_score_self one_entity ["a"] (1 # 2)).
  - reflexivity.
  - discriminate.
  - apply NoDup_cons. split; [apply not_elem_of_nil | apply NoDup_nil; exact I].
  - discriminate.
  - reflexivity.
Defined.



End RboFacts.

(** ** Measurement orchestration *)

Section RunFacts.
Import Run.

Context {dataset metadata config_subset mobject mresults mlogs : Type}.
Context {metrics metrics_logs : Type}.
Variable E : @externals dataset metadata config_subset mobject mresults mlogs
                        metrics metrics_logs.
Variables (data : dataset) (meta : metadata) (kw : kwargs) (test : bool).

Abbreviation mstep subset platform := (measurement_step E subset platform meta kw).
Abbreviation pstep := (platform_step E data meta kw test).

(** *** The local [Measurement] across iterations *)

Lemma resolve_known (n : string) (M : option collaborator) :
  known n = true -> resolve n M = class_of n /\ is_Some (class_of n).
Proof.
  unfold known, known_names, class_of, resolve. simpl.
  repeat (destruct (String.eqb n _); [split; [reflexivity | eexists; reflexivity]|]).
  discriminate.
Qed.

Lemma resolve_unknown (n : string) (M : option collaborator) :
  known n = false -> resolve n M = M /\ class_of n = None.
Proof.
  unfold known, known_names, class_of, resolve. simpl.
  repeat (destruct (String.eqb n _); [discriminate|]).
  split; reflexivity.
Qed.

Lemma fold_resolve (names : list string) (M : option collaborator) :
  fold_left (fun M n => resolve n M) names M
  = match last_known names with Some c => Some c | None => M end.
Proof.
  revert M. induction names as [|n names IH]; intros M; [reflexivity|].
  simpl fold_left. rewrite IH. unfold last_known. simpl omap.
  destruct (known n) eqn:Hk.
  - destruct (resolve_known n M Hk) as [-> [c Hc]]. rewrite Hc.
    change (list_omap string collaborator class_of names)
      with (omap class_of names).
    rewrite last_cons.
    destruct (last (omap class_of names)); reflexivity.
  - destruct (resolve_unknown n M Hk) as [-> ->]. reflexivity.
Qed.

(** *** The loop over measurement types *)

Lemma measurement_step_eq subset platform vars pr pl name cfg :
  mstep subset platform (vars, pr, pl) (name, cfg)
  = ({| Measurement := resolve name (Measurement vars);
        measurement_results :=
          Some (instantiate_and_run E (resolve name (Measurement vars))
                                    subset platform cfg meta kw).1;
        measurement_logs :=
          Some (instantiate_and_run E (resolve name (Measurement vars))
                                    subset platform cfg meta kw).2 |},
     <[name := (instantiate_and_run E (resolve name (Measurement vars))
                                    subset platform cfg meta kw).1]> pr,
     <[name := (instantiate_and_run E (resolve name (Measurement vars))
                                    subset platform cfg meta kw).2]> pl).
Proof.
  unfold measurement_step.
  destruct (instantiate_and_run E _ subset platform cfg meta kw); reflexivity.
Qed.

Lemma types_loop_Measurement subset platform types st :
  Measurement (fold_left (mstep subset platform) types st).1.1
  = fold_left (fun M n => resolve n M) (map fst types) (Measurement st.1.1).
Proof.
  revert st. induction types as [|[name cfg] types IH]; intros st;
    [reflexivity|].
  simpl fold_left. rewrite IH. destruct st as [[vars pr] pl].
  rewrite measurement_step_eq. reflexivity.
Qed.

Lemma types_loop_keep subset platform types st name :
  name ∉ map fst types ->
  (fold_left (mstep subset platform) types st).1.2 !! name = st.1.2 !! name /\
  (fold_left (mstep subset platform) types st).2 !! name = st.2 !! name.
Proof.
  revert st. induction types as [|[n cfg] types IH]; intros st Hnot;
    [split; reflexivity|].
  simpl in Hnot. apply not_elem_of_cons in Hnot as [Hne Hnot].
  simpl fold_left. destruct (IH (mstep subset platform st (n, cfg)) Hnot)
    as [-> ->].
  destruct st as [[vars pr] pl]. rewrite measurement_step_eq. simpl.
  rewrite !lookup_insert_ne by congruence. split; reflexivity.
Qed.

Lemma types_loop_entry subset platform tpre name cfg tpost st :
  name ∉ map fst tpost ->
  let M := resolve name
             (fold_left (fun M n => resolve n M) (map fst tpre)
                        (Measurement st.1.1)) in
  let final := fold_left (mstep subset platform)
                         (tpre ++ (name, cfg) :: tpost) st in
  final.1.2 !! name
    = Some (instantiate_and_run E M subset platform cfg meta kw).1 /\
  final.2 !! name
    = Some (instantiate_and_run E M subset platform cfg meta kw).2.
Proof.
  intros Hnot M final. subst final. rewrite fold_left_app. simpl fold_left.
  destruct (types_loop_keep subset platform tpost
              (mstep subset platform
                 (fold_left (mstep subset platform) tpre st) (name, cfg))
              name Hnot) as [-> ->].
  pose proof (types_loop_Measurement subset platform tpre st) as HM.
  destruct (fold_left (mstep subset platform) tpre st) as [[vars pr] pl].
  simpl in HM. rewrite measurement_step_eq. simpl.
  rewrite !lookup_insert_eq. subst M. rewrite HM. split; reflexivity.
Qed.

Lemma types_loop_dom subset platform types st :
  dom (fold_left (mstep subset platform) types st).1.2
    = dom st.1.2 ∪ list_to_set (map fst types) /\
  dom (fold_left (mstep subset platform) types st).2
    = dom st.2 ∪ list_to_set (map fst types).
Proof.
  revert st. induction types as [|[n cfg] types IH]; intros st.
  - simpl. split; set_solver.
  - simpl fold_left. destruct (IH (mstep subset platform st (n, cfg)))
      as [-> ->].
    destruct st as [[vars pr] pl]. rewrite measurement_step_eq. simpl.
    rewrite !dom_insert_L. split; set_solver.
Qed.

(** *** The loop over platforms *)

Lemma platform_step_eq vars results logs platform types :
  pstep (vars, results, logs) (platform, types)
  = let subset := (subset_step E data platform test).1 in
    let failure := (subset_step E data platform test).2 in
    let inner := fold_left (mstep subset platform) types
                           (subset_except platform failure vars, ∅, ∅) in
    (inner.1.1, <[platform := inner.1.2]> results,
     <[platform := inner.2]> logs).
Proof.
  unfold platform_step.
  destruct (subset_step E data platform test) as [subset failure]. simpl.
  destruct (fold_left _ types _) as [[vars2 pr] pl]. reflexivity.
Qed.

Lemma subset_except_Measurement platform failure
    (vars : @locals mresults mlogs) :
  Measurement (subset_except platform failure vars) = Measurement vars.
Proof. destruct failure; reflexivity. Qed.

Lemma platforms_loop_Measurement config st :
  Measurement (fold_left pstep config st).1.1
  = fold_left (fun M n => resolve n M) (type_names config)
              (Measurement st.1.1).
Proof.
  revert st. induction config as [|[platform types] config IH]; intros st;
    [reflexivity|].
  simpl fold_left. rewrite IH. destruct st as [[vars results] logs].
  rewrite platform_step_eq. cbv zeta. simpl.
  rewrite types_loop_Measurement. simpl.
  rewrite subset_except_Measurement.
  unfold type_names. simpl. rewrite fold_left_app. reflexivity.
Qed.

Lemma platforms_loop_keep config st platform :
  platform ∉ map fst config ->
  (fold_left pstep config st).1.2 !! platform = st.1.2 !! platform /\
  (fold_left pstep config st).2 !! platform = st.2 !! platform.
Proof.
  revert st. induction config as [|[p types] config IH]; intros st Hnot;
    [split; reflexivity|].
  simpl in Hnot. apply not_elem_of_cons in Hnot as [Hne Hnot].
  simpl fold_left. destruct (IH (pstep st (p, types)) Hnot) as [-> ->].
  destruct st as [[vars results] logs]. rewrite platform_step_eq. simpl.
  rewrite !lookup_insert_ne by congruence. split; reflexivity.
Qed.

(** The entry of a platform in the returned collections is what the loop
    over its measurement types produced, started from the locals left by
    the platforms before it. *)
Lemma platform_entry pre platform types post :
  platform ∉ map fst post ->
  let subset := (subset_step E data platform test).1 in
  let failure := (subset_step E data platform test).2 in
  let before := (fold_left pstep pre (unbound, ∅, ∅)).1.1 in
  let inner := fold_left (mstep subset platform) types
                         (subset_except platform failure before, ∅, ∅) in
  let final := run_loop E data (pre ++ (platform, types) :: post) meta kw test in
  final.1.2 !! platform = Some inner.1.2 /\
  final.2 !! platform = Some inner.2.
Proof.
  intros Hnot subset failure before inner final. subst final.
  unfold run_loop. rewrite fold_left_app. simpl fold_left.
  destruct (platforms_loop_keep post
              (pstep (fold_left pstep pre (unbound, ∅, ∅)) (platform, types))
              platform Hnot) as [-> ->].
  subst inner before.
  destruct (fold_left pstep pre (unbound, ∅, ∅)) as [[vars results] logs].
  rewrite platform_step_eq. simpl. rewrite !lookup_insert_eq.
  split; reflexivity.
Qed.

End RunFacts.

Section RunClaims.
Import Run.

Context {dataset metadata config_subset mobject mresults mlogs : Type}.
Context {metrics metrics_logs : Type}.
Variable E : @externals dataset metadata config_subset mobject mresults mlogs
                        metrics metrics_logs.

Lemma run_measurements_eq data config meta timing verbose save
    save_directory save_format test :
  run_measurements E data config meta timing verbose save save_directory
                   save_format test
  = let kw := {| kw_verbose := verbose; kw_save := save;
                 kw_save_directory := save_directory;
                 kw_save_format := save_format |} in
    ((run_loop E data config meta kw test).1.2,
     (run_loop E data config meta kw test).2).
Proof.
  unfold run_measurements. cbv zeta.
  destruct (run_loop E data config meta _ test) as [[vars results] logs].
  reflexivity.
Qed.

(** C9.  A measurement-type name outside the seven known ones is not
    reported as such.  Its entry is what instantiating and running the
    collaborator named by the most recent known name of the earlier
    iterations (of this platform and of the platforms before it) yields;
    when there is no such name, the result is null and the log records a
    failed instantiation (the unbound local [Measurement]). *)
Theorem unknown_type_reuses_last_collaborator
    data meta timing verbose save save_directory save_format test
    pre platform tpre name cfg tpost post :
  known name = false ->
  platform ∉ map fst post ->
  name ∉ map fst tpost ->
  let config := pre ++ (platform, tpre ++ (name, cfg) :: tpost) :: post in
  let out := run_measurements E data config meta timing verbose save
                              save_directory save_format test in
  let kw := {| kw_verbose := verbose; kw_save := save;
               kw_save_directory := save_directory;
               kw_save_format := save_format |} in
  let subset := (subset_step E data platform test).1 in
  exists pr pl,
    out.1 !! platform = Some pr /\ out.2 !! platform = Some pl /\
    match last_known (type_names pre ++ map fst tpre) with
    | Some c =>
        pr !! name
          = Some (instantiate_and_run E (Some c) subset platform cfg meta kw).1
        /\ pl !! name
          = Some (instantiate_and_run E (Some c) subset platform cfg meta kw).2
    | None =>
        pr !! name = Some None
        /\ pl !! name
          = Some (Failure "Failed to instantiate measurements object"
                          (UnboundLocalError "Measurement"))
    end.
Proof.
  intros Hunknown Hpost Htpost config out kw subset. subst out config.
  rewrite run_measurements_eq. cbv zeta. fold kw. simpl.
  destruct (platform_entry E data meta kw test pre platform
              (tpre ++ (name, cfg) :: tpost) post Hpost) as [Hr Hl].
  cbv zeta in Hr, Hl. fold subset in Hr, Hl.
  eexists _, _. split; [exact Hr|]. split; [exact Hl|].
  destruct (types_loop_entry E meta kw subset platform tpre name cfg tpost
              (subset_except platform (subset_step E data platform test).2
                 (fold_left (platform_step E data meta kw test) pre
                            (unbound, ∅, ∅)).1.1, ∅, ∅) Htpost) as [Hpr Hpl].
  cbv zeta in Hpr, Hpl. rewrite Hpr, Hpl. clear Hpr Hpl Hr Hl.
  simpl. rewrite subset_except_Measurement.
  rewrite (platforms_loop_Measurement E data meta kw test pre).
  rewrite <- fold_left_app. rewrite fold_resolve. simpl.
  destruct (resolve_unknown name
              match last_known (type_names pre ++ map fst tpre) with
              | Some c => Some c
              | None => None
              end Hunknown) as [-> _].
  destruct (last_known (type_names pre ++ map fst tpre));
    split; reflexivity.
Qed.

End RunClaims.

(** *** [TaskRunner] *)

Section RunnerFacts.
Import Run.

Context {dataset metadata config_subset mobject mresults mlogs : Type}.
Context {metrics metrics_logs : Type}.

Abbreviation surroundings_t :=
  (@surroundings dataset metadata config_subset mobject mresults mlogs
                 metrics metrics_logs).
Abbreviation runner_t := (@TaskRunner dataset metadata config_subset mlogs).
Abbreviation store_t := (gmap nat (gmap string (gmap string (option mresults)))).





End RunnerFacts.

(** *** The claims on a concrete instance *)

Section RunExamples.
Import Run Example.

Lemma unknown_type_reuses_last_collaborator_witness :
  known "bogus" = false /\
  exists pr pl,
    (run_measurements world tweets twitter_bogus tt false false false
                      "./" "json" false).1 !! "twitter" = Some pr /\
    (run_measurements world tweets twitter_bogus tt false false false
                      "./" "json" false).2 !! "twitter" = Some pl /\
    pr !! "bogus" = Some (Some 4%nat) /\
    pl !! "bogus" = Some (RunLogs "success").
Proof.
  split; [reflexivity|].
  destruct (unknown_type_reuses_last_collaborator world tweets tt
              false false false "./" "json" false
              [] "twitter" [("social_activity", 1%nat)] "bogus" 2%nat [] [])
    as (pr & pl & Hr & Hl & Hpr & Hpl);
    [reflexivity | apply not_elem_of_nil | apply not_elem_of_nil |].
  exists pr, pl. split; [exact Hr|]. split; [exact Hl|].
  split; [exact Hpr | exact Hpl].
Defined.



(** The condition on the metrics engine is needed: the engine is handed
    the runner's own collection, and one that empties it leaves the runner
    with an empty cache. *)
Lemma metrics_engine_shares_the_cache :
  exists runner s1,
    init (RunMore.quiet world) ∅ (Data tweets) twitter_activity tt false
         "./plots" = Ret (runner, s1) /\
    s1 !! ground_truth_results runner
    = Some {[ "twitter" := {[ "social_activity" := Some 7%nat ]} ]} /\
    (call (RunMore.meddling world) s1 runner (RunMore.invoke tweets)).2
      !! ground_truth_results runner = Some ∅.
Proof.
  eexists _, _. split; [reflexivity|]. split; vm_compute; reflexivity.
Qed.

End RunExamples.

(** ** The metric library *)

Section MetricFacts.
Import Metrics.

Context {key : Type}.
Variable P : @library key.

(** *** Scalar metrics *)

(** C5, at the failing input and around it.  A string that is not a float
    literal makes [float] raise a [ValueError], which the [except
    TypeError] clause of the two scalar metrics does not catch: the call
    raises.  A ground truth equal to 0 gives null in
    [absolute_percentage_error] whatever the simulation is. *)
Theorem scalar_metrics_raise_on_text (s : string) (y : pyobj) (v : pyfloat) :
  str_to_float P s = None ->
  to_float P y = Ret v ->
  absolute_difference P (PyStr s) y = Raise ValueError /\
  absolute_percentage_error P (PyStr s) y = Raise ValueError /\
  (forall zero anything,
     equals_zero zero = true ->
     absolute_percentage_error P zero anything = Ret None).
Proof.
  intros Hs Hy. unfold absolute_difference, absolute_percentage_error.
  simpl. rewrite Hy, Hs. simpl. repeat split; try reflexivity.
  intros zero anything Hzero. rewrite Hzero. reflexivity.
Qed.

(** *** Smoothed KL divergence *)

Lemma normalize_length (v : list pyfloat) : length (normalize v) = length v.
Proof. unfold normalize. apply length_map. Qed.

(** C10 (amended).  With [discrete=True] the smoothed KL divergence never
    returns.  For two tables whose outer merge succeeds, the final
    [entropy] call is reached and raises the unbound local
    [smoothed_simulation]; for every other pair of inputs an earlier step
    raises. *)
Theorem kl_divergence_smoothed_discrete_unbound (alpha : pyfloat) :
  (forall (gt sim : @frame key) (df : merged),
     merge P Outer gt sim = Ret df ->
     kl_divergence_smoothed P (MFrame gt) (MFrame sim) alpha true
     = Raise (UnboundLocalError "smoothed_simulation")) /\
  (forall ground_truth simulation : measurement,
     raises (kl_divergence_smoothed P ground_truth simulation alpha true)).
Proof.
  assert (Hframes : forall (gt sim : @frame key) (df : merged),
            merge P Outer gt sim = Ret df ->
            kl_divergence_smoothed P (MFrame gt) (MFrame sim) alpha true
            = Raise (UnboundLocalError "smoothed_simulation")).
  { intros gt sim df Hdf. unfold kl_divergence_smoothed. cbn [negb].
    cbv iota. unfold merged_columns. rewrite Hdf. cbn [obind].
    unfold entropy_if_same_length. cbn [fst snd].
    rewrite !normalize_length, !length_map, Nat.eqb_refl. reflexivity. }
  split; [exact Hframes|].
  intros [|xs|gt] simulation.
  - eexists. reflexivity.
  - eexists. reflexivity.
  - destruct simulation as [|ys|sim].
    + eexists. reflexivity.
    + eexists. reflexivity.
    + destruct (merge P Outer gt sim) as [df|e] eqn:Hdf.
      * eexists. apply (Hframes gt sim df Hdf).
      * exists e. unfold kl_divergence_smoothed. cbn [negb]. cbv iota.
        unfold merged_columns. rewrite Hdf. reflexivity.
Qed.

Lemma all_finite_Fin (qs : list Q) : all_finite (map Fin qs) = Some qs.
Proof.
  induction qs as [|q qs IH]; [reflexivity|]. simpl. rewrite IH. reflexivity.
Qed.

Lemma get_hist_bins_finite (x : Q) (xs ys : list Q) (method : bin_method) :
  get_hist_bins P (Arr (map Fin (x :: xs))) (Arr (map Fin ys)) method
  = Ret (linspace (outer_edges (x :: xs ++ ys)).1
                  (outer_edges (x :: xs ++ ys)).2
                  (n_equal_bins P method (x :: xs ++ ys))).
Proof.
  unfold get_hist_bins, histogram_bin_edges.
  rewrite <- map_app, all_finite_Fin. unfold bin_edges.
  change ((x :: xs) ++ ys) with (x :: xs ++ ys).
  destruct (outer_edges (x :: xs ++ ys)). reflexivity.
Qed.

(** C3, on the code.  The smoothed KL divergence asks [get_hist_bins] for
    its default rule, ['auto'], where [kl_divergence] asks for ['doane']:
    on finite samples its bins are the ['auto'] number of equal bins, those
    of [kl_divergence] the ['doane'] number.  The blend with the uniform
    vector is as specified. *)
Theorem kl_divergence_smoothed_uses_auto_bins
    (ground_truth simulation : measurement) (alpha : pyfloat) :
  (forall (x : Q) (xs ys : list Q),
     smoothed_bins P (MList (map Fin (x :: xs))) (MList (map Fin ys))
     = Ret (linspace (outer_edges (x :: xs ++ ys)).1
                     (outer_edges (x :: xs ++ ys)).2
                     (n_equal_bins P Auto (x :: xs ++ ys)))
     /\ get_hist_bins P (Arr (map Fin (x :: xs))) (Arr (map Fin ys)) Doane
        = Ret (linspace (outer_edges (x :: xs ++ ys)).1
                        (outer_edges (x :: xs ++ ys)).2
                        (n_equal_bins P Doane (x :: xs ++ ys)))) /\
  smoothed_bins P ground_truth simulation
  = get_hist_bins P (as_array ground_truth) (as_array simulation) Auto /\
  kl_divergence_smoothed P ground_truth simulation alpha false
  = (do bins <- get_hist_bins P (as_array ground_truth)
                              (as_array simulation) Auto;
     do g <- histogram (as_array ground_truth) bins;
     do s <- histogram (as_array simulation) bins;
     entropy_if_same_length
       (astype_float g) (astype_float s)
       (Ret (map (fun c => fadd (fmul (fsub (Fin 1) alpha) c)
                                (fmul alpha (Fin 1)))
                 (astype_float s)))) /\
  kl_divergence P ground_truth simulation false
  = match simulation with
    | MNone => Ret None
    | _ =>
        do bins <- get_hist_bins P (as_array ground_truth)
                                 (as_array simulation) Doane;
        do g <- histogram (as_array ground_truth) bins;
        do s <- histogram (as_array simulation) bins;
        entropy_if_same_length (astype_float g) (astype_float s)
                               (Ret (astype_float s))
    end.
Proof.
  split.
  { intros x xs ys. split; [|apply get_hist_bins_finite].
    unfold smoothed_bins, check_data_types, default_method.
    apply (get_hist_bins_finite x xs ys Auto). }
  split; [reflexivity|]. split.
  - unfold kl_divergence_smoothed, check_data_types. simpl negb. cbv iota.
    destruct (get_hist_bins P _ _ default_method) as [bins|e] eqn:Hb;
      unfold default_method in Hb; rewrite Hb; simpl; [|reflexivity].
    destruct (histogram (as_array ground_truth) bins); simpl; [|reflexivity].
    destruct (histogram (as_array simulation) bins); reflexivity.
  - unfold kl_divergence, check_data_types. simpl negb. cbv iota.
    destruct simulation as [|ys|sim]; [reflexivity| |].
    + destruct (get_hist_bins P _ _ Doane) as [bins|e]; simpl; [|reflexivity].
      destruct (histogram (as_array ground_truth) bins); simpl;
        [|reflexivity].
      reflexivity.
    + destruct (get_hist_bins P _ _ Doane) as [bins|e]; simpl; [|reflexivity].
      destruct (histogram (as_array ground_truth) bins); simpl;
        [|reflexivity].
      reflexivity.
Qed.

(** *** Sums of finite values *)

Lemma fsum_Fin (qs : list Q) (acc : Q) :
  fold_left fadd (map Fin qs) (Fin acc) = Fin (fold_left Qplus qs acc).
Proof.
  revert acc. induction qs as [|q qs IH]; intros acc; [reflexivity|].
  simpl. apply IH.
Qed.

Lemma Qfold_zero (qs : list Q) (acc : Q) :
  Forall (fun q => q == 0)%Q qs -> (fold_left Qplus qs acc == acc)%Q.
Proof.
  revert acc. induction qs as [|q qs IH]; intros acc Hall; [reflexivity|].
  inversion Hall as [|? ? Hq Hqs]; subst. simpl. rewrite IH by exact Hqs.
  rewrite Hq. ring.
Qed.

Lemma nan_to_num_finite (l : list pyfloat) :
  exists qs, map nan_to_num l = map Fin qs /\ length qs = length l.
Proof.
  induction l as [|x l (qs & Hqs & Hlen)]; [exists []; split; reflexivity|].
  destruct x as [q| | |]; simpl; rewrite Hqs.
  - exists (q :: qs). simpl. split; [reflexivity | lia].
  - exists (DBL_MAX :: qs). simpl. split; [reflexivity | lia].
  - exists ((- DBL_MAX)%Q :: qs). simpl. split; [reflexivity | lia].
  - exists (0%Q :: qs). simpl. split; [reflexivity | lia].
Qed.

Lemma filter_isfinite_Fin (qs : list Q) :
  List.filter isfinite (map Fin qs) = map Fin qs.
Proof. induction qs as [|q qs IH]; [reflexivity|]. simpl. rewrite IH. reflexivity. Qed.

Lemma sub_self_squares (qs : list Q) :
  map (fun x => fmul x x)
      (map (fun xy : pyfloat * pyfloat => fsub xy.1 xy.2)
           (zip (map Fin qs) (map Fin qs)))
  = map Fin (map (fun q => (q + - q) * (q + - q))%Q qs).
Proof. induction qs as [|q qs IH]; [reflexivity|]. simpl. rewrite IH. reflexivity. Qed.

(** The root mean square of the difference of a nonempty finite array
    with itself is 0. *)
Lemma root_mean_square_self (qs : list Q) :
  qs <> [] ->
  root_mean_square (map Fin qs) (map Fin qs) = Ret (Real 0).
Proof.
  intros Hne. unfold root_mean_square, broadcast_sub. rewrite Nat.eqb_refl.
  unfold obind. rewrite sub_self_squares.
  unfold mean, fsum. rewrite fsum_Fin, !length_map.
  set (total := fold_left Qplus _ 0%Q).
  assert (Htotal : (total == 0)%Q).
  { subst total. apply Qfold_zero. apply Forall_forall. intros z Hz.
    apply list_elem_of_In, in_map_iff in Hz as (y & <- & _). ring. }
  set (n := inject_Z (Z.of_nat (length qs))).
  assert (Hn : ~ (n == 0)%Q).
  { subst n. unfold Qeq. simpl. destruct qs; [congruence | simpl; lia]. }
  unfold fdiv. destruct (Qeq_bool n 0) eqn:Hnb.
  - apply Qeq_bool_iff in Hnb. contradiction.
  - unfold nsqrt.
    assert (Hmean : (total / n == 0)%Q).
    { rewrite Htotal. unfold Qdiv. ring. }
    unfold Qltb. rewrite (proj2 (Qle_bool_iff 0 (total / n))).
    + simpl. rewrite (Qeq_eqR _ _ Hmean), RMicromega.Q2R_0, sqrt_0.
      reflexivity.
    + rewrite Hmean. apply Qle_refl.
Qed.

(** C4, on the code.  For a Python list the function named [r2] returns
    the root mean squared error: a nonempty list compared with itself
    scores 0, not 1. *)
Theorem r2_of_list_with_itself_is_zero
    (x : pyfloat) (xs : list pyfloat) (join : join_kind) (fill_value : fill) :
  r2 P (MList (x :: xs)) (MList (x :: xs)) join fill_value
  = Ret (Some (Real 0)).
Proof.
  unfold r2. cbn [none_or_empty length Nat.eqb orb obind].
  destruct (nan_to_num_finite (x :: xs)) as (qs & Hqs & Hlen).
  rewrite Hqs, filter_isfinite_Fin.
  rewrite root_mean_square_self; [reflexivity|].
  destruct qs; [discriminate | congruence].
Qed.

End MetricFacts.

(** *** Jensen-Shannon divergence: which inputs give null *)

Section JsNull.
Import Metrics.

Context {key : Type}.
Variable P : @library key.

Lemma all_finite_filter (xs : list pyfloat) :
  all_finite (List.filter isfinite xs) = Some (finite_values xs).
Proof.
  induction xs as [|x xs IH]; [reflexivity|].
  destruct x; simpl; rewrite ?IH; reflexivity.
Qed.

Lemma finite_values_filter (xs : list pyfloat) :
  finite_values (List.filter isfinite xs) = finite_values xs.
Proof.
  induction xs as [|x xs IH]; [reflexivity|].
  destruct x; simpl; rewrite ?IH; reflexivity.
Qed.

Lemma finite_values_app (a b : list pyfloat) :
  finite_values (a ++ b) = finite_values a ++ finite_values b.
Proof.
  induction a as [|x a IH]; [reflexivity|].
  destruct x; simpl; rewrite ?IH; reflexivity.
Qed.

Lemma as_array_values (x : @measurement key) :
  x <> MNone -> as_array x = Arr (values x).
Proof. destruct x; [congruence | reflexivity | reflexivity]. Qed.

Lemma none_or_empty_false (x : @measurement key) :
  none_or_empty x = false -> x <> MNone /\ values x <> [].
Proof.
  destruct x as [|xs|rows]; simpl; [discriminate| |].
  - destruct xs; [discriminate|]. split; congruence.
  - destruct rows; [discriminate|]. split; [congruence | discriminate].
Qed.

(** In the default mode, on inputs that pass the first test, the
    divergence is computed from the histograms of the finite values on
    the bins of the two samples together. *)
Lemma js_divergence_continuous (gt sim : measurement) (base : R) :
  none_or_empty sim = false -> none_or_empty gt = false ->
  js_divergence P gt sim false base
  = jensen_shannon
      (astype_float
         (bin_counts (finite_values (values gt))
            (bin_edges P (finite_values (values gt)
                          ++ finite_values (values sim)) Doane)))
      (astype_float
         (bin_counts (finite_values (values sim))
            (bin_edges P (finite_values (values gt)
                          ++ finite_values (values sim)) Doane)))
      base.
Proof.
  intros Hsim Hgt. unfold js_divergence. rewrite Hsim, Hgt.
  cbn [orb negb]. cbv iota.
  destruct (none_or_empty_false gt Hgt) as [Hg _].
  destruct (none_or_empty_false sim Hsim) as [Hs _].
  unfold check_data_types.
  rewrite (as_array_values gt Hg), (as_array_values sim Hs).
  cbn [finite_part get_hist_bins histogram_bin_edges].
  unfold histogram_bin_edges, histogram.
  rewrite <- List.filter_app, all_finite_filter, finite_values_app.
  cbn [obind]. rewrite !finite_values_filter. reflexivity.
Qed.

Lemma bin_counts_length (a edges : list Q) :
  length (bin_counts a edges) = (length edges - 1)%nat.
Proof.
  induction edges as [|lo rest IH]; [reflexivity|].
  destruct rest as [|hi rest']; [reflexivity|].
  change (bin_counts a (lo :: hi :: rest'))
    with (length (List.filter
                    (in_bin lo hi match rest' with [] => true | _ => false end)
                    a)
          :: bin_counts a (hi :: rest')).
  cbn [length]. rewrite IH. cbn [length]. lia.
Qed.

(** Propagation of [nan] through the divergence. *)

Lemma bin_counts_nil (edges : list Q) :
  bin_counts [] edges = repeat 0%nat (length edges - 1).
Proof.
  induction edges as [|lo rest IH]; [reflexivity|].
  destruct rest as [|hi rest']; [reflexivity|].
  change (bin_counts [] (lo :: hi :: rest'))
    with (0%nat :: bin_counts [] (hi :: rest')).
  rewrite IH.
  replace (length (lo :: hi :: rest') - 1)%nat
    with (S (length (hi :: rest') - 1)) by (simpl; lia).
  reflexivity.
Qed.

Lemma linspace_length (lo hi : Q) (n : positive) :
  length (linspace lo hi n) = (Pos.to_nat n + 1)%nat.
Proof. unfold linspace. rewrite length_map, length_seq. reflexivity. Qed.

Lemma bin_edges_length (qs : list Q) (method : bin_method) :
  exists k, length (bin_edges P qs method) = S (S k).
Proof.
  unfold bin_edges. destruct (outer_edges qs) as [lo hi].
  rewrite linspace_length.
  match goal with |- context [Pos.to_nat ?n] =>
    exists (Pos.to_nat n - 1)%nat; pose proof (Pos2Nat.is_pos n); lia end.
Qed.

Lemma fsum_repeat_NaN (k : nat) : fsum (repeat NaN (S k)) = NaN.
Proof.
  unfold fsum. simpl. induction k as [|k IH]; [reflexivity | exact IH].
Qed.

Lemma normalize_repeat_NaN (k : nat) :
  normalize (repeat NaN (S k)) = repeat NaN (S k).
Proof.
  unfold normalize. rewrite fsum_repeat_NaN.
  generalize (S k). intros n. induction n as [|n IH]; [reflexivity|].
  simpl. rewrite IH. reflexivity.
Qed.

Lemma astype_float_Fin (counts : list nat) :
  astype_float counts
  = map Fin (map (fun c => inject_Z (Z.of_nat c)) counts).
Proof. unfold astype_float. rewrite map_map. reflexivity. Qed.

Lemma normalize_zero_counts (k : nat) :
  normalize (astype_float (repeat 0%nat k)) = repeat NaN k.
Proof.
  unfold normalize. rewrite astype_float_Fin. unfold fsum.
  rewrite fsum_Fin.
  set (total := fold_left Qplus _ 0%Q).
  assert (Htotal : Qeq_bool total 0 = true).
  { apply Qeq_bool_iff. subst total. apply Qfold_zero.
    apply Forall_forall. intros z Hz.
    apply list_elem_of_In, in_map_iff in Hz as (c & <- & Hc).
    apply repeat_spec in Hc. subst c. reflexivity. }
  clearbody total. induction k as [|k IH]; [reflexivity|].
  simpl. rewrite Htotal. simpl. f_equal. exact IH.
Qed.

Lemma rel_entr_NaN_r (x : pyfloat) : rel_entr x NaN = Nan.
Proof. destruct x; reflexivity. Qed.

Lemma fold_nadd_Nan (l : list npfloat) : fold_left nadd l Nan = Nan.
Proof. induction l as [|x l IH]; [reflexivity|]. simpl. exact IH. Qed.

Lemma entropy_against_NaN (pk : list pyfloat) (k : nat) (base : option R) :
  length pk = S k -> entropy pk (repeat NaN (S k)) base = Ret Nan.
Proof.
  intros Hlen. unfold entropy. rewrite repeat_length, Hlen, Nat.eqb_refl.
  cbn [negb]. cbv iota. rewrite normalize_repeat_NaN.
  pose proof (normalize_length pk) as Hn. rewrite Hlen in Hn.
  destruct (normalize pk) as [|x v]; [discriminate|].
  cbn [repeat zip zip_with map fold_left fst snd].
  rewrite rel_entr_NaN_r.
  assert (Hstart : forall r, nadd (Real r) Nan = Nan) by reflexivity.
  rewrite Hstart, fold_nadd_Nan. destruct base; reflexivity.
Qed.

Lemma mixture_NaN_l (s : list pyfloat) (k : nat) :
  length s = k -> mixture (repeat NaN k) s = repeat NaN k.
Proof.
  revert s. induction k as [|k IH]; intros s Hlen.
  - destruct s; [reflexivity | discriminate].
  - destruct s as [|y s]; [discriminate|].
    unfold mixture in *. simpl. f_equal. apply IH. simpl in Hlen. lia.
Qed.

Lemma mixture_NaN_r (g : list pyfloat) (k : nat) :
  length g = k -> mixture g (repeat NaN k) = repeat NaN k.
Proof.
  revert g. induction k as [|k IH]; intros g Hlen.
  - destruct g; [reflexivity | discriminate].
  - destruct g as [|x g]; [discriminate|].
    unfold mixture in *. simpl. f_equal.
    + destruct x; reflexivity.
    + apply IH. simpl in Hlen. lia.
Qed.

(** If one histogram is empty of counts, the divergence is [nan]. *)
Lemma jensen_shannon_zero_counts (g s : list pyfloat) (k : nat) (base : R) :
  length g = S k -> length s = S k ->
  normalize g = repeat NaN (S k) \/ normalize s = repeat NaN (S k) ->
  jensen_shannon g s base = Ret (Some Nan).
Proof.
  intros Hg Hs Hnan. unfold jensen_shannon.
  rewrite !normalize_length, Hg, Hs, Nat.eqb_refl.
  assert (Hm : mixture (normalize g) (normalize s) = repeat NaN (S k)).
  { destruct Hnan as [-> | ->].
    - apply mixture_NaN_l. rewrite normalize_length. exact Hs.
    - apply mixture_NaN_r. rewrite normalize_length. exact Hg. }
  rewrite Hm.
  rewrite (entropy_against_NaN (normalize g) k)
    by (rewrite normalize_length; exact Hg).
  rewrite (entropy_against_NaN (normalize s) k)
    by (rewrite normalize_length; exact Hs).
  reflexivity.
Qed.

(** C6 (amended).  [js_divergence] returns null, without raising, when an
    input is null or empty as it is supplied, in either mode; that test
    comes before the non-finite values are dropped.  An input that is not
    empty but holds non-finite values only does not give null: in the
    default mode, once the shared bins are returned, the result is the
    float [nan]. *)
Theorem js_divergence_null_cases (gt sim : measurement) (base : R) :
  (forall discrete,
     none_or_empty sim || none_or_empty gt = true ->
     js_divergence P gt sim discrete base = Ret None) /\
  (none_or_empty sim || none_or_empty gt = false ->
   finite_values (values gt) = [] \/ finite_values (values sim) = [] ->
   returns (get_hist_bins P (finite_part (as_array gt))
                          (finite_part (as_array sim)) Doane) ->
   js_divergence P gt sim false base = Ret (Some Nan)).
Proof.
  split.
  - intros discrete H. unfold js_divergence. rewrite H. reflexivity.
  - intros H Hempty _. apply orb_false_elim in H as [Hsim Hgt].
    rewrite (js_divergence_continuous gt sim base Hsim Hgt).
    set (X := finite_values (values gt)) in *.
    set (Y := finite_values (values sim)) in *.
    destruct (bin_edges_length (X ++ Y) Doane) as [k Hk].
    assert (Hlen : forall a, length (astype_float
                     (bin_counts a (bin_edges P (X ++ Y) Doane))) = S k).
    { intros a. unfold astype_float.
      rewrite length_map, bin_counts_length, Hk. simpl. lia. }
    apply (jensen_shannon_zero_counts _ _ k); [apply Hlen | apply Hlen |].
    destruct Hempty as [He | He]; [left | right];
      rewrite He at 1; rewrite bin_counts_nil, Hk;
      replace (S (S k) - 1)%nat with (S k) by lia;
      apply normalize_zero_counts.
Qed.

End JsNull.

(** *** Histograms: every value falls in one bin *)

Section Histograms.
Import Metrics.

Context {key : Type}.
Variable P : @library key.

Lemma count_split (f g h : Q -> bool) (a : list Q) :
  (forall x, h x = f x || g x) -> (forall x, f x && g x = false) ->
  (length (List.filter f a) + length (List.filter g a))%nat
  = length (List.filter h a).
Proof.
  intros Hor Hdisj. induction a as [|x a IH]; [reflexivity|].
  simpl. rewrite (Hor x). specialize (Hdisj x).
  destruct (f x), (g x); simpl in *; try discriminate; lia.
Qed.

Lemma last_indep (e0 e1 x : Q) (rest : list Q) :
  List.last (x :: rest) e0 = List.last (x :: rest) e1.
Proof.
  revert x. induction rest as [|y rest IH]; intros x; [reflexivity|].
  change (List.last (y :: rest) e0 = List.last (y :: rest) e1). apply IH.
Qed.

Lemma ascending_le_last (e0 : Q) (rest : list Q) :
  ascending e0 rest -> (e0 <= List.last rest e0)%Q.
Proof.
  revert e0. induction rest as [|e1 rest IH]; intros e0 Hasc.
  - apply Qle_refl.
  - destruct Hasc as [H01 Hasc]. specialize (IH e1 Hasc).
    destruct rest as [|e2 rest']; [exact H01|].
    change (List.last (e1 :: e2 :: rest') e0)
      with (List.last (e2 :: rest') e0).
    rewrite (last_indep e0 e1 e2 rest').
    eapply Qle_trans; [exact H01 | exact IH].
Qed.

Lemma Qltb_lt (a b : Q) : Qltb a b = true <-> (a < b)%Q.
Proof.
  unfold Qltb. rewrite negb_true_iff. split.
  - intros H. apply Qnot_le_lt. intros Hle.
    apply Qle_bool_iff in Hle. congruence.
  - intros H. destruct (Qle_bool b a) eqn:Hb; [|reflexivity].
    apply Qle_bool_iff in Hb. exfalso. eapply Qlt_not_le; eassumption.
Qed.

Lemma Qle_bool_false (a b : Q) : Qle_bool a b = false <-> (b < a)%Q.
Proof.
  rewrite <- Qltb_lt. unfold Qltb. rewrite negb_true_iff. reflexivity.
Qed.

(** The counts of a chain of edges add up to the number of values between
    the first and the last edge. *)
Lemma bin_counts_sum (a : list Q) (e0 : Q) (rest : list Q) :
  rest <> [] -> ascending e0 rest ->
  sum_list (bin_counts a (e0 :: rest))
  = length (List.filter
              (fun x => Qle_bool e0 x && Qle_bool x (List.last rest e0)) a).
Proof.
  revert e0. induction rest as [|e1 rest IH]; intros e0 Hne Hasc;
    [congruence|].
  destruct Hasc as [H01 Hasc].
  destruct rest as [|e2 rest'].
  - simpl. rewrite Nat.add_0_r. reflexivity.
  - change (bin_counts a (e0 :: e1 :: e2 :: rest'))
      with (length (List.filter (in_bin e0 e1 false) a)
            :: bin_counts a (e1 :: e2 :: rest')).
    cbn [sum_list sum_list_with]. rewrite (IH e1) by (congruence || exact Hasc).
    pose proof (ascending_le_last e1 (e2 :: rest') Hasc) as Hlast.
    change (List.last (e1 :: e2 :: rest') e0)
      with (List.last (e2 :: rest') e0).
    rewrite (last_indep e0 e1 e2 rest'). unfold Datatypes.id.
    set (L := List.last (e2 :: rest') e1) in *.
    apply count_split.
    + intros x. unfold in_bin.
      destruct (Qle_bool e0 x) eqn:H0, (Qltb x e1) eqn:Hx1,
               (Qle_bool e1 x) eqn:H1, (Qle_bool x L) eqn:HL;
        try reflexivity; exfalso.
      * apply Qltb_lt in Hx1. apply Qle_bool_iff in H1.
        eapply Qlt_not_le; eassumption.
      * apply Qltb_lt in Hx1. apply Qle_bool_false in HL.
        apply (Qlt_irrefl x). eapply Qlt_trans; [exact Hx1|].
        eapply Qle_lt_trans; eassumption.
      * unfold Qltb in Hx1. rewrite H1 in Hx1. discriminate.
      * unfold Qltb in Hx1. rewrite H1 in Hx1. discriminate.
      * apply Qle_bool_iff in H1. apply Qle_bool_false in H0.
        apply (Qlt_irrefl x). eapply Qlt_le_trans; [exact H0|].
        eapply Qle_trans; eassumption.
    + intros x. unfold in_bin, Qltb.
      destruct (Qle_bool e0 x), (Qle_bool e1 x), (Qle_bool x L);
        reflexivity.
Qed.

Lemma linspace_edges (lo hi : Q) (n : positive) :
  linspace lo hi n
  = edge lo hi n 0 :: map (edge lo hi n) (seq 1 (Pos.to_nat n)).
Proof.
  unfold linspace. rewrite Nat.add_1_r. reflexivity.
Qed.

Lemma ascending_map_seq (f : nat -> Q) (k m : nat) :
  (forall i, f i <= f (S i))%Q -> ascending (f k) (map f (seq (S k) m)).
Proof.
  intros Hstep. revert k. induction m as [|m IH]; intros k; [exact I|].
  simpl. split; [apply Hstep | apply IH].
Qed.

Lemma last_map_seq_S (f : nat -> Q) (k m : nat) (d : Q) :
  List.last (map f (seq (S k) (S m))) d = f (S (k + m)).
Proof.
  revert k. induction m as [|m IH]; intros k.
  - rewrite Nat.add_0_r. reflexivity.
  - change (List.last (map f (seq (S k) (S (S m)))) d)
      with (List.last (map f (seq (S (S k)) (S m))) d).
    rewrite IH. f_equal. lia.
Qed.

Lemma last_map_seq (f : nat -> Q) (k m : nat) :
  List.last (map f (seq (S k) m)) (f k) = f (k + m)%nat.
Proof.
  destruct m as [|m].
  - rewrite Nat.add_0_r. reflexivity.
  - rewrite last_map_seq_S. f_equal. lia.
Qed.

Lemma edge_step (lo hi : Q) (n : positive) (i : nat) :
  (lo <= hi)%Q -> (edge lo hi n i <= edge lo hi n (S i))%Q.
Proof.
  intros Hle. unfold edge.
  rewrite Nat2Z.inj_succ. unfold Z.succ. rewrite inject_Z_plus.
  assert (Hstep : (0 <= (hi - lo) / inject_Z (Z.pos n))%Q).
  { unfold Qdiv. apply Qmult_le_0_compat.
    - unfold Qminus. rewrite <- (Qplus_opp_r lo).
      apply Qplus_le_l. exact Hle.
    - apply Qinv_le_0_compat. unfold Qle. simpl. lia. }
  set (step := ((hi - lo) / inject_Z (Z.pos n))%Q) in *.
  assert (Heq : (lo + (inject_Z (Z.of_nat i) + inject_Z 1) * step
                 == (lo + inject_Z (Z.of_nat i) * step) + step)%Q) by ring.
  rewrite Heq.
  rewrite <- (Qplus_0_r (lo + inject_Z (Z.of_nat i) * step)) at 1.
  apply Qplus_le_r. exact Hstep.
Qed.

Lemma edge_first (lo hi : Q) (n : positive) : (edge lo hi n 0 == lo)%Q.
Proof. unfold edge. simpl Z.of_nat. ring. Qed.

Lemma edge_last (lo hi : Q) (n : positive) :
  (edge lo hi n (Pos.to_nat n) == hi)%Q.
Proof.
  unfold edge. rewrite positive_nat_Z. field.
  unfold Qeq. simpl. lia.
Qed.

Lemma Qminimum_le (x : Q) (a : list Q) :
  (Qminimum x a <= x)%Q /\ Forall (Qle (Qminimum x a)) a.
Proof.
  unfold Qminimum. revert x. induction a as [|y a IH]; intros x.
  - split; [apply Qle_refl | constructor].
  - simpl. destruct (IH (Qmin x y)) as [Hm Hall]. split.
    + eapply Qle_trans; [exact Hm | apply Q.le_min_l].
    + constructor; [|exact Hall].
      eapply Qle_trans; [exact Hm | apply Q.le_min_r].
Qed.

Lemma Qmaximum_ge (x : Q) (a : list Q) :
  (x <= Qmaximum x a)%Q /\ Forall (fun y => y <= Qmaximum x a)%Q a.
Proof.
  unfold Qmaximum. revert x. induction a as [|y a IH]; intros x.
  - split; [apply Qle_refl | constructor].
  - simpl. destruct (IH (Qmax x y)) as [Hm Hall]. split.
    + eapply Qle_trans; [apply Q.le_max_l | exact Hm].
    + constructor; [|exact Hall].
      eapply Qle_trans; [apply Q.le_max_r | exact Hm].
Qed.

Lemma outer_edges_bounds (qs : list Q) (z : Q) :
  In z qs -> ((outer_edges qs).1 <= z)%Q /\ (z <= (outer_edges qs).2)%Q.
Proof.
  destruct qs as [|x a]; [intros []|]. intros Hin.
  unfold outer_edges.
  destruct (Qminimum_le x a) as [Hmx Hma].
  destruct (Qmaximum_ge x a) as [HMx HMa].
  assert (Hz : (Qminimum x a <= z)%Q /\ (z <= Qmaximum x a)%Q).
  { destruct Hin as [<- | Hin]; [split; assumption|].
    rewrite Forall_forall in Hma, HMa.
    split; [apply Hma | apply HMa]; apply list_elem_of_In; exact Hin. }
  destruct Hz as [Hlo Hhi].
  destruct (Qeq_bool (Qminimum x a) (Qmaximum x a)); simpl.
  - split.
    + eapply Qle_trans; [|exact Hlo].
      rewrite <- (Qplus_0_r (Qminimum x a)) at 2. unfold Qminus.
      apply Qplus_le_r. discriminate.
    + eapply Qle_trans; [exact Hhi|].
      rewrite <- (Qplus_0_r (Qmaximum x a)) at 1.
      apply Qplus_le_r. discriminate.
  - split; assumption.
Qed.

Lemma outer_edges_le (qs : list Q) :
  ((outer_edges qs).1 <= (outer_edges qs).2)%Q.
Proof.
  destruct qs as [|x a]; [discriminate|].
  destruct (outer_edges_bounds (x :: a) x (or_introl eq_refl)) as [H1 H2].
  eapply Qle_trans; eassumption.
Qed.

Lemma filter_all_length (f : Q -> bool) (a : list Q) :
  (forall x, In x a -> f x = true) -> length (List.filter f a) = length a.
Proof.
  intros H. induction a as [|x a IH]; [reflexivity|].
  simpl. rewrite (H x (or_introl eq_refl)). simpl. f_equal.
  apply IH. intros y Hy. apply H. right. exact Hy.
Qed.

(** The histogram of a sample on the bins of a larger sample counts every
    value once. *)
Lemma counts_total (X data : list Q) (method : bin_method) :
  (forall x, In x X -> In x data) ->
  sum_list (bin_counts X (bin_edges P data method)) = length X.
Proof.
  intros Hsub. unfold bin_edges.
  pose proof (outer_edges_le data) as Hle.
  pose proof (outer_edges_bounds data) as Hbounds.
  destruct (outer_edges data) as [lo hi]. simpl in Hle, Hbounds.
  match goal with |- context [linspace lo hi ?m] => set (n := m) end.
  rewrite linspace_edges.
  rewrite bin_counts_sum.
  - rewrite last_map_seq. simpl Nat.add.
    apply filter_all_length. intros x Hx.
    destruct (Hbounds x (Hsub x Hx)) as [Hlo Hhi].
    apply andb_true_intro. split; apply Qle_bool_iff.
    + rewrite edge_first. exact Hlo.
    + rewrite edge_last. exact Hhi.
  - pose proof (Pos2Nat.is_pos n) as Hpos.
    destruct (Pos.to_nat n); [lia | discriminate].
  - apply ascending_map_seq. intros i. apply edge_step. exact Hle.
Qed.

End Histograms.

(** *** Jensen-Shannon divergence: value on valid inputs *)

Section JsValues.
Import Metrics.

Lemma Qfold_plus (l : list Q) (acc : Q) :
  (fold_left Qplus l acc == acc + Qsum l)%Q.
Proof.
  unfold Qsum. revert acc. induction l as [|x l IH]; intros acc.
  - simpl. ring.
  - simpl. rewrite (IH (acc + x)%Q), (IH (0 + x)%Q). ring.
Qed.

Lemma Qsum_cons (x : Q) (l : list Q) : (Qsum (x :: l) == x + Qsum l)%Q.
Proof. unfold Qsum at 1. simpl. rewrite Qfold_plus. ring. Qed.

Lemma Qsum_nonneg (l : list Q) :
  Forall (Qle 0) l -> (0 <= Qsum l)%Q.
Proof.
  induction 1 as [|x l Hx Hl IH]; [discriminate|].
  rewrite Qsum_cons. rewrite <- (Qplus_0_r 0).
  apply Qplus_le_compat; assumption.
Qed.

Lemma Qsum_scale (t : Q) (l : list Q) :
  (Qsum (map (fun q => q / t) l) == Qsum l / t)%Q.
Proof.
  induction l as [|x l IH].
  - unfold Qsum, Qdiv. simpl. ring.
  - cbn [map]. rewrite !Qsum_cons, IH. unfold Qdiv. ring.
Qed.

Lemma Qsum_Qeq (a b : list Q) : Forall2 Qeq a b -> (Qsum a == Qsum b)%Q.
Proof.
  induction 1 as [|x y a b Hxy Hab IH]; [reflexivity|].
  rewrite !Qsum_cons, Hxy, IH. reflexivity.
Qed.

Lemma Qsum_counts (g : list nat) :
  (Qsum (map (fun c => inject_Z (Z.of_nat c)) g)
   == inject_Z (Z.of_nat (sum_list g)))%Q.
Proof.
  induction g as [|c g IH]; [reflexivity|].
  cbn [map]. rewrite Qsum_cons, IH. cbn [sum_list sum_list_with].
  unfold Datatypes.id. rewrite Nat2Z.inj_add, inject_Z_plus. reflexivity.
Qed.

Lemma normalize_Fin (qs : list Q) :
  ~ (Qsum qs == 0)%Q ->
  normalize (map Fin qs) = map Fin (map (fun q => q / Qsum qs)%Q qs).
Proof.
  intros Hnz. unfold normalize, fsum. rewrite fsum_Fin.
  fold (Qsum qs). rewrite !map_map. apply map_ext. intros q.
  unfold fdiv. destruct (Qeq_bool (Qsum qs) 0) eqn:Hb; [|reflexivity].
  apply Qeq_bool_iff in Hb. contradiction.
Qed.

Lemma mixture_Fin (a b : list Q) :
  mixture (map Fin a) (map Fin b) = map Fin (map mix (zip a b)).
Proof.
  unfold mixture. revert b. induction a as [|x a IH]; intros b;
    [reflexivity|].
  destruct b as [|y b]; [reflexivity|].
  simpl. f_equal. apply IH.
Qed.

Lemma Qsum_mix (a b : list Q) :
  length a = length b ->
  (Qsum (map mix (zip a b)) == (1 # 2) * (Qsum a + Qsum b))%Q.
Proof.
  revert b. induction a as [|x a IH]; intros b Hlen.
  - destruct b; [|discriminate]. unfold Qsum. simpl. ring.
  - destruct b as [|y b]; [discriminate|].
    simpl zip. cbn [map]. rewrite !Qsum_cons, IH by (simpl in Hlen; lia).
    unfold mix. simpl. ring.
Qed.

Lemma rel_entr_real (x y : Q) :
  (0 <= x)%Q -> (0 <= y)%Q -> ((0 < x)%Q -> (0 < y)%Q) ->
  exists r, rel_entr (Fin x) (Fin y) = Real r.
Proof.
  intros Hx Hy Hxy. unfold rel_entr. destruct (Qltb 0 x) eqn:Hpos.
  - apply Qltb_lt in Hpos.
    rewrite (proj2 (Qltb_lt 0 y) (Hxy Hpos)). simpl. eexists. reflexivity.
  - simpl. unfold Qltb in Hpos. apply negb_false_iff in Hpos.
    apply Qle_bool_iff in Hpos.
    rewrite (proj2 (Qeq_bool_iff x 0) (Qle_antisym _ _ Hpos Hx)).
    rewrite (proj2 (Qle_bool_iff 0 y) Hy). simpl. eexists. reflexivity.
Qed.

Lemma rel_entr_same (x y : Q) :
  (x == y)%Q -> (0 <= x)%Q -> rel_entr (Fin x) (Fin y) = Real 0.
Proof.
  intros Hxy Hx. unfold rel_entr. destruct (Qltb 0 x) eqn:Hpos.
  - apply Qltb_lt in Hpos.
    assert (Hy : (0 < y)%Q) by (rewrite <- Hxy; exact Hpos).
    rewrite (proj2 (Qltb_lt 0 y) Hy). simpl. f_equal.
    rewrite <- (Qeq_eqR _ _ Hxy).
    apply Qlt_Rlt in Hpos. rewrite RMicromega.Q2R_0 in Hpos.
    unfold Rdiv. rewrite Rinv_r by lra. rewrite ln_1. ring.
  - simpl. unfold Qltb in Hpos. apply negb_false_iff in Hpos.
    apply Qle_bool_iff in Hpos.
    rewrite (proj2 (Qeq_bool_iff x 0) (Qle_antisym _ _ Hpos Hx)).
    assert (Hy : (0 <= y)%Q) by (rewrite <- Hxy; exact Hx).
    rewrite (proj2 (Qle_bool_iff 0 y) Hy). reflexivity.
Qed.

Lemma fold_nadd_real (vec : list npfloat) (r0 : R) :
  Forall (fun v => exists r, v = Real r) vec ->
  exists r, fold_left nadd vec (Real r0) = Real r.
Proof.
  intros H. revert r0. induction H as [|v vec [r ->] Hvec IH]; intros r0.
  - exists r0. reflexivity.
  - simpl. apply IH.
Qed.

Lemma fold_nadd_zero (vec : list npfloat) :
  Forall (fun v => v = Real 0) vec -> fold_left nadd vec (Real 0) = Real 0.
Proof.
  induction 1 as [|v vec -> Hvec IH]; [reflexivity|].
  simpl. rewrite Rplus_0_l. exact IH.
Qed.

Lemma ndiv_real (r d : R) : d <> 0%R -> ndiv (Real r) d = Real (r / d).
Proof.
  intros Hd. unfold ndiv. destruct (Req_EM_T d 0); [contradiction|].
  reflexivity.
Qed.

Lemma dominated_length (a b : list Q) : dominated a b -> length a = length b.
Proof. apply Forall2_length. Qed.

Lemma dominated_scale (a b : list Q) (A B : Q) :
  dominated a b -> (0 < A)%Q -> (0 < B)%Q ->
  dominated (map (fun q => q / A)%Q a) (map (fun q => q / B)%Q b).
Proof.
  intros H HA HB. induction H as [|x y a b (Hx & Hy & Hxy) Hab IH];
    [constructor|].
  cbn [map]. constructor; [|exact IH]. repeat split.
  - apply Qle_shift_div_l; [exact HA|]. rewrite Qmult_0_l. exact Hx.
  - apply Qle_shift_div_l; [exact HB|]. rewrite Qmult_0_l. exact Hy.
  - intros Hpos. apply Qlt_shift_div_l; [exact HB|]. rewrite Qmult_0_l.
    apply Hxy.
    assert (Heq : (x == x / A * A)%Q) by (field; intros H0; rewrite H0 in HA;
                                           discriminate).
    rewrite Heq. apply Qmult_lt_0_compat; assumption.
Qed.

Lemma rel_entr_vector_real (a b : list Q) :
  dominated a b ->
  Forall (fun v => exists r, v = Real r)
         (map (fun xy : pyfloat * pyfloat => rel_entr xy.1 xy.2)
              (zip (map Fin a) (map Fin b))).
Proof.
  induction 1 as [|x y a b (Hx & Hy & Hxy) Hab IH]; [constructor|].
  simpl. constructor; [|exact IH]. apply rel_entr_real; assumption.
Qed.

Lemma rel_entr_vector_zero (a b : list Q) :
  Forall2 (fun x y => x == y /\ 0 <= x)%Q a b ->
  Forall (fun v => v = Real 0)
         (map (fun xy : pyfloat * pyfloat => rel_entr xy.1 xy.2)
              (zip (map Fin a) (map Fin b))).
Proof.
  induction 1 as [|x y a b (Hxy & Hx) Hab IH]; [constructor|].
  simpl. constructor; [|exact IH]. apply rel_entr_same; assumption.
Qed.

Lemma Qpos_nonzero (t : Q) : (0 < t)%Q -> ~ (t == 0)%Q.
Proof. intros Hpos Hz. rewrite Hz in Hpos. discriminate. Qed.

(** A relative entropy of finite vectors with positive sums, the first
    dominated by the second, is a real number. *)
Lemma entropy_real (a b : list Q) (base : R) :
  dominated a b -> (0 < Qsum a)%Q -> (0 < Qsum b)%Q -> ln base <> 0%R ->
  exists r, entropy (map Fin a) (map Fin b) (Some base) = Ret (Real r).
Proof.
  intros Hdom HA HB Hbase. unfold entropy.
  rewrite !length_map, (dominated_length a b Hdom), Nat.eqb_refl.
  cbn [negb]. cbv iota.
  rewrite (normalize_Fin a (Qpos_nonzero _ HA)).
  rewrite (normalize_Fin b (Qpos_nonzero _ HB)).
  destruct (fold_nadd_real _ 0
              (rel_entr_vector_real _ _
                 (dominated_scale a b _ _ Hdom HA HB))) as [r ->].
  rewrite ndiv_real by exact Hbase. eexists. reflexivity.
Qed.

Lemma scale_Qeq (a b : list Q) (A B : Q) :
  Forall2 Qeq a b -> Forall (Qle 0) a -> (A == B)%Q -> (0 < A)%Q ->
  Forall2 (fun x y => x == y /\ 0 <= x)%Q
          (map (fun q => q / A)%Q a) (map (fun q => q / B)%Q b).
Proof.
  intros Heq Hnn HAB HA. revert Hnn.
  induction Heq as [|x y a' b' Hxy Hab IH]; intros Hnn; [constructor|].
  inversion Hnn as [|? ? Hx Hrest]; subst.
  cbn [map]. constructor; [|apply IH; exact Hrest].
  split.
  - rewrite Hxy, HAB. reflexivity.
  - apply Qle_shift_div_l; [exact HA|]. rewrite Qmult_0_l. exact Hx.
Qed.

(** A relative entropy of a finite nonnegative vector against an equal
    one is 0. *)
Lemma entropy_zero (a b : list Q) (base : R) :
  Forall2 Qeq a b -> Forall (Qle 0) a -> (0 < Qsum a)%Q -> ln base <> 0%R ->
  entropy (map Fin a) (map Fin b) (Some base) = Ret (Real 0).
Proof.
  intros Heq Hnn HA Hbase. unfold entropy.
  rewrite !length_map, (Forall2_length _ _ _ Heq), Nat.eqb_refl.
  cbn [negb]. cbv iota.
  assert (HAB : (Qsum a == Qsum b)%Q) by (apply Qsum_Qeq; exact Heq).
  assert (HB : (0 < Qsum b)%Q) by (rewrite <- HAB; exact HA).
  rewrite (normalize_Fin a (Qpos_nonzero _ HA)).
  rewrite (normalize_Fin b (Qpos_nonzero _ HB)).
  rewrite fold_nadd_zero.
  - rewrite ndiv_real by exact Hbase. do 2 f_equal. unfold Rdiv. ring.
  - apply rel_entr_vector_zero, scale_Qeq; assumption.
Qed.

Lemma mix_nonneg (x y : Q) : (0 <= x)%Q -> (0 <= y)%Q -> (0 <= mix (x, y))%Q.
Proof.
  intros Hx Hy. unfold mix. simpl. apply Qmult_le_0_compat; [discriminate|].
  rewrite <- (Qplus_0_r 0). apply Qplus_le_compat; assumption.
Qed.

Lemma mix_pos_l (x y : Q) : (0 < x)%Q -> (0 <= y)%Q -> (0 < mix (x, y))%Q.
Proof.
  intros Hx Hy. unfold mix. simpl. apply Qmult_lt_0_compat; [reflexivity|].
  eapply Qlt_le_trans; [exact Hx|].
  rewrite <- (Qplus_0_r x) at 1. apply Qplus_le_r. exact Hy.
Qed.

Lemma mix_pos_r (x y : Q) : (0 <= x)%Q -> (0 < y)%Q -> (0 < mix (x, y))%Q.
Proof.
  intros Hx Hy. unfold mix. simpl. apply Qmult_lt_0_compat; [reflexivity|].
  eapply Qlt_le_trans; [exact Hy|].
  rewrite <- (Qplus_0_l y) at 1. apply Qplus_le_l. exact Hx.
Qed.

Lemma dominated_mix (a b : list Q) :
  Forall (Qle 0) a -> Forall (Qle 0) b -> length a = length b ->
  dominated a (map mix (zip a b)) /\ dominated b (map mix (zip a b)).
Proof.
  intros Ha. revert b. induction Ha as [|x a Hx Ha IH]; intros b Hb Hlen.
  - destruct b; [|discriminate]. split; constructor.
  - destruct b as [|y b]; [discriminate|].
    inversion Hb as [|? ? Hy Hb']; subst.
    destruct (IH b Hb') as [IHa IHb]; [simpl in Hlen; lia|].
    simpl zip. cbn [map]. split; constructor; try assumption.
    + repeat split; [exact Hx | apply mix_nonneg; assumption|].
      intros Hpos. apply mix_pos_l; assumption.
    + repeat split; [exact Hy | apply mix_nonneg; assumption|].
      intros Hpos. apply mix_pos_r; assumption.
Qed.

Lemma scale_nonneg (a : list Q) (A : Q) :
  Forall (Qle 0) a -> (0 < A)%Q -> Forall (Qle 0) (map (fun q => q / A)%Q a).
Proof.
  intros Ha HA. induction Ha as [|x a Hx Ha IH]; [constructor|].
  cbn [map]. constructor; [|exact IH].
  apply Qle_shift_div_l; [exact HA|]. rewrite Qmult_0_l. exact Hx.
Qed.

Lemma Qsum_normalized (a : list Q) :
  (0 < Qsum a)%Q -> (Qsum (map (fun q => q / Qsum a) a) == 1)%Q.
Proof.
  intros HA. rewrite Qsum_scale. field. apply Qpos_nonzero, HA.
Qed.

(** On finite nonnegative vectors with positive sums the divergence is a
    real number. *)
Lemma jensen_shannon_real (g s : list Q) (base : R) :
  length g = length s -> Forall (Qle 0) g -> Forall (Qle 0) s ->
  (0 < Qsum g)%Q -> (0 < Qsum s)%Q -> ln base <> 0%R ->
  exists r, jensen_shannon (map Fin g) (map Fin s) base = Ret (Some (Real r)).
Proof.
  intros Hlen Hg Hs HG HS Hbase. unfold jensen_shannon.
  rewrite (normalize_Fin g (Qpos_nonzero _ HG)).
  rewrite (normalize_Fin s (Qpos_nonzero _ HS)).
  set (a := map (fun q => q / Qsum g)%Q g).
  set (b := map (fun q => q / Qsum s)%Q s).
  assert (Hab : length a = length b)
    by (subst a b; rewrite !length_map; exact Hlen).
  rewrite !length_map, Hab, Nat.eqb_refl. rewrite mixture_Fin.
  assert (Ha : Forall (Qle 0) a) by (apply scale_nonneg; assumption).
  assert (Hb : Forall (Qle 0) b) by (apply scale_nonneg; assumption).
  assert (HA : (Qsum a == 1)%Q) by (apply Qsum_normalized; exact HG).
  assert (HB : (Qsum b == 1)%Q) by (apply Qsum_normalized; exact HS).
  assert (HM : (Qsum (map mix (zip a b)) == 1)%Q).
  { rewrite Qsum_mix by exact Hab. rewrite HA, HB. reflexivity. }
  destruct (dominated_mix a b Ha Hb Hab) as [Hda Hdb].
  destruct (entropy_real a (map mix (zip a b)) base Hda) as [r1 ->];
    [rewrite HA; reflexivity | rewrite HM; reflexivity | exact Hbase |].
  destruct (entropy_real b (map mix (zip a b)) base Hdb) as [r2 ->];
    [rewrite HB; reflexivity | rewrite HM; reflexivity | exact Hbase |].
  cbn [obind]. rewrite !ndiv_real by lra. eexists. reflexivity.
Qed.

Lemma mix_self (a : list Q) : Forall2 Qeq a (map mix (zip a a)).
Proof.
  induction a as [|x a IH]; [constructor|].
  simpl zip. cbn [map]. constructor; [|exact IH].
  unfold mix. simpl. field.
Qed.

(** On a finite nonnegative vector with positive sum, compared with
    itself, the divergence is 0. *)
Lemma jensen_shannon_self (g : list Q) (base : R) :
  Forall (Qle 0) g -> (0 < Qsum g)%Q -> ln base <> 0%R ->
  jensen_shannon (map Fin g) (map Fin g) base = Ret (Some (Real 0)).
Proof.
  intros Hg HG Hbase. unfold jensen_shannon.
  rewrite (normalize_Fin g (Qpos_nonzero _ HG)).
  set (a := map (fun q => q / Qsum g)%Q g).
  rewrite Nat.eqb_refl, mixture_Fin.
  assert (Ha : Forall (Qle 0) a) by (apply scale_nonneg; assumption).
  assert (HA : (Qsum a == 1)%Q) by (apply Qsum_normalized; exact HG).
  rewrite (entropy_zero a (map mix (zip a a)) base (mix_self a) Ha)
    by (rewrite ?HA; reflexivity || exact Hbase).
  cbn [obind]. rewrite !ndiv_real by lra. cbn [nadd].
  do 3 f_equal. lra.
Qed.

Lemma Qplus_comm_eq (x y : Q) : (x + y)%Q = (y + x)%Q.
Proof.
  unfold Qplus. f_equal; [apply Z.add_comm | apply Pos.mul_comm].
Qed.

Lemma fadd_comm (x y : pyfloat) : fadd x y = fadd y x.
Proof.
  destruct x, y; try reflexivity. simpl. f_equal. apply Qplus_comm_eq.
Qed.

Lemma nadd_comm (x y : npfloat) : nadd x y = nadd y x.
Proof.
  destruct x, y; try reflexivity. simpl. f_equal. apply Rplus_comm.
Qed.

Lemma mixture_comm (g s : list pyfloat) : mixture g s = mixture s g.
Proof.
  unfold mixture. revert s. induction g as [|x g IH]; intros s.
  - destruct s; reflexivity.
  - destruct s as [|y s]; [reflexivity|].
    simpl. rewrite (fadd_comm x y). f_equal. apply IH.
Qed.

(** The end of [js_divergence] is symmetric in its two vectors. *)
Lemma jensen_shannon_comm (g s : list pyfloat) (base : R) :
  jensen_shannon g s base = jensen_shannon s g base.
Proof.
  unfold jensen_shannon. rewrite (Nat.eqb_sym (length (normalize s))).
  destruct (length (normalize g) =? length (normalize s))%nat eqn:Hlen;
    [|reflexivity].
  apply Nat.eqb_eq in Hlen.
  rewrite (mixture_comm (normalize s) (normalize g)).
  assert (Hm : length (mixture (normalize g) (normalize s))
               = length (normalize g)).
  { unfold mixture. rewrite length_map, length_zip_with. lia. }
  unfold entropy. rewrite Hm, <- Hlen, Nat.eqb_refl. cbn [negb obind].
  cbv iota. cbn [obind]. rewrite nadd_comm. reflexivity.
Qed.

End JsValues.

(** *** Jensen-Shannon divergence: symmetry and self-comparison *)

Section JsSymmetry.
Import Metrics.

Context {key : Type}.
Variable P : @library key.

Lemma has_finite_value_passes (x : @measurement key) :
  has_finite_value x -> none_or_empty x = false.
Proof.
  unfold has_finite_value. destruct x as [|xs|rows]; simpl.
  - congruence.
  - destruct xs; [simpl; congruence | reflexivity].
  - destruct rows; [simpl; congruence | reflexivity].
Qed.

Lemma counts_nonneg (g : list nat) :
  Forall (Qle 0) (map (fun c => inject_Z (Z.of_nat c)) g).
Proof.
  induction g as [|c g IH]; [constructor|].
  cbn [map]. constructor; [|exact IH]. unfold Qle. simpl. lia.
Qed.

Lemma counts_sum_pos (g : list nat) :
  (0 < sum_list g)%nat ->
  (0 < Qsum (map (fun c => inject_Z (Z.of_nat c)) g))%Q.
Proof.
  intros Hpos. rewrite Qsum_counts. unfold Qlt. simpl. lia.
Qed.

(** The histogram of a nonempty finite sample on bins that cover it has a
    positive total. *)
Lemma histogram_total_pos (X data : list Q) (method : bin_method) :
  X <> [] -> (forall x, In x X -> In x data) ->
  (0 < sum_list (bin_counts X (bin_edges P data method)))%nat.
Proof.
  intros Hne Hsub. rewrite (counts_total P X data method Hsub).
  destruct X; [congruence | simpl; lia].
Qed.

(** The bins that [js_divergence] asks for in its default mode: those of
    the finite values of the two inputs, ground truth first. *)
Lemma js_divergence_bins (X Y : @measurement key) (edges : list Q) :
  get_hist_bins P (finite_part (as_array X)) (finite_part (as_array Y)) Doane
  = Ret edges ->
  X <> MNone /\ Y <> MNone /\
  bin_edges P (finite_values (values X) ++ finite_values (values Y)) Doane
  = edges.
Proof.
  intros H.
  destruct X as [|xs|xrows]; [discriminate| |];
    (destruct Y as [|ys|yrows]; [discriminate| |]);
    (split; [discriminate|]; split; [discriminate|]);
    cbn [as_array finite_part get_hist_bins values] in *;
    unfold histogram_bin_edges in H;
    rewrite <- List.filter_app, all_finite_filter, finite_values_app in H;
    injection H as <-; reflexivity.
Qed.

(** X21.  In the default mode the two orders of the arguments have the
    same outcome whenever [get_hist_bins] returns the same bins for the two
    orders in which the samples are concatenated. *)
Theorem js_divergence_symmetric_on_same_bins
    (X Y : @measurement key) (base : R) (edges : list Q) :
  get_hist_bins P (finite_part (as_array X)) (finite_part (as_array Y)) Doane
  = Ret edges ->
  get_hist_bins P (finite_part (as_array Y)) (finite_part (as_array X)) Doane
  = Ret edges ->
  js_divergence P X Y default_discrete base
  = js_divergence P Y X default_discrete base.
Proof.
  intros HXY HYX. unfold default_discrete.
  destruct (js_divergence_bins X Y edges HXY) as (_ & _ & H1).
  destruct (js_divergence_bins Y X edges HYX) as (_ & _ & H2).
  destruct (none_or_empty X) eqn:HpX.
  { unfold js_divergence. rewrite HpX, orb_true_r. reflexivity. }
  destruct (none_or_empty Y) eqn:HpY.
  { unfold js_divergence. rewrite HpY, orb_true_r. reflexivity. }
  rewrite (js_divergence_continuous P X Y base HpY HpX).
  rewrite (js_divergence_continuous P Y X base HpX HpY).
  rewrite H1, H2. apply jensen_shannon_comm.
Qed.

(** X22.  In the default mode and for a positive base other than 1, the
    divergence of an input that holds a finite value from itself is 0,
    whenever [get_hist_bins] returns bins for it. *)
Theorem js_divergence_of_input_with_itself (X : @measurement key) (base : R) :
  has_finite_value X ->
  returns (get_hist_bins P (finite_part (as_array X))
                         (finite_part (as_array X)) Doane) ->
  (0 < base)%R -> base <> 1%R ->
  js_divergence P X X default_discrete base = Ret (Some (Real 0)).
Proof.
  intros HX _ Hpos Hne1. unfold default_discrete.
  assert (Hbase : ln base <> 0%R) by (apply ln_neq_0; assumption).
  pose proof (has_finite_value_passes X HX) as HpX.
  rewrite (js_divergence_continuous P X X base HpX HpX).
  unfold has_finite_value in HX.
  set (Xq := finite_values (values X)) in *.
  rewrite astype_float_Fin. apply jensen_shannon_self.
  - apply counts_nonneg.
  - apply counts_sum_pos, histogram_total_pos; [exact HX|].
    intros x Hx. apply in_or_app. left. exact Hx.
  - exact Hbase.
Qed.

End JsSymmetry.

(** *** The metric claims on a concrete instance *)

Section MetricExamples.
Import Metrics MetricsExample.

Lemma scalar_metrics_raise_on_text_witness :
  absolute_difference lib (PyStr "x") (PyNumber (Fin 3)) = Raise ValueError /\
  absolute_percentage_error lib (PyStr "x") (PyNumber (Fin 3))
  = Raise ValueError.
Proof.
  destruct (scalar_metrics_raise_on_text lib "x" (PyNumber (Fin 3)) (Fin 3))
    as (Hd & Hp & _); [reflexivity | reflexivity |].
  split; [exact Hd | exact Hp].
Defined.

Lemma kl_divergence_smoothed_discrete_unbound_witness :
  kl_divergence_smoothed lib (MFrame [("mon", Fin 3); ("tue", Fin 1)])
                         (MFrame [("mon", Fin 2); ("wed", Fin 2)])
                         default_alpha true
  = Raise (UnboundLocalError "smoothed_simulation").
Proof.
  apply (proj1 (kl_divergence_smoothed_discrete_unbound lib default_alpha)
               [("mon", Fin 3); ("tue", Fin 1)]
               [("mon", Fin 2); ("wed", Fin 2)]
               (join_rows Outer [("mon", Fin 3); ("tue", Fin 1)]
                          [("mon", Fin 2); ("wed", Fin 2)])).
  reflexivity.
Defined.

(** C6, as stated, fails.  An input whose only value is [nan] is not
    empty when the emptiness test runs; after the filtering both
    histograms are zero and the result is the float [nan], not null. *)
Lemma js_divergence_all_nan_not_null :
  finite_values (values (@MList string [NaN])) = [] /\
  js_divergence lib (MList [NaN]) (MList [NaN]) false 2 = Ret (Some Nan) /\
  js_divergence lib (MList [NaN]) (MList [NaN]) false 2 <> Ret None.
Proof.
  assert (H : js_divergence lib (MList [NaN]) (MList [NaN]) false 2
              = Ret (Some Nan)) by (vm_compute; reflexivity).
  split; [reflexivity|]. split; [exact H|]. rewrite H. discriminate.
Qed.

Lemma js_divergence_null_cases_witness :
  js_divergence lib (MList []) (MList [Fin 1]) true 2 = Ret None /\
  js_divergence lib (MList [PosInf; NaN]) (MList [Fin 1; Fin 2]) false 2
  = Ret (Some Nan).
Proof.
  destruct (js_divergence_null_cases lib (MList []) (MList [Fin 1]) 2)
    as [Hnull _].
  destruct (js_divergence_null_cases lib (MList [PosInf; NaN])
              (MList [Fin 1; Fin 2]) 2) as [_ Hfloat].
  split.
  - apply Hnull. reflexivity.
  - apply Hfloat; [reflexivity | left; reflexivity | eexists; reflexivity].
Defined.

Lemma js_divergence_symmetric_on_same_bins_witness :
  js_divergence lib (MList [Fin 1; Fin 2; NaN]) (MList [Fin 2; Fin 5])
                default_discrete default_base
  = js_divergence lib (MList [Fin 2; Fin 5]) (MList [Fin 1; Fin 2; NaN])
                  default_discrete default_base.
Proof.
  apply (js_divergence_symmetric_on_same_bins lib
           (MList [Fin 1; Fin 2; NaN]) (MList [Fin 2; Fin 5]) default_base
           (bin_edges lib [1; 2; 2; 5]%Q Doane)); reflexivity.
Defined.

Lemma js_divergence_of_input_with_itself_witness :
  js_divergence lib (MList [Fin 1; Fin 2; NaN]) (MList [Fin 1; Fin 2; NaN])
                default_discrete default_base = Ret (Some (Real 0)).
Proof.
  apply (js_divergence_of_input_with_itself lib
           (MList [Fin 1; Fin 2; NaN]) default_base).
  - discriminate.
  - eexists. reflexivity.
  - unfold default_base. lra.
  - unfold default_base. lra.
Defined.

(** C10, as stated, fails.  Two lists are a pair of inputs; with
    [discrete=True] the call raises, but the error is the missing
    attribute [merge] of a list, raised before any local is read, and not
    the unbound local. *)
Lemma kl_divergence_smoothed_discrete_on_lists :
  kl_divergence_smoothed lib (MList [Fin 1; Fin 2]) (MList [Fin 1; Fin 3])
                         default_alpha true
  = Raise (AttributeError "merge") /\
  kl_divergence_smoothed lib (MList [Fin 1; Fin 2]) (MList [Fin 1; Fin 3])
                         default_alpha true
  <> Raise (UnboundLocalError "smoothed_simulation").
Proof.
  split; [reflexivity | discriminate].
Qed.

End MetricExamples.

(** * Further properties of the code *)

(** ** Rank-biased overlap *)

Section RboMoreFacts.
Import Rbo RboMore.

Lemma rbo_score_ranked_pair (X Y : DataFrame) (p : Q) :
  rbo_score X (Some Y) p
  = (do pr <- ranked_pair X Y; rbo_lists pr.1 pr.2 p).
Proof.
  unfold rbo_score, ranked_pair.
  destruct (length (columns X) =? 2)%nat; [|reflexivity].
  destruct (filter (fun c => c ≠ "value") (columns X)) as [|entity ?];
    [reflexivity|].
  destruct (getitem X entity); [|reflexivity]. simpl.
  destruct (getitem Y entity); reflexivity.
Qed.

Lemma overlap_comm (x y : list string) : overlap x y = overlap y x.
Proof.
  unfold overlap. f_equal. apply (comm_L (∩)).
Qed.

Lemma overlaps_comm (s : nat) (L S' : list string) :
  overlaps s L S' = overlaps s S' L.
Proof.
  unfold overlaps. generalize (∅ : gmap nat nat).
  induction (seq 1 s) as [|i l IH]; intros m; [reflexivity|].
  simpl. rewrite (overlap_comm (take i L)). apply IH.
Qed.

(** The score as a function of the shorter length and the two lists. *)
Lemma rbo_lists_unfold (gt sim : list string) (p : Q) :
  rbo_lists gt sim p
  = let s := Nat.min (length gt) (length sim) in
    if (s =? 0)%nat then Ret (Some 0%Q)
    else do total <- accumulate (overlaps s gt sim) p s;
         Ret (Some (total * (1 - p))%Q).
Proof.
  unfold rbo_lists, sorted_pair. cbv zeta.
  destruct (length sim <? length gt)%nat eqn:H1.
  - apply Nat.ltb_lt in H1. rewrite Nat.min_r by lia. reflexivity.
  - apply Nat.ltb_ge in H1.
    destruct (length gt <? length sim)%nat eqn:H2.
    + apply Nat.ltb_lt in H2. rewrite Nat.min_l by lia.
      rewrite (overlaps_comm (length gt) gt sim). reflexivity.
    + apply Nat.ltb_ge in H2.
      assert (Heq : length gt = length sim) by lia.
      rewrite Nat.min_l by lia.
      destruct (list_leb gt sim).
      * rewrite (overlaps_comm (length gt) gt sim). reflexivity.
      * rewrite <- Heq. reflexivity.
Qed.

Lemma size_list_to_set_le (l : list string) :
  size (list_to_set l : gset string) <= length l.
Proof.
  induction l as [|x l IH]; [rewrite list_to_set_nil, size_empty; lia|].
  rewrite list_to_set_cons, size_union_alt, size_singleton. simpl.
  pose proof (subseteq_size (list_to_set l ∖ {[x]}) (list_to_set l : gset string))
    as Hsub.
  assert (Hle : size ((list_to_set l : gset string) ∖ {[x]})
                <= size (list_to_set l : gset string))
    by (apply Hsub; set_solver).
  lia.
Qed.

Lemma overlap_le_depth (i : nat) (L S' : list string) :
  overlap (take i L) (take i S') <= i.
Proof.
  unfold overlap.
  pose proof (subseteq_size
                ((list_to_set (take i L) : gset string)
                 ∩ list_to_set (take i S'))
                (list_to_set (take i L))
                (intersection_subseteq_l _ _)) as H1.
  pose proof (size_list_to_set_le (take i L)) as H2.
  pose proof (firstn_le_length i L) as H3. lia.
Qed.

Lemma term_bounds (x_d : gmap nat nat) (p : Q) (i x : nat) :
  x_d !! i = Some x -> x <= i -> (1 <= i)%nat -> (0 <= p)%Q ->
  exists t, term x_d p i = Ret t
            /\ (0 <= t)%Q /\ (t <= p ^ Z.of_nat (i - 1))%Q.
Proof.
  intros Hx Hle Hi Hp. unfold term. rewrite Hx.
  eexists. split; [reflexivity|].
  assert (Hpow : (0 <= p ^ Z.of_nat (i - 1))%Q) by (apply Qpower_pos; exact Hp).
  assert (Hipos : (0 < inject_Z (Z.of_nat i))%Q)
    by (unfold Qlt; simpl; lia).
  assert (Hr0 : (0 <= inject_Z (Z.of_nat x) / inject_Z (Z.of_nat i))%Q).
  { apply Qle_shift_div_l; [exact Hipos|]. rewrite Qmult_0_l.
    unfold Qle. simpl. lia. }
  assert (Hr1 : (inject_Z (Z.of_nat x) / inject_Z (Z.of_nat i) <= 1)%Q).
  { apply Qle_shift_div_r; [exact Hipos|]. rewrite Qmult_1_l.
    rewrite <- Zle_Qle. lia. }
  split.
  - apply Qmult_le_0_compat; assumption.
  - rewrite <- (Qmult_1_l (p ^ Z.of_nat (i - 1))) at 2.
    apply Qmult_le_compat_r; assumption.
Qed.

(** The sum over the first [k] depths lies between 0 and the geometric
    sum. *)
Lemma accumulate_bounds (x_d : gmap nat nat) (p : Q) (k : nat) :
  (forall i, (1 <= i <= k)%nat -> exists x, x_d !! i = Some x /\ x <= i) ->
  (0 <= p)%Q -> (p <= 1)%Q ->
  exists v,
    fold_left (fun acc i => do a <- acc; do t <- term x_d p i; Ret (a + t)%Q)
              (seq 1 k) (Ret 0%Q) = Ret v
    /\ (0 <= v)%Q /\ (v * (1 - p) <= 1 - p ^ Z.of_nat k)%Q.
Proof.
  intros Hx Hp0 Hp1. induction k as [|k IH].
  - exists 0%Q. split; [reflexivity|]. split; [apply Qle_refl|].
    simpl. rewrite Qmult_0_l. apply Qle_refl.
  - destruct IH as (v & Hv & Hv0 & Hsum); [intros i Hi; apply Hx; lia|].
    destruct (Hx (S k)) as (x & Hlook & Hle); [lia|].
    destruct (term_bounds x_d p (S k) x Hlook Hle) as (t & Ht & Ht0 & Ht1);
      [lia | exact Hp0 |].
    replace (S k - 1)%nat with k in Ht1 by lia.
    exists (v + t)%Q. split; [|split].
    + rewrite seq_S, fold_left_app. simpl. rewrite Hv. simpl.
      rewrite Ht. reflexivity.
    + rewrite <- (Qplus_0_r 0). apply Qplus_le_compat; assumption.
    + assert (Hq : (0 <= 1 - p)%Q).
      { unfold Qminus. rewrite <- (Qplus_opp_r p).
        apply Qplus_le_l. exact Hp1. }
      rewrite Nat2Z.inj_succ. unfold Z.succ.
      rewrite Qpower_plus' by lia. change (p ^ 1)%Q with p.
      assert (Hstep : ((v + t) * (1 - p)
                       <= (1 - p ^ Z.of_nat k)
                          + p ^ Z.of_nat k * (1 - p))%Q).
      { assert (Hd : ((v + t) * (1 - p) == v * (1 - p) + t * (1 - p))%Q)
          by ring.
        rewrite Hd. apply Qplus_le_compat; [exact Hsum|].
        apply Qmult_le_compat_r; assumption. }
      eapply Qle_trans; [exact Hstep|].
      assert (He : ((1 - p ^ Z.of_nat k) + p ^ Z.of_nat k * (1 - p)
                    == 1 - p ^ Z.of_nat k * p)%Q) by ring.
      rewrite He. apply Qle_refl.
Qed.

Lemma overlaps_bounded (s : nat) (L S' : list string) (i : nat) :
  (1 <= i <= s)%nat ->
  exists x, overlaps s L S' !! i = Some x /\ x <= i.
Proof.
  intros Hi. eexists. split; [apply overlaps_lookup; exact Hi|].
  apply overlap_le_depth.
Qed.

Lemma rbo_lists_range (gt sim : list string) (p : Q) :
  (0 <= p)%Q -> (p <= 1)%Q ->
  exists v, rbo_lists gt sim p = Ret (Some v)
            /\ (0 <= v)%Q
            /\ (v <= 1 - p ^ Z.of_nat (Nat.min (length gt) (length sim)))%Q.
Proof.
  intros Hp0 Hp1. rewrite rbo_lists_unfold. cbv zeta.
  set (s := Nat.min (length gt) (length sim)).
  destruct (s =? 0)%nat eqn:Hs.
  - apply Nat.eqb_eq in Hs. rewrite Hs. exists 0%Q.
    split; [reflexivity|]. split; [apply Qle_refl | discriminate].
  - destruct (accumulate_bounds (overlaps s gt sim) p s
                (overlaps_bounded s gt sim) Hp0 Hp1) as (v & Hv & Hv0 & Hsum).
    unfold accumulate. rewrite Hv. simpl obind.
    eexists. split; [reflexivity|]. split; [|exact Hsum].
    apply Qmult_le_0_compat; [exact Hv0|].
    unfold Qminus. rewrite <- (Qplus_opp_r p). apply Qplus_le_l. exact Hp1.
Qed.

(** X1.  Whenever [rbo_score] gets as far as its two ranked lists and [p]
    lies in [[0, 1]], it returns a score, and the score is not negative:
    every term of the sum and the factor [1 - p] are products and
    quotients of numbers that are not negative. *)
Theorem rbo_score_range (X Y : DataFrame) (p : Q) (l1 l2 : list string) :
  ranked_pair X Y = Ret (l1, l2) -> (0 <= p)%Q -> (p <= 1)%Q ->
  exists v, rbo_score X (Some Y) p = Ret (Some v) /\ (0 <= v)%Q.
Proof.
  intros Hpair Hp0 Hp1. rewrite rbo_score_ranked_pair, Hpair. simpl.
  destruct (rbo_lists_range l1 l2 p Hp0 Hp1) as (v & Hv & Hv0 & _).
  exists v. split; [exact Hv | exact Hv0].
Qed.

(** X2.  The score does not depend on which list is the ground truth:
    when the same two lists are extracted in either order of the
    arguments, the two calls return the same. *)
Theorem rbo_score_symmetric (X Y : DataFrame) (p : Q) (l1 l2 : list string) :
  ranked_pair X Y = Ret (l1, l2) -> ranked_pair Y X = Ret (l2, l1) ->
  rbo_score X (Some Y) p = rbo_score Y (Some X) p.
Proof.
  intros H1 H2. rewrite !rbo_score_ranked_pair, H1, H2. simpl.
  rewrite !rbo_lists_unfold. cbv zeta.
  rewrite (Nat.min_comm (length l2)), (overlaps_comm _ l2 l1). reflexivity.
Qed.

Lemma overlap_disjoint (i : nat) (l1 l2 : list string) :
  (forall e, e ∈ l1 -> e ∉ l2) -> overlap (take i l1) (take i l2) = 0%nat.
Proof.
  intros Hdis. unfold overlap. apply size_empty_iff.
  apply set_equiv. intros e. split; [|set_solver].
  rewrite elem_of_intersection, !elem_of_list_to_set.
  intros [H1 H2]. exfalso. apply (Hdis e).
  - eapply elem_of_sublist; [exact H1 | apply sublist_take].
  - eapply elem_of_sublist; [exact H2 | apply sublist_take].
Qed.

Lemma accumulate_zero (x_d : gmap nat nat) (p : Q) (k : nat) :
  (forall i, (1 <= i <= k)%nat -> x_d !! i = Some 0%nat) ->
  exists v,
    fold_left (fun acc i => do a <- acc; do t <- term x_d p i; Ret (a + t)%Q)
              (seq 1 k) (Ret 0%Q) = Ret v
    /\ (v == 0)%Q.
Proof.
  intros Hx. induction k as [|k IH].
  - exists 0%Q. split; reflexivity.
  - destruct IH as (v & Hv & Hv0); [intros i Hi; apply Hx; lia|].
    eexists. split.
    + rewrite seq_S, fold_left_app. simpl. rewrite Hv. simpl.
      unfold term. rewrite (Hx (S k)) by lia. reflexivity.
    + rewrite Hv0. unfold Qdiv. simpl inject_Z. ring.
Qed.

(** X3.  For [p] in [[0, 1]], two ranked lists without a common entity
    score 0; so does any comparison in which one list is empty. *)
Theorem rbo_score_disjoint (X Y : DataFrame) (p : Q) (l1 l2 : list string) :
  ranked_pair X Y = Ret (l1, l2) ->
  (0 <= p)%Q -> (p <= 1)%Q ->
  (forall e, e ∈ l1 -> e ∉ l2) ->
  exists v, rbo_score X (Some Y) p = Ret (Some v) /\ (v == 0)%Q.
Proof.
  intros Hpair _ _ Hdis. rewrite rbo_score_ranked_pair, Hpair. simpl.
  rewrite rbo_lists_unfold. cbv zeta.
  set (s := Nat.min (length l1) (length l2)).
  destruct (s =? 0)%nat; [exists 0%Q; split; reflexivity|].
  destruct (accumulate_zero (overlaps s l1 l2) p s) as (v & Hv & Hv0).
  { intros i Hi. rewrite overlaps_lookup by exact Hi.
    rewrite overlap_disjoint by exact Hdis. reflexivity. }
  unfold accumulate. rewrite Hv. simpl obind.
  eexists. split; [reflexivity|]. rewrite Hv0. ring.
Qed.

Lemma rbo_score_range_witness :
  exists v, rbo_score (by_index ["a"; "b"; "c"]) (Some (by_index ["b"; "a"]))
                      (9 # 10) = Ret (Some v)
            /\ (0 <= v)%Q.
Proof.
  apply (rbo_score_range (by_index ["a"; "b"; "c"]) (by_index ["b"; "a"])
           (9 # 10) ["a"; "b"; "c"] ["b"; "a"]);
    [reflexivity | discriminate | discriminate].
Defined.

Lemma rbo_score_symmetric_witness :
  rbo_score (by_index ["a"; "b"; "c"]) (Some (by_index ["b"; "a"])) (9 # 10)
  = rbo_score (by_index ["b"; "a"]) (Some (by_index ["a"; "b"; "c"])) (9 # 10).
Proof.
  apply (rbo_score_symmetric (by_index ["a"; "b"; "c"]) (by_index ["b"; "a"])
           (9 # 10) ["a"; "b"; "c"] ["b"; "a"]); reflexivity.
Defined.

Lemma rbo_score_disjoint_witness :
  exists v, rbo_score (by_index ["a"; "b"]) (Some (by_index ["c"]))
                      (9 # 10) = Ret (Some v) /\ (v == 0)%Q.
Proof.
  apply (rbo_score_disjoint (by_index ["a"; "b"]) (by_index ["c"]) (9 # 10)
           ["a"; "b"] ["c"]); [reflexivity | discriminate | discriminate |].
  intros e He Hc. apply list_elem_of_In in He, Hc. simpl in He, Hc.
  destruct Hc as [<- | []]. destruct He as [He | [He | []]]; discriminate.
Defined.

End RboMoreFacts.

Section RboGroups.
Import Rbo RboMore.

Context {value : Type}.

Lemma rbo_group_step_raise (simulation : dict (list (entity * value)))
    (wt : Q) (ct : nat) (e : exn) (groups : dict (list (entity * value))) :
  fold_left (rbo_group_step simulation wt ct) groups (Raise e) = Raise e.
Proof. induction groups as [|g groups IH]; [reflexivity | exact IH]. Qed.

Lemma rbo_groups_loop (simulation : dict (list (entity * value)))
    (wt : Q) (ct : nat) (groups : dict (list (entity * value)))
    (st : Q * nat) :
  fold_left (rbo_group_step simulation wt ct) groups (Ret st)
  = if comparable_group groups simulation ct
    then Raise (AttributeError "columns")
    else Ret st.
Proof.
  induction groups as [|[grp tups] groups IH]; [reflexivity|].
  cbn [fold_left]. unfold comparable_group. cbn [existsb fst snd].
  fold (comparable_group groups simulation ct).
  assert (Hstep : rbo_group_step simulation wt ct (Ret st) (grp, tups)
                  = if negb (length tups <? ct)%nat && dict_has simulation grp
                    then Raise (AttributeError "columns") else Ret st).
  { unfold rbo_group_step, dict_has. cbn [obind fst snd].
    rewrite length_map.
    destruct (length tups <? ct)%nat; [reflexivity|].
    destruct (dict_get simulation grp); reflexivity. }
  rewrite Hstep.
  destruct (negb (length tups <? ct)%nat && dict_has simulation grp).
  - apply rbo_group_step_raise.
  - apply IH.
Qed.

(** X4.  [rbo_for_te] never returns a score other than 0.  With the index
    present on both sides and a nonempty simulation, it raises (the call of
    [rbo_score] on two Python lists fails on [columns]) as soon as a group
    of the ground truth with at least [ct] entities is also a group of the
    simulation, and returns 0 when there is none; an empty simulation
    gives 0. *)
Theorem rbo_for_te_never_scores
    (ground_truth simulation : dict (dict (list (entity * value))))
    (idx : string) (wt : Q) (ct : nat)
    (G S' : dict (list (entity * value))) :
  dict_get ground_truth idx = Some G ->
  (simulation = [] -> rbo_for_te ground_truth simulation idx wt ct = Ret 0%Q)
  /\ (dict_get simulation idx = Some S' ->
      rbo_for_te ground_truth simulation idx wt ct
      = if comparable_group G S' ct
        then Raise (AttributeError "columns")
        else Ret 0%Q).
Proof.
  intros HG. unfold rbo_for_te, dict_item. rewrite HG. cbn [obind]. split.
  - intros ->. reflexivity.
  - intros HS. destruct simulation as [|item simulation]; [discriminate|].
    cbn [length Nat.eqb]. rewrite HS. cbn [obind].
    rewrite rbo_groups_loop.
    destruct (comparable_group G S' ct); reflexivity.
Qed.

End RboGroups.

Section RboGroupsExamples.
Import Rbo RboMore.

Lemma rbo_for_te_never_scores_witness :
  rbo_for_te te_ground_truth te_simulation "hashtags" (9 # 10) 2
  = Raise (AttributeError "columns")
  /\ rbo_for_te te_ground_truth te_simulation "hashtags" (9 # 10) 3
     = Ret 0%Q.
Proof.
  destruct (rbo_for_te_never_scores te_ground_truth te_simulation "hashtags"
              (9 # 10) 2
              [("c1", [(EStr "covid", 9%nat); (EStr "bt", 4%nat)]);
               ("c2", [(ETuple ["a"; "b"], 2%nat)])]
              [("c1", [(EStr "covid", 7%nat)])] eq_refl) as [_ H2].
  destruct (rbo_for_te_never_scores te_ground_truth te_simulation "hashtags"
              (9 # 10) 3
              [("c1", [(EStr "covid", 9%nat); (EStr "bt", 4%nat)]);
               ("c2", [(ETuple ["a"; "b"], 2%nat)])]
              [("c1", [(EStr "covid", 7%nat)])] eq_refl) as [_ H3].
  split; [exact (H2 eq_refl) | exact (H3 eq_refl)].
Defined.

End RboGroupsExamples.

(** ** Measurement orchestration *)

Section RunMoreFacts.
Import Run RunMore.

Context {dataset metadata config_subset mobject mresults mlogs : Type}.
Context {metrics metrics_logs : Type}.
Variable E : @externals dataset metadata config_subset mobject mresults mlogs
                        metrics metrics_logs.

Lemma instantiate_and_run_well_logged M subset platform cfg meta kw :
  well_logged
    (Some (instantiate_and_run E M subset platform cfg meta kw).1)
    (Some (instantiate_and_run E M subset platform cfg meta kw).2).
Proof.
  unfold instantiate_and_run, well_logged, stored_statuses.
  destruct (match M with
            | Some c =>
                if String.eqb platform "multi_platform"
                then construct E c subset None cfg meta
                else construct E c subset (Some platform) cfg meta
            | None => Raise (UnboundLocalError "Measurement")
            end) as [m|e]; simpl.
  - destruct (run E m kw) as [[r l]|e]; simpl; [exact I|].
    apply list_elem_of_In. right. left. reflexivity.
  - apply list_elem_of_In. left. reflexivity.
Qed.

Lemma types_loop_well_logged subset platform meta kw types st :
  entries_well_logged st.1.2 st.2 ->
  entries_well_logged
    (fold_left (measurement_step E subset platform meta kw) types st).1.2
    (fold_left (measurement_step E subset platform meta kw) types st).2.
Proof.
  revert st. induction types as [|[name cfg] types IH]; intros st Hst;
    [exact Hst|].
  simpl fold_left. apply IH. destruct st as [[vars pr] pl].
  rewrite measurement_step_eq. simpl. intros n.
  destruct (decide (name = n)) as [->|Hne].
  - rewrite !lookup_insert_eq. apply instantiate_and_run_well_logged.
  - rewrite !lookup_insert_ne by exact Hne. apply Hst.
Qed.

Lemma platforms_loop_well_logged data meta kw test config st :
  run_well_logged st.1.2 st.2 ->
  run_well_logged
    (fold_left (platform_step E data meta kw test) config st).1.2
    (fold_left (platform_step E data meta kw test) config st).2.
Proof.
  revert st. induction config as [|[platform types] config IH]; intros st Hst;
    [exact Hst|].
  simpl fold_left. apply IH. destruct st as [[vars results] logs].
  rewrite platform_step_eq. cbv zeta. simpl. intros p.
  destruct (decide (platform = p)) as [->|Hne].
  - rewrite !lookup_insert_eq. apply types_loop_well_logged.
    intros n. simpl. rewrite !lookup_empty. exact I.
  - rewrite !lookup_insert_ne by exact Hne. apply Hst.
Qed.

Lemma platforms_loop_dom data meta kw test config st :
  dom (fold_left (platform_step E data meta kw test) config st).1.2
    = dom st.1.2 ∪ list_to_set (map fst config) /\
  dom (fold_left (platform_step E data meta kw test) config st).2
    = dom st.2 ∪ list_to_set (map fst config).
Proof.
  revert st. induction config as [|[platform types] config IH]; intros st.
  - simpl. split; set_solver.
  - simpl fold_left.
    destruct (IH (platform_step E data meta kw test st (platform, types)))
      as [-> ->].
    destruct st as [[vars results] logs]. rewrite platform_step_eq.
    cbv zeta. simpl. rewrite !dom_insert_L. split; set_solver.
Qed.

(** X5.  The results and the logs that [run_measurements] returns have the
    same key paths: both are keyed by exactly the configured platforms, and
    under every platform the two mappings have the same measurement-type
    keys. *)
Theorem run_measurements_same_key_paths
    data config meta timing verbose save save_directory save_format test :
  let out := run_measurements E data config meta timing verbose save
                              save_directory save_format test in
  dom out.1 = list_to_set (map fst config) /\
  dom out.2 = list_to_set (map fst config) /\
  forall platform pr,
    out.1 !! platform = Some pr ->
    exists pl, out.2 !! platform = Some pl /\ dom pr = dom pl.
Proof.
  cbv zeta. rewrite run_measurements_eq. cbv zeta. simpl.
  set (kw := {| kw_verbose := verbose; kw_save := save;
                kw_save_directory := save_directory;
                kw_save_format := save_format |}).
  unfold run_loop.
  destruct (platforms_loop_dom data meta kw test config (unbound, ∅, ∅))
    as [Hdr Hdl].
  simpl in Hdr, Hdl.
  rewrite dom_empty_L, (left_id_L ∅ (∪)) in Hdr.
  rewrite dom_empty_L, (left_id_L ∅ (∪)) in Hdl.
  split; [exact Hdr|]. split; [exact Hdl|].
  intros platform pr Hpr.
  pose proof (platforms_loop_well_logged data meta kw test config
                (unbound, ∅, ∅)) as Hwl.
  assert (Hinit : run_well_logged (∅ : gmap string (gmap string (option mresults)))
                                  (∅ : gmap string (gmap string (log_entry mlogs)))).
  { intros p. rewrite !lookup_empty. exact I. }
  specialize (Hwl Hinit platform). rewrite Hpr in Hwl.
  destruct ((fold_left (platform_step E data meta kw test) config
               (unbound, ∅, ∅)).2 !! platform) as [pl|]; [|contradiction].
  exists pl. split; [reflexivity|].
  apply set_eq. intros name. rewrite !elem_of_dom.
  specialize (Hwl name). unfold well_logged in Hwl.
  destruct (pr !! name) as [[r|]|], (pl !! name) as [[l|s e]|];
    try contradiction; split; intros [? ?]; try discriminate; eauto.
Qed.

(** X6.  In what [run_measurements] returns, every entry pairs a result
    with the logs that the collaborator's [run] returned, or pairs null
    with a log whose status is one of the two failure statuses; no other
    status, in particular none about subsetting, is ever returned. *)
Theorem run_measurements_null_iff_failure
    data config meta timing verbose save save_directory save_format test
    platform pr pl name :
  let out := run_measurements E data config meta timing verbose save
                              save_directory save_format test in
  out.1 !! platform = Some pr -> out.2 !! platform = Some pl ->
  match pr !! name, pl !! name with
  | None, None => True
  | Some (Some _), Some (RunLogs _) => True
  | Some None, Some (Failure status _) =>
      status = "Failed to instantiate measurements object"
      \/ status = "Measurements object failed to run."
  | _, _ => False
  end.
Proof.
  cbv zeta. rewrite run_measurements_eq. cbv zeta. simpl.
  set (kw := {| kw_verbose := verbose; kw_save := save;
                kw_save_directory := save_directory;
                kw_save_format := save_format |}).
  unfold run_loop. intros Hpr Hpl.
  pose proof (platforms_loop_well_logged data meta kw test config
                (unbound, ∅, ∅)) as Hwl.
  assert (Hinit : run_well_logged (∅ : gmap string (gmap string (option mresults)))
                                  (∅ : gmap string (gmap string (log_entry mlogs)))).
  { intros p. rewrite !lookup_empty. exact I. }
  specialize (Hwl Hinit platform). rewrite Hpr, Hpl in Hwl.
  specialize (Hwl name). unfold well_logged, stored_statuses in Hwl.
  destruct (pr !! name) as [[r|]|], (pl !! name) as [[l|s e]|];
    try contradiction; try exact I.
  apply list_elem_of_In in Hwl. simpl in Hwl.
  destruct Hwl as [<- | [<- | []]]; [left | right]; reflexivity.
Qed.

(** C2, on the code.  When the subsetting of a platform raises, the
    [except] clause builds the log ['Failed to subset <platform>'] and binds
    it to the local [measurement_logs], which nothing stores: the platform
    still gets one entry per configured measurement type (each type is
    attempted), and no log that is returned, under this platform or
    another, has the subsetting status. *)
Theorem subset_failure_log_is_lost
    data meta timing verbose save save_directory save_format test
    pre platform types post error :
  platform ∉ map fst post ->
  (subset_step E data platform test).2 = Some error ->
  let config := pre ++ (platform, types) :: post in
  let out := run_measurements E data config meta timing verbose save
                              save_directory save_format test in
  (forall vars : @locals mresults mlogs,
     measurement_logs
       (subset_except platform (subset_step E data platform test).2 vars)
     = Some (Failure ("Failed to subset " ++ platform)%string error)) /\
  (exists pr pl,
     out.1 !! platform = Some pr /\ out.2 !! platform = Some pl /\
     dom pr = list_to_set (map fst types) /\
     dom pl = list_to_set (map fst types)) /\
  (forall q ql name status e,
     out.2 !! q = Some ql -> ql !! name = Some (Failure status e) ->
     status <> ("Failed to subset " ++ platform)%string).
Proof.
  intros Hpost Hfail config out.
  subst out. rewrite run_measurements_eq. cbv zeta. simpl.
  set (kw := {| kw_verbose := verbose; kw_save := save;
                kw_save_directory := save_directory;
                kw_save_format := save_format |}).
  split; [|split].
  - intros vars. rewrite Hfail. reflexivity.
  - destruct (platform_entry E data meta kw test pre platform types post
                Hpost) as [Hr Hl].
    cbv zeta in Hr, Hl.
    eexists _, _. split; [exact Hr|]. split; [exact Hl|].
    destruct (types_loop_dom E meta kw (subset_step E data platform test).1
                platform types
                (subset_except platform (subset_step E data platform test).2
                   (fold_left (platform_step E data meta kw test) pre
                              (unbound, ∅, ∅)).1.1, ∅, ∅)) as [Hdr Hdl].
    simpl in Hdr, Hdl.
    rewrite dom_empty_L, (left_id_L ∅ (∪)) in Hdr.
    rewrite dom_empty_L, (left_id_L ∅ (∪)) in Hdl.
    split; [exact Hdr | exact Hdl].
  - intros q ql name status e Hql Hname.
    pose proof (platforms_loop_well_logged data meta kw test config
                  (unbound, ∅, ∅)) as Hwl.
    assert (Hinit : run_well_logged
                      (∅ : gmap string (gmap string (option mresults)))
                      (∅ : gmap string (gmap string (log_entry mlogs)))).
    { intros p. rewrite !lookup_empty. exact I. }
    specialize (Hwl Hinit q). unfold run_loop in Hql. rewrite Hql in Hwl.
    destruct ((fold_left (platform_step E data meta kw test) config
                 (unbound, ∅, ∅)).1.2 !! q) as [pr|]; [|contradiction].
    specialize (Hwl name). rewrite Hname in Hwl.
    unfold well_logged, stored_statuses in Hwl.
    destruct (pr !! name) as [[r|]|]; try contradiction.
    apply list_elem_of_In in Hwl. simpl in Hwl.
    destruct Hwl as [<- | [<- | []]]; simpl; discriminate.
Qed.

Lemma resolve_class_of (name : string) (c : collaborator)
    (M : option collaborator) :
  class_of name = Some c -> resolve name M = Some c.
Proof.
  unfold class_of, resolve.
  repeat (destruct (String.eqb name _); [intros H; exact H|]).
  discriminate.
Qed.

(** X7.  The entry of a known measurement type is decided by its own
    collaborator alone, whatever happened at the other measurement types
    and platforms: a failed construction gives null with the instantiation
    status and the error, a failed run gives null with the run status and
    the error, and otherwise the entry holds what [run] returned. *)
Theorem known_type_entry_is_isolated
    data meta timing verbose save save_directory save_format test
    pre platform tpre name cfg tpost post c :
  class_of name = Some c ->
  platform ∉ map fst post ->
  name ∉ map fst tpost ->
  let config := pre ++ (platform, tpre ++ (name, cfg) :: tpost) :: post in
  let out := run_measurements E data config meta timing verbose save
                              save_directory save_format test in
  let kw := {| kw_verbose := verbose; kw_save := save;
               kw_save_directory := save_directory;
               kw_save_format := save_format |} in
  let subset := (subset_step E data platform test).1 in
  exists pr pl,
    out.1 !! platform = Some pr /\ out.2 !! platform = Some pl /\
    match construct E c subset
            (if String.eqb platform "multi_platform" then None
             else Some platform) cfg meta with
    | Raise error =>
        pr !! name = Some None
        /\ pl !! name
           = Some (Failure "Failed to instantiate measurements object" error)
    | Ret measurement =>
        match run E measurement kw with
        | Raise error =>
            pr !! name = Some None
            /\ pl !! name
               = Some (Failure "Measurements object failed to run." error)
        | Ret (r, l) =>
            pr !! name = Some (Some r) /\ pl !! name = Some (RunLogs l)
        end
    end.
Proof.
  intros Hclass Hpost Htpost config out kw subset. subst out config.
  rewrite run_measurements_eq. cbv zeta. fold kw. simpl.
  destruct (platform_entry E data meta kw test pre platform
              (tpre ++ (name, cfg) :: tpost) post Hpost) as [Hr Hl].
  cbv zeta in Hr, Hl. fold subset in Hr, Hl.
  eexists _, _. split; [exact Hr|]. split; [exact Hl|].
  destruct (types_loop_entry E meta kw subset platform tpre name cfg tpost
              (subset_except platform (subset_step E data platform test).2
                 (fold_left (platform_step E data meta kw test) pre
                            (unbound, ∅, ∅)).1.1, ∅, ∅) Htpost) as [Hpr Hpl].
  cbv zeta in Hpr, Hpl. rewrite Hpr, Hpl. clear Hpr Hpl Hr Hl.
  rewrite (resolve_class_of name c _ Hclass).
  unfold instantiate_and_run.
  destruct (String.eqb platform "multi_platform");
    (destruct (construct E c subset _ cfg meta) as [m|e];
     [destruct (run E m kw) as [[r l]|e]|]; split; reflexivity).
Qed.

End RunMoreFacts.

Section RunMoreExamples.
Import Run RunMore Example.

Lemma known_type_entry_is_isolated_witness :
  exists pr pl,
    (run_measurements world tweets twitter_three tt false false false
                      "./" "json" false).1 !! "twitter" = Some pr /\
    (run_measurements world tweets twitter_three tt false false false
                      "./" "json" false).2 !! "twitter" = Some pl /\
    pr !! "social_structure" = Some None /\
    pl !! "social_structure"
    = Some (Failure "Failed to instantiate measurements object"
                    (External "construction failed")).
Proof.
  destruct (known_type_entry_is_isolated world tweets tt
              false false false "./" "json" false
              [] "twitter" [("social_activity", 1%nat)] "social_structure"
              2%nat [("recurrence", 3%nat)] [] SocialStructureMeasurements)
    as (pr & pl & Hr & Hl & Hpr & Hpl).
  - reflexivity.
  - apply not_elem_of_nil.
  - intros Hin. apply list_elem_of_In in Hin. simpl in Hin.
    destruct Hin as [Hin | []]. discriminate.
  - exists pr, pl. split; [exact Hr|]. split; [exact Hl|].
    split; [exact Hpr | exact Hpl].
Defined.

Lemma run_measurements_same_key_paths_witness :
  dom (run_measurements world tweets twitter_three tt false false false
                        "./" "json" false).1 = {[ "twitter" ]}.
Proof.
  destruct (run_measurements_same_key_paths world tweets twitter_three tt
              false false false "./" "json" false) as [Hd _].
  rewrite Hd. simpl. apply (right_id_L ∅ (∪)).
Defined.

Lemma run_measurements_null_iff_failure_witness :
  match ({[ "social_activity" := Some 3%nat; "social_structure" := None;
            "recurrence" := Some 5%nat ]} : gmap string (option nat))
          !! "social_structure",
        ({[ "social_activity" := RunLogs "success";
            "social_structure" :=
              Failure "Failed to instantiate measurements object"
                      (External "construction failed");
            "recurrence" := RunLogs "success" ]}
           : gmap string (log_entry string)) !! "social_structure" with
  | None, None => True
  | Some (Some _), Some (RunLogs _) => True
  | Some None, Some (Failure status _) =>
      status = "Failed to instantiate measurements object"
      \/ status = "Measurements object failed to run."
  | _, _ => False
  end.
Proof.
  apply (run_measurements_null_iff_failure world tweets twitter_three tt
           false false false "./" "json" false "twitter").
  - vm_compute. reflexivity.
  - vm_compute. reflexivity.
Defined.

Lemma subset_failure_log_is_lost_witness :
  let out := run_measurements world None twitter_activity tt false false
                              false "./" "json" false in
  (forall vars : @locals nat string,
     measurement_logs
       (subset_except "twitter" (subset_step world None "twitter" false).2
                      vars)
     = Some (Failure "Failed to subset twitter" TypeError)) /\
  (exists pr pl,
     out.1 !! "twitter" = Some pr /\ out.2 !! "twitter" = Some pl /\
     dom pr = list_to_set ["social_activity"] /\
     dom pl = list_to_set ["social_activity"]) /\
  (forall q ql name status e,
     out.2 !! q = Some ql -> ql !! name = Some (Failure status e) ->
     status <> "Failed to subset twitter").
Proof.
  apply (subset_failure_log_is_lost world None tt false false false "./"
           "json" false [] "twitter" [("social_activity", 5%nat)] []
           TypeError).
  - apply not_elem_of_nil.
  - reflexivity.
Defined.

End RunMoreExamples.

(** ** Metrics: further properties *)

Section ScalarMore.
Import Metrics MetricsMore.

Context {key : Type}.
Variable P : @library key.

(** X8.  On two numbers whose magnitudes are at most half the largest
    double, [absolute_difference] returns a finite value that is the same
    in both argument orders and is never negative; it is 0 when the two
    numbers are equal. *)
Theorem absolute_difference_is_distance (a b : Q) :
  (2 * Qabs a <= DBL_MAX)%Q -> (2 * Qabs b <= DBL_MAX)%Q ->
  exists v w : Q,
    absolute_difference P (PyNumber (Fin a)) (PyNumber (Fin b))
    = Ret (Some (Fin v)) /\
    absolute_difference P (PyNumber (Fin b)) (PyNumber (Fin a))
    = Ret (Some (Fin w)) /\
    (v == w)%Q /\ (0 <= v)%Q /\ (v <= DBL_MAX)%Q /\
    ((a == b)%Q -> (v == 0)%Q).
Proof.
  intros Ha Hb.
  exists (Qabs (b + - a)), (Qabs (a + - b)).
  split; [reflexivity|]. split; [reflexivity|].
  split; [|split; [|split]].
  - rewrite <- (Qabs_opp (a + - b)).
    assert (Heq : (- (a + - b) == b + - a)%Q) by ring.
    rewrite Heq. reflexivity.
  - apply Qabs_nonneg.
  - eapply Qle_trans; [apply Qabs_triangle|]. rewrite Qabs_opp.
    assert (Hsum : (2 * (Qabs b + Qabs a) <= 2 * DBL_MAX)%Q).
    { assert (Hd : (2 * (Qabs b + Qabs a) == 2 * Qabs b + 2 * Qabs a)%Q)
        by ring.
      assert (Hd' : (2 * DBL_MAX == DBL_MAX + DBL_MAX)%Q) by ring.
      rewrite Hd, Hd'. apply Qplus_le_compat; assumption. }
    apply (Qmult_le_l _ _ 2); [reflexivity | exact Hsum].
  - intros Hab. rewrite Hab.
    assert (H0 : (b + - b == 0)%Q) by ring.
    rewrite H0. reflexivity.
Qed.

(** X9.  The scalar metrics answer null, and do not raise, when the
    simulation is [None] and the ground truth is a number, a string or
    [None], and when the ground truth is [None] while the simulation
    converts to a float. *)
Theorem scalar_metrics_null_on_non_numbers (g s : pyobj) :
  (s = PyNone /\ g <> PyContainer) \/
  (g = PyNone /\ returns (to_float P s)) ->
  absolute_difference P g s = Ret None /\
  absolute_percentage_error P g s = Ret None.
Proof.
  intros [[-> _] | [-> [v Hv]]].
  - unfold absolute_difference, absolute_percentage_error.
    cbn [to_float obind except_TypeError].
    split; [reflexivity|]. destruct (equals_zero g); reflexivity.
  - unfold absolute_difference, absolute_percentage_error.
    rewrite Hv. split; reflexivity.
Qed.

(** X10.  For a finite nonzero ground truth [g] and a finite simulation
    [s], [absolute_percentage_error] returns a float, and the division is
    by [g], not by [|g|]: the result is never positive when the ground
    truth is negative and never negative when it is positive.  It is 0
    when the two numbers are equal. *)
Theorem absolute_percentage_error_sign (g s : Q) :
  ~ (g == 0)%Q ->
  exists r : pyfloat,
    absolute_percentage_error P (PyNumber (Fin g)) (PyNumber (Fin s))
    = Ret (Some r) /\
    ((g < 0)%Q -> at_most_zero r) /\
    ((0 < g)%Q -> at_least_zero r) /\
    ((s == g)%Q -> exists v : Q, r = Fin v /\ (v == 0)%Q).
Proof.
  intros Hg. exists (Fin (inject_Z 100 * Qabs (s + - g) / g)%Q).
  assert (Hgb : Qeq_bool g 0 = false).
  { destruct (Qeq_bool g 0) eqn:Hb; [|reflexivity].
    apply Qeq_bool_iff in Hb. contradiction. }
  assert (Hnum : (0 <= inject_Z 100 * Qabs (s + - g))%Q).
  { apply Qmult_le_0_compat; [discriminate | apply Qabs_nonneg]. }
  split; [|split; [|split]].
  - unfold absolute_percentage_error. cbn [equals_zero]. rewrite Hgb.
    cbn [to_float obind fsub fopp fadd fabs fmul fdiv except_TypeError].
    rewrite Hgb. reflexivity.
  - intros Hneg. cbn [at_most_zero].
    assert (Hpos : (0 < - g)%Q).
    { apply (Qplus_lt_l _ _ g). ring_simplify. exact Hneg. }
    assert (Hq : (0 <= inject_Z 100 * Qabs (s + - g) / - g)%Q).
    { apply Qle_shift_div_l; [exact Hpos|]. rewrite Qmult_0_l. exact Hnum. }
    assert (Heq : (inject_Z 100 * Qabs (s + - g) / g
                   == - (inject_Z 100 * Qabs (s + - g) / - g))%Q).
    { field. exact Hg. }
    rewrite Heq. apply (Qplus_le_l _ _ (inject_Z 100 * Qabs (s + - g) / - g)).
    ring_simplify. exact Hq.
  - intros Hpos. cbn [at_least_zero].
    apply Qle_shift_div_l; [exact Hpos|]. rewrite Qmult_0_l. exact Hnum.
  - intros Hsg. eexists. split; [reflexivity|]. rewrite Hsg.
    assert (H0 : (g + - g == 0)%Q) by ring.
    rewrite H0. change (Qabs 0) with 0%Q. unfold Qdiv. ring.
Qed.

End ScalarMore.

(** *** Root mean squared error of two lists *)

Section RmseMore.
Import Metrics MetricsMore.

Context {key : Type}.
Variable P : @library key.
Variable iqr : list pyfloat -> pyfloat.

Lemma nan_to_num_to_num (l : list pyfloat) :
  map nan_to_num l = map Fin (map to_num l).
Proof.
  induction l as [|x l IH]; [reflexivity|].
  cbn [map]. rewrite IH. destruct x; reflexivity.
Qed.

Lemma sub_squares (a b : list Q) :
  map (fun x => fmul x x)
      (map (fun xy : pyfloat * pyfloat => fsub xy.1 xy.2)
           (zip (map Fin a) (map Fin b)))
  = map Fin (map (fun xy : Q * Q => (xy.1 + - xy.2) * (xy.1 + - xy.2))%Q
                 (zip a b)).
Proof.
  revert b. induction a as [|x a IH]; intros [|y b]; try reflexivity.
  simpl. f_equal. apply IH.
Qed.

Lemma square_nonneg (x : Q) : (0 <= x * x)%Q.
Proof. unfold Qle, Qmult. simpl. nia. Qed.

Lemma squared_error_nonneg (a b : list Q) : (0 <= squared_error a b)%Q.
Proof.
  unfold squared_error. apply Qsum_nonneg, Forall_forall. intros z Hz.
  apply list_elem_of_In, in_map_iff in Hz as (xy & <- & _).
  apply square_nonneg.
Qed.

Lemma squared_error_comm (a b : list Q) :
  (squared_error a b == squared_error b a)%Q.
Proof.
  unfold squared_error. apply Qsum_Qeq.
  revert b. induction a as [|x a IH]; intros [|y b]; try constructor.
  - simpl. ring.
  - apply IH.
Qed.

(** The root mean square of the difference of two finite arrays of one
    nonzero length. *)
Lemma root_mean_square_Fin (a b : list Q) :
  length a = length b -> a <> [] ->
  root_mean_square (map Fin a) (map Fin b)
  = Ret (Real (sqrt (Q2R (squared_error a b
                          / inject_Z (Z.of_nat (length a)))))).
Proof.
  intros Hlen Hne. unfold root_mean_square, broadcast_sub.
  rewrite !length_map, Hlen, Nat.eqb_refl.
  unfold obind. rewrite sub_squares.
  unfold mean, fsum. rewrite fsum_Fin, !length_map, length_zip_with.
  rewrite <- Hlen, Nat.min_id.
  fold (Qsum (map (fun xy : Q * Q => (xy.1 + - xy.2) * (xy.1 + - xy.2))%Q
                  (zip a b))).
  fold (squared_error a b).
  set (n := inject_Z (Z.of_nat (length a))).
  assert (Hn : (0 < n)%Q).
  { subst n. unfold Qlt. simpl. destruct a; [congruence | simpl; lia]. }
  unfold fdiv. destruct (Qeq_bool n 0) eqn:Hnb.
  - apply Qeq_bool_iff in Hnb. rewrite Hnb in Hn. discriminate.
  - unfold nsqrt, Qltb.
    rewrite (proj2 (Qle_bool_iff 0 (squared_error a b / n))); [reflexivity|].
    apply Qle_shift_div_l; [exact Hn|]. rewrite Qmult_0_l.
    apply squared_error_nonneg.
Qed.

Lemma rmse_lists (X Y : list pyfloat) (join : join_kind) (fill_value : fill)
    (relative : bool) :
  rmse P iqr (MList X) (MList Y) join fill_value relative
  = (do v <- root_mean_square (map Fin (map to_num X))
                              (map Fin (map to_num Y));
     Ret (Some v)).
Proof. unfold rmse. cbn [obind]. rewrite !nan_to_num_to_num. reflexivity. Qed.

(** X11.  [rmse] of a nonempty list with itself is 0, whatever the list
    holds ([nan] and the infinities are replaced by numbers first); of the
    empty list with itself it is [nan], not null. *)
Theorem rmse_of_list_with_itself
    (x : pyfloat) (xs : list pyfloat) (join : join_kind) (fill_value : fill)
    (relative : bool) :
  rmse P iqr (MList (x :: xs)) (MList (x :: xs)) join fill_value relative
  = Ret (Some (Real 0)) /\
  rmse P iqr (MList []) (MList []) join fill_value relative
  = Ret (Some Nan).
Proof.
  split; [|reflexivity].
  rewrite rmse_lists, root_mean_square_self; [reflexivity | discriminate].
Qed.

(** X12.  On two lists of one nonzero length that hold small numbers or
    [nan], [rmse] returns a real number that is not negative and does not
    depend on which list is the ground truth. *)
Theorem rmse_of_lists_is_distance
    (X Y : list pyfloat) (join : join_kind) (fill_value : fill)
    (relative : bool) :
  length X = length Y -> X <> [] ->
  Forall small_or_missing X -> Forall small_or_missing Y ->
  exists r : R,
    rmse P iqr (MList X) (MList Y) join fill_value relative
    = Ret (Some (Real r)) /\
    rmse P iqr (MList Y) (MList X) join fill_value relative
    = Ret (Some (Real r)) /\
    (0 <= r)%R.
Proof.
  intros Hlen Hne _ _.
  set (a := map to_num X). set (b := map to_num Y).
  assert (Hab : length a = length b) by (subst a b; rewrite !length_map; exact Hlen).
  assert (Ha : a <> []) by (subst a; destruct X; [congruence | discriminate]).
  assert (Hb : b <> []).
  { intros Hb. rewrite Hb in Hab. destruct a; [congruence | discriminate]. }
  set (n := inject_Z (Z.of_nat (length a))).
  exists (sqrt (Q2R (squared_error a b / n))).
  rewrite !rmse_lists. fold a b.
  rewrite (root_mean_square_Fin a b Hab Ha).
  rewrite (root_mean_square_Fin b a (eq_sym Hab) Hb).
  split; [reflexivity|]. split.
  - cbn [obind]. do 4 f_equal. apply Qeq_eqR. rewrite <- Hab. fold n.
    rewrite (squared_error_comm b a). reflexivity.
  - apply sqrt_pos.
Qed.

(** X13.  Lists of different lengths, neither of length 1, make [rmse]
    raise a [ValueError]: the subtraction cannot broadcast, and nothing
    checks the lengths before. *)
Theorem rmse_of_lists_length_mismatch
    (X Y : list pyfloat) (join : join_kind) (fill_value : fill)
    (relative : bool) :
  length X <> length Y -> length X <> 1%nat -> length Y <> 1%nat ->
  rmse P iqr (MList X) (MList Y) join fill_value relative = Raise ValueError.
Proof.
  intros Hne HX HY. rewrite rmse_lists.
  unfold root_mean_square, broadcast_sub. rewrite !length_map.
  destruct (length X =? length Y)%nat eqn:Hb;
    [apply Nat.eqb_eq in Hb; contradiction|].
  destruct X as [|x [|x' X]]; destruct Y as [|y [|y' Y]];
    simpl in *; try congruence; reflexivity.
Qed.

End RmseMore.

(** *** Shared bins, and what the KL divergences refuse *)

Section BinsMore.
Import Metrics MetricsMore.

Context {key : Type}.
Variable P : @library key.

Lemma finite_values_Fin (qs : list Q) : finite_values (map Fin qs) = qs.
Proof. induction qs as [|q qs IH]; [reflexivity|]. simpl. rewrite IH. reflexivity. Qed.

Lemma all_finite_Some (xs : list pyfloat) (qs : list Q) :
  all_finite xs = Some qs -> xs = map Fin qs.
Proof.
  revert qs. induction xs as [|x xs IH]; intros qs H.
  - simpl in H. injection H as <-. reflexivity.
  - destruct x as [q| | |]; simpl in H; try discriminate.
    destruct (all_finite xs) as [qs'|]; [|discriminate].
    simpl in H. injection H as <-. simpl. f_equal. apply IH. reflexivity.
Qed.

Lemma all_finite_None (xs : list pyfloat) :
  (exists x, In x xs /\ isfinite x = false) -> all_finite xs = None.
Proof.
  intros (x & Hin & Hx). induction xs as [|y xs IH]; [destruct Hin|].
  destruct Hin as [-> | Hin].
  - destruct x; [discriminate | reflexivity..].
  - destruct y; try reflexivity. simpl. rewrite (IH Hin). reflexivity.
Qed.

Lemma all_finite_app (a b : list pyfloat) (qs : list Q) :
  all_finite (a ++ b) = Some qs ->
  exists g s, all_finite a = Some g /\ all_finite b = Some s /\ qs = g ++ s.
Proof.
  revert qs. induction a as [|x a IH]; intros qs H.
  - exists [], qs. repeat split. exact H.
  - destruct x as [q| | |]; simpl in H; try discriminate.
    destruct (all_finite (a ++ b)) as [qs'|] eqn:Hall; [|discriminate].
    simpl in H. injection H as <-.
    destruct (IH qs' eq_refl) as (g & s & Hg & Hs & ->).
    exists (q :: g), s. simpl. rewrite Hg. repeat split. exact Hs.
Qed.

(** What a call of [get_hist_bins] that returns says about the samples. *)
Lemma get_hist_bins_returned (gt sim : list pyfloat) (method : bin_method)
    (edges : list Q) :
  get_hist_bins P (Arr gt) (Arr sim) method = Ret edges ->
  exists g s, gt = map Fin g /\ sim = map Fin s
              /\ edges = bin_edges P (g ++ s) method.
Proof.
  intros Hbins. unfold get_hist_bins, histogram_bin_edges in Hbins.
  destruct (all_finite (gt ++ sim)) as [qs|] eqn:Hall; [|discriminate].
  injection Hbins as <-.
  destruct (all_finite_app gt sim qs Hall) as (g & s & Hg & Hs & ->).
  exists g, s. split; [apply all_finite_Some; exact Hg|].
  split; [apply all_finite_Some; exact Hs | reflexivity].
Qed.

(** X14.  Bins that [get_hist_bins] returns for two samples are shared:
    the two histograms on them have the same number of bins, at least one,
    and each counts every value of its own sample exactly once, whatever
    rule chooses the number of bins. *)
Theorem shared_bins_count_every_value
    (gt sim : list pyfloat) (method : bin_method) (edges : list Q) :
  get_hist_bins P (Arr gt) (Arr sim) method = Ret edges ->
  exists g s : list nat,
    histogram (Arr gt) edges = Ret g /\
    histogram (Arr sim) edges = Ret s /\
    length g = length s /\ (1 <= length g)%nat /\
    S (length g) = length edges /\
    sum_list g = length gt /\ sum_list s = length sim.
Proof.
  intros Hbins.
  destruct (get_hist_bins_returned gt sim method edges Hbins)
    as (a & b & -> & -> & ->).
  exists (bin_counts a (bin_edges P (a ++ b) method)),
         (bin_counts b (bin_edges P (a ++ b) method)).
  destruct (bin_edges_length P (a ++ b) method) as [k Hk].
  split; [|split; [|split; [|split; [|split; [|split]]]]].
  - unfold histogram. rewrite finite_values_Fin. reflexivity.
  - unfold histogram. rewrite finite_values_Fin. reflexivity.
  - rewrite !bin_counts_length. reflexivity.
  - rewrite bin_counts_length, Hk. simpl. lia.
  - rewrite bin_counts_length, Hk. simpl. lia.
  - rewrite length_map. apply counts_total.
    intros x Hx. apply in_or_app. left. exact Hx.
  - rewrite length_map. apply counts_total.
    intros x Hx. apply in_or_app. right. exact Hx.
Qed.

(** X15.  In the default mode the two KL divergences raise a
    [ValueError] where one could expect null: when an input is [None]
    (only [kl_divergence] tests for it, and only its simulation), and when
    a value of either input is [nan] or an infinity. *)
Theorem kl_divergences_raise_on_bad_input
    (gt sim : @measurement key) (alpha : pyfloat) :
  gt = MNone \/ sim = MNone \/
  (exists x, In x (values gt ++ values sim) /\ isfinite x = false) ->
  kl_divergence_smoothed P gt sim alpha false = Raise ValueError /\
  (sim <> MNone -> kl_divergence P gt sim false = Raise ValueError).
Proof.
  intros H.
  assert (Hbins : forall method,
             get_hist_bins P (as_array gt) (as_array sim) method
             = Raise ValueError).
  { intros method. destruct H as [-> | [-> | Hx]].
    - reflexivity.
    - destruct gt; reflexivity.
    - destruct gt as [|g|g]; [reflexivity| |];
        (destruct sim as [|s|s]; [reflexivity| |]);
        cbn [as_array get_hist_bins values] in *;
        unfold histogram_bin_edges; rewrite (all_finite_None _ Hx);
        reflexivity. }
  split.
  - unfold kl_divergence_smoothed, check_data_types. cbn [negb]. cbv iota.
    rewrite Hbins. reflexivity.
  - intros Hsim. unfold kl_divergence, check_data_types. cbn [negb].
    destruct sim; [congruence| |]; cbv iota; rewrite Hbins; reflexivity.
Qed.

End BinsMore.

(** *** When the divergences are real numbers *)

Section EntropyBounds.
Import Metrics MetricsMore.

Lemma ln_le_mono (x y : R) : (0 < x)%R -> (x <= y)%R -> (ln x <= ln y)%R.
Proof.
  intros Hx [Hlt | ->]; [left; apply ln_increasing; assumption|].
  apply Rle_refl.
Qed.

Lemma ln_le_sub1 (y : R) : (0 < y)%R -> (ln y <= y - 1)%R.
Proof.
  intros Hy. pose proof (exp_ineq1_le (y - 1)) as H.
  replace (1 + (y - 1))%R with y in H by ring.
  rewrite <- (ln_exp (y - 1)). apply ln_le_mono; assumption.
Qed.

Lemma ln_pos (b : R) : (1 < b)%R -> (0 < ln b)%R.
Proof. intros Hb. rewrite <- ln_1. apply ln_increasing; lra. Qed.

(** One term of a relative entropy lies between [x - y] and [x log c]
    when [x <= c y]. *)
Lemma rel_entr_bounds (x y : Q) :
  (0 <= x)%Q -> (0 <= y)%Q -> ((0 < x)%Q -> (0 < y)%Q) ->
  exists r, rel_entr (Fin x) (Fin y) = Real r /\
            (Q2R x - Q2R y <= r)%R /\
            forall c : R, (1 <= c)%R -> (Q2R x <= c * Q2R y)%R ->
                          (r <= Q2R x * ln c)%R.
Proof.
  intros Hx Hy Hxy. unfold rel_entr. destruct (Qltb 0 x) eqn:Hpos.
  - apply Qltb_lt in Hpos.
    pose proof (Hxy Hpos) as Hypos.
    rewrite (proj2 (Qltb_lt 0 y) Hypos). simpl.
    apply Qlt_Rlt in Hpos, Hypos. rewrite RMicromega.Q2R_0 in Hpos, Hypos.
    set (X := Q2R x) in *. set (Y := Q2R y) in *.
    exists (X * ln (X / Y))%R. split; [reflexivity|]. split.
    + assert (Hdiv : (0 < Y / X)%R) by (apply Rdiv_lt_0_compat; assumption).
      pose proof (ln_le_sub1 (Y / X) Hdiv) as Hln.
      assert (Hinv : (X / Y = / (Y / X))%R) by (field; lra).
      rewrite Hinv, ln_Rinv by exact Hdiv.
      assert (Hmul : (X * ln (Y / X) <= X * (Y / X - 1))%R)
        by (apply Rmult_le_compat_l; lra).
      assert (Hs : (X * (Y / X - 1) = Y - X)%R) by (field; lra).
      lra.
    + intros c Hc Hle.
      apply Rmult_le_compat_l; [lra|].
      apply ln_le_mono; [apply Rdiv_lt_0_compat; assumption|].
      apply (Rmult_le_reg_r Y); [exact Hypos|].
      replace (X / Y * Y)%R with X by (field; lra). exact Hle.
  - simpl. unfold Qltb in Hpos. apply negb_false_iff in Hpos.
    apply Qle_bool_iff in Hpos.
    assert (Hx0 : (x == 0)%Q) by (apply Qle_antisym; assumption).
    rewrite (proj2 (Qeq_bool_iff x 0) Hx0).
    rewrite (proj2 (Qle_bool_iff 0 y) Hy). simpl.
    exists 0%R. split; [reflexivity|].
    apply Qle_Rle in Hy. rewrite RMicromega.Q2R_0 in Hy.
    rewrite (Qeq_eqR _ _ Hx0), RMicromega.Q2R_0. split; [lra|].
    intros c _ _. lra.
Qed.

Lemma Q2R_Qsum_cons (x : Q) (a : list Q) :
  Q2R (Qsum (x :: a)) = (Q2R x + Q2R (Qsum a))%R.
Proof. rewrite (Qeq_eqR _ _ (Qsum_cons x a)). apply Q2R_plus. Qed.

(** The sum of the terms of a relative entropy of finite vectors. *)
Lemma rel_entr_sum_bounds (a b : list Q) :
  dominated a b ->
  forall r0 : R,
  exists r,
    fold_left nadd
      (map (fun xy : pyfloat * pyfloat => rel_entr xy.1 xy.2)
           (zip (map Fin a) (map Fin b)))
      (Real r0)
    = Real (r0 + r) /\
    (Q2R (Qsum a) - Q2R (Qsum b) <= r)%R /\
    forall c : R, (1 <= c)%R ->
      Forall2 (fun x y => Q2R x <= c * Q2R y)%R a b ->
      (r <= Q2R (Qsum a) * ln c)%R.
Proof.
  induction 1 as [|x y a b (Hx & Hy & Hxy) Hab IH]; intros r0.
  - exists 0%R. split; [simpl; f_equal; ring|].
    unfold Qsum. simpl. rewrite RMicromega.Q2R_0. split; [lra|].
    intros c _ _. lra.
  - destruct (rel_entr_bounds x y Hx Hy Hxy) as (r1 & Hr1 & Hlo1 & Hhi1).
    destruct (IH (r0 + r1)%R) as (r' & Hr' & Hlo' & Hhi').
    exists (r1 + r')%R. split; [|split].
    + cbn [map zip_with fold_left fst snd]. rewrite Hr1. cbn [nadd].
      rewrite Hr'. f_equal. ring.
    + rewrite !Q2R_Qsum_cons. lra.
    + intros c Hc Hall. inversion Hall as [|? ? ? ? Hle Hrest]; subst.
      rewrite Q2R_Qsum_cons.
      pose proof (Hhi1 c Hc Hle). pose proof (Hhi' c Hc Hrest). lra.
Qed.

Lemma scale_ratio (a b : list Q) (A B : Q) (c : R) :
  (0 < A)%Q -> (A == B)%Q ->
  Forall2 (fun x y => Q2R x <= c * Q2R y)%R a b ->
  Forall2 (fun x y => Q2R x <= c * Q2R y)%R
          (map (fun q => q / A)%Q a) (map (fun q => q / B)%Q b).
Proof.
  intros HA HAB. induction 1 as [|x y a b Hle Hab IH]; [constructor|].
  cbn [map]. constructor; [|exact IH].
  assert (HA0 : ~ (A == 0)%Q) by (apply Qpos_nonzero; exact HA).
  assert (HB0 : ~ (B == 0)%Q) by (rewrite <- HAB; exact HA0).
  rewrite !Q2R_div by assumption. rewrite <- (Qeq_eqR _ _ HAB).
  apply Qlt_Rlt in HA. rewrite RMicromega.Q2R_0 in HA.
  unfold Rdiv. rewrite <- Rmult_assoc.
  apply Rmult_le_compat_r; [|exact Hle].
  left. apply Rinv_0_lt_compat. exact HA.
Qed.

(** The divisor that [entropy] applies for its [base] argument. *)
Lemma entropy_bounds (a b : list Q) (base : option R) :
  dominated a b -> (0 < Qsum a)%Q -> (0 < Qsum b)%Q ->
  match base with Some bs => (1 < bs)%R | None => True end ->
  exists r,
    entropy (map Fin a) (map Fin b) base = Ret (Real r) /\
    (0 <= r)%R /\
    forall c : R, (1 <= c)%R -> (Qsum a == Qsum b)%Q ->
      Forall2 (fun x y => Q2R x <= c * Q2R y)%R a b ->
      (r <= ln c / match base with Some bs => ln bs | None => 1 end)%R.
Proof.
  intros Hdom HA HB Hbase. unfold entropy.
  rewrite !length_map, (dominated_length a b Hdom), Nat.eqb_refl.
  cbn [negb]. cbv iota.
  rewrite (normalize_Fin a (Qpos_nonzero _ HA)).
  rewrite (normalize_Fin b (Qpos_nonzero _ HB)).
  destruct (rel_entr_sum_bounds _ _ (dominated_scale a b _ _ Hdom HA HB) 0%R)
    as (r & -> & Hlo & Hhi).
  rewrite (Qeq_eqR _ _ (Qsum_normalized a HA)) in Hlo, Hhi.
  rewrite (Qeq_eqR _ _ (Qsum_normalized b HB)) in Hlo.
  assert (H1 : Q2R 1 = 1%R) by (unfold Q2R; simpl; field).
  rewrite H1 in Hlo, Hhi.
  assert (Hup : forall c : R, (1 <= c)%R -> (Qsum a == Qsum b)%Q ->
                  Forall2 (fun x y => Q2R x <= c * Q2R y)%R a b ->
                  (r <= ln c)%R).
  { intros c Hc HAB Hall.
    pose proof (Hhi c Hc (scale_ratio a b _ _ c HA HAB Hall)). lra. }
  destruct base as [bs|].
  - pose proof (ln_pos bs Hbase) as Hln.
    rewrite ndiv_real by lra.
    exists ((0 + r) / ln bs)%R. split; [reflexivity|]. split.
    + apply Rmult_le_pos; [lra|]. left. apply Rinv_0_lt_compat. exact Hln.
    + intros c Hc HAB Hall. pose proof (Hup c Hc HAB Hall).
      unfold Rdiv. apply Rmult_le_compat_r; [|lra].
      left. apply Rinv_0_lt_compat. exact Hln.
  - exists (0 + r)%R. split; [reflexivity|]. split; [lra|].
    intros c Hc HAB Hall. pose proof (Hup c Hc HAB Hall).
    unfold Rdiv. rewrite Rinv_1. lra.
Qed.

(** A relative entropy, without a base, of a finite nonnegative vector
    against an equal one is 0. *)
Lemma entropy_zero_natural (a b : list Q) :
  Forall2 Qeq a b -> Forall (Qle 0) a -> (0 < Qsum a)%Q ->
  entropy (map Fin a) (map Fin b) None = Ret (Real 0).
Proof.
  intros Heq Hnn HA. unfold entropy.
  rewrite !length_map, (Forall2_length _ _ _ Heq), Nat.eqb_refl.
  cbn [negb]. cbv iota.
  assert (HAB : (Qsum a == Qsum b)%Q) by (apply Qsum_Qeq; exact Heq).
  assert (HB : (0 < Qsum b)%Q) by (rewrite <- HAB; exact HA).
  rewrite (normalize_Fin a (Qpos_nonzero _ HA)).
  rewrite (normalize_Fin b (Qpos_nonzero _ HB)).
  rewrite fold_nadd_zero; [reflexivity|].
  apply rel_entr_vector_zero, scale_Qeq; assumption.
Qed.

End EntropyBounds.

Section DivergenceRanges.
Import Metrics MetricsMore.

Context {key : Type}.
Variable P : @library key.

Lemma smooth_Fin (alpha : Q) (cs : list Q) :
  smooth (Fin alpha) (map Fin cs) = map Fin (map (blend alpha) cs).
Proof. unfold smooth. rewrite !map_map. reflexivity. Qed.

Lemma blend_pos (alpha c : Q) :
  (0 < alpha)%Q -> (alpha <= 1)%Q -> (0 <= c)%Q -> (0 < blend alpha c)%Q.
Proof.
  intros Ha Ha1 Hc. unfold blend.
  assert (H1 : (0 <= (1 + - alpha) * c)%Q).
  { apply Qmult_le_0_compat; [|exact Hc].
    apply (Qplus_le_l _ _ alpha). ring_simplify. exact Ha1. }
  apply Qlt_le_trans with (y := (0 + alpha * 1)%Q).
  - ring_simplify. exact Ha.
  - apply Qplus_le_l. exact H1.
Qed.

Lemma dominated_blend (alpha : Q) (g s : list Q) :
  (0 < alpha)%Q -> (alpha <= 1)%Q -> length g = length s ->
  Forall (Qle 0) g -> Forall (Qle 0) s ->
  dominated g (map (blend alpha) s).
Proof.
  intros Ha Ha1 Hlen Hg. revert s Hlen.
  induction Hg as [|x g Hx Hg IH]; intros [|y s] Hlen Hs; try discriminate.
  - constructor.
  - inversion Hs as [|? ? Hy Hs']; subst. cbn [map]. constructor.
    + pose proof (blend_pos alpha y Ha Ha1 Hy) as Hb.
      repeat split; [exact Hx | apply Qlt_le_weak; exact Hb |].
      intros _. exact Hb.
    + apply IH; [simpl in Hlen; lia | exact Hs'].
Qed.

Lemma Qsum_pos (l : list Q) :
  l <> [] -> Forall (Qlt 0) l -> (0 < Qsum l)%Q.
Proof.
  intros Hne Hall. destruct Hall as [|x l Hx Hl]; [congruence|].
  rewrite Qsum_cons.
  apply Qlt_le_trans with (y := (x + 0)%Q); [ring_simplify; exact Hx|].
  apply Qplus_le_r. apply Qsum_nonneg.
  eapply Forall_impl; [exact Hl|]. intros z Hz. apply Qlt_le_weak. exact Hz.
Qed.

(** What the default mode of the KL divergences computes on finite
    samples. *)
Lemma histograms_of_finite (gt sim : @measurement key) (method : bin_method)
    (g s : list Q) :
  gt <> MNone -> sim <> MNone ->
  all_finite (values gt) = Some g -> all_finite (values sim) = Some s ->
  (let '(a, b) := check_data_types gt sim in
   do bins <- get_hist_bins P a b method;
   do hg <- histogram a bins;
   do hs <- histogram b bins;
   Ret (astype_float hg, astype_float hs))
  = Ret (map Fin (map (fun c => inject_Z (Z.of_nat c))
                      (bin_counts g (bin_edges P (g ++ s) method))),
         map Fin (map (fun c => inject_Z (Z.of_nat c))
                      (bin_counts s (bin_edges P (g ++ s) method)))).
Proof.
  intros Hgt Hsim Hg Hs. unfold check_data_types.
  rewrite (as_array_values gt Hgt), (as_array_values sim Hsim).
  rewrite (all_finite_Some _ _ Hg), (all_finite_Some _ _ Hs).
  unfold get_hist_bins, histogram_bin_edges, histogram.
  rewrite <- map_app, all_finite_Fin. cbn [obind].
  rewrite !finite_values_Fin, !astype_float_Fin. reflexivity.
Qed.

Lemma values_nonempty (x : @measurement key) (q : Q) (qs : list Q) :
  all_finite (values x) = Some (q :: qs) -> x <> MNone.
Proof. intros H ->. discriminate. Qed.

(** X16.  In the default mode the KL divergence of a nonempty sample of
    finite values from itself is 0, whenever [get_hist_bins] returns bins
    for it, whatever rule chooses their number. *)
Theorem kl_divergence_of_sample_with_itself
    (X : @measurement key) (q : Q) (qs : list Q) :
  all_finite (values X) = Some (q :: qs) ->
  returns (get_hist_bins P (as_array X) (as_array X) Doane) ->
  kl_divergence P X X false = Ret (Some (Real 0)).
Proof.
  intros HX _. pose proof (values_nonempty X q qs HX) as Hne.
  unfold kl_divergence. cbn [negb].
  assert (Hcols := histograms_of_finite X X Doane _ _ Hne Hne HX HX).
  destruct X as [|xs|rows]; [congruence| |]; cbv iota;
    rewrite Hcols; cbn [obind fst snd]; unfold entropy_if_same_length;
    rewrite Nat.eqb_refl; cbn [obind];
    (rewrite entropy_zero_natural; [reflexivity | | |]);
    try (apply Forall2_same_length_lookup_2; [reflexivity|];
         intros i x y Hx Hy; rewrite Hx in Hy; injection Hy as <-;
         reflexivity);
    try apply counts_nonneg;
    apply counts_sum_pos, histogram_total_pos; try discriminate;
    intros x Hx; apply in_or_app; left; exact Hx.
Qed.

(** X17.  Smoothing does what it is for: on samples of finite values, the
    ground truth not empty, for [1/1024 <= alpha <= 1] and whenever the
    shared bins are returned, the smoothed KL divergence is a real number:
    neither null, nor [nan], nor an infinity. *)
Theorem kl_divergence_smoothed_is_finite
    (gt sim : @measurement key) (alpha : Q) (g : Q) (gs ss : list Q) :
  sim <> MNone ->
  all_finite (values gt) = Some (g :: gs) ->
  all_finite (values sim) = Some ss ->
  returns (smoothed_bins P gt sim) ->
  (1 # 1024 <= alpha)%Q -> (alpha <= 1)%Q ->
  exists r : R,
    kl_divergence_smoothed P gt sim (Fin alpha) false = Ret (Some (Real r)).
Proof.
  intros Hsim Hg Hs _ Ha0 Ha1.
  assert (Ha : (0 < alpha)%Q)
    by (eapply Qlt_le_trans; [|exact Ha0]; reflexivity).
  pose proof (values_nonempty gt g gs Hg) as Hgt.
  unfold kl_divergence_smoothed. cbn [negb]. cbv iota.
  pose proof (histograms_of_finite gt sim default_method _ _ Hgt Hsim Hg Hs)
    as Hcols.
  set (E := bin_edges P ((g :: gs) ++ ss) default_method) in *.
  set (cg := map (fun c => inject_Z (Z.of_nat c)) (bin_counts (g :: gs) E))
    in *.
  set (cs := map (fun c => inject_Z (Z.of_nat c)) (bin_counts ss E)) in *.
  assert (Hlen : length cg = length cs).
  { subst cg cs. rewrite !length_map, !bin_counts_length. reflexivity. }
  assert (Hcg : Forall (Qle 0) cg) by apply counts_nonneg.
  assert (Hcs : Forall (Qle 0) cs) by apply counts_nonneg.
  assert (HG : (0 < Qsum cg)%Q).
  { apply counts_sum_pos, histogram_total_pos; [discriminate|].
    intros x Hx. apply in_or_app. left. exact Hx. }
  assert (Hne : cs <> []).
  { intros Hnil. rewrite Hnil in Hlen.
    destruct cg; [|discriminate]. unfold Qsum in HG. discriminate. }
  assert (HS : (0 < Qsum (map (blend alpha) cs))%Q).
  { apply Qsum_pos.
    - destruct cs; [congruence | discriminate].
    - apply Forall_forall. intros z Hz.
      apply list_elem_of_In, in_map_iff in Hz as (c & <- & Hc).
      apply blend_pos; [exact Ha | exact Ha1|].
      rewrite Forall_forall in Hcs. apply Hcs, list_elem_of_In, Hc. }
  destruct (entropy_bounds cg (map (blend alpha) cs) None
              (dominated_blend alpha cg cs Ha Ha1 Hlen Hcg Hcs) HG HS I)
    as (r & Hr & _ & _).
  exists r.
  assert (Hgoal :
    (do vars <-
       (do bins <- get_hist_bins P (as_array gt) (as_array sim) default_method;
        do hg <- histogram (as_array gt) bins;
        do hs <- histogram (as_array sim) bins;
        Ret (astype_float hg, astype_float hs,
             Ret (smooth (Fin alpha) (astype_float hs))));
     entropy_if_same_length vars.1.1 vars.1.2 vars.2)
    = Ret (Some (Real r))).
  { unfold check_data_types in Hcols.
    destruct (get_hist_bins P (as_array gt) (as_array sim) default_method)
      as [bins|e]; [|discriminate].
    cbn [obind] in Hcols |- *.
    destruct (histogram (as_array gt) bins) as [hg|e]; [|discriminate].
    cbn [obind] in Hcols |- *.
    destruct (histogram (as_array sim) bins) as [hs|e]; [|discriminate].
    cbn [obind] in Hcols |- *.
    injection Hcols as Hhg Hhs. cbn [fst snd].
    rewrite Hhg, Hhs. unfold entropy_if_same_length.
    rewrite !length_map, Hlen, Nat.eqb_refl. cbn [obind].
    rewrite smooth_Fin, Hr. reflexivity. }
  exact Hgoal.
Qed.

(** X18.  In the default mode, on two inputs that each hold a finite
    value, for a positive base other than 1 and whenever the shared bins
    are returned, the Jensen-Shannon divergence is a real number: neither
    null, nor [nan], nor an infinity. *)
Theorem js_divergence_is_real (X Y : @measurement key) (base : R) :
  has_finite_value X -> has_finite_value Y ->
  returns (get_hist_bins P (finite_part (as_array X))
                         (finite_part (as_array Y)) Doane) ->
  (0 < base)%R -> base <> 1%R ->
  exists r : R, js_divergence P X Y false base = Ret (Some (Real r)).
Proof.
  intros HX HY _ Hpos Hne1.
  assert (Hbase : ln base <> 0%R) by (apply ln_neq_0; assumption).
  pose proof (has_finite_value_passes X HX) as HpX.
  pose proof (has_finite_value_passes Y HY) as HpY.
  rewrite (js_divergence_continuous P X Y base HpY HpX).
  unfold has_finite_value in HX, HY.
  set (Xq := finite_values (values X)) in *.
  set (Yq := finite_values (values Y)) in *.
  set (E := bin_edges P (Xq ++ Yq) Doane).
  rewrite !astype_float_Fin.
  apply jensen_shannon_real.
  - rewrite !length_map, !bin_counts_length. reflexivity.
  - apply counts_nonneg.
  - apply counts_nonneg.
  - apply counts_sum_pos, histogram_total_pos; [exact HX|].
    intros x Hx. apply in_or_app. left. exact Hx.
  - apply counts_sum_pos, histogram_total_pos; [exact HY|].
    intros x Hx. apply in_or_app. right. exact Hx.
  - exact Hbase.
Qed.

End DivergenceRanges.

(** *** Tables: [rmse] and [r2] *)

Section FramesMore.
Import Metrics MetricsMore.

Context {key : Type}.
Variable P : @library key.
Variable iqr : list pyfloat -> pyfloat.

Lemma filled_squares (c : Q) (rows : @merged key) :
  Forall (fun r => (isfinite r.2.1 = true \/ r.2.1 = NaN) /\
                   (isfinite r.2.2 = true \/ r.2.2 = NaN)) rows ->
  exists qs : list Q,
    map (fun r : key * (pyfloat * pyfloat) =>
           fmul (fsub r.2.2 r.2.1) (fsub r.2.2 r.2.1))
        (map (fun r : key * (pyfloat * pyfloat) =>
                (r.1, (fillna c r.2.1, fillna c r.2.2))) rows)
    = map Fin qs /\
    Forall (Qle 0) qs /\ length qs = length rows.
Proof.
  induction 1 as [|[k [x y]] rows [Hx Hy] Hrows (qs & Hqs & Hnn & Hlen)].
  - exists []. repeat split. constructor.
  - cbn [fst snd] in Hx, Hy.
    assert (Hfx : exists a, fillna c x = Fin a).
    { destruct Hx as [Hx | ->]; [|eexists; reflexivity].
      destruct x; try discriminate. eexists. reflexivity. }
    assert (Hfy : exists b, fillna c y = Fin b).
    { destruct Hy as [Hy | ->]; [|eexists; reflexivity].
      destruct y; try discriminate. eexists. reflexivity. }
    destruct Hfx as [a Ha]. destruct Hfy as [b Hb].
    exists (((b + - a) * (b + - a))%Q :: qs). split; [|split].
    + cbn [map fst snd]. rewrite Hqs, Ha, Hb. reflexivity.
    + constructor; [apply square_nonneg | exact Hnn].
    + simpl. rewrite Hlen. reflexivity.
Qed.

Lemma filter_not_nan_Fin (qs : list Q) :
  List.filter (fun x => negb (isnan x)) (map Fin qs) = map Fin qs.
Proof. induction qs as [|q qs IH]; [reflexivity|]. simpl. rewrite IH. reflexivity. Qed.

Lemma small_or_missing_cell (x : pyfloat) :
  small_or_missing x -> isfinite x = true \/ x = NaN.
Proof.
  intros [-> | Hx]; [right; reflexivity|].
  destruct x; try contradiction. left. reflexivity.
Qed.

(** X19.  On two tables, with a small number as fill value and without
    the [relative] option, [rmse] is null when the join has no row and a
    real number that is not negative otherwise, as long as the joined
    value columns hold small numbers or missing cells. *)
Theorem rmse_of_tables_with_number_fill
    (gt sim : @frame key) (join : join_kind) (c : Q) (m : @merged key) :
  merge P join gt sim = Ret m ->
  small (Fin c) ->
  Forall (fun r => small_or_missing r.2.1 /\ small_or_missing r.2.2)
         (sort_values P m) ->
  (sort_values P m = [] ->
   rmse P iqr (MFrame gt) (MFrame sim) join (FillNumber c) false
   = Ret None) /\
  (sort_values P m <> [] ->
   exists r : R,
     rmse P iqr (MFrame gt) (MFrame sim) join (FillNumber c) false
     = Ret (Some (Real r)) /\ (0 <= r)%R).
Proof.
  intros Hm _ Hsmall.
  assert (Hrows : Forall (fun r : key * (pyfloat * pyfloat) =>
                            (isfinite r.2.1 = true \/ r.2.1 = NaN) /\
                            (isfinite r.2.2 = true \/ r.2.2 = NaN))
                         (sort_values P m)).
  { eapply Forall_impl; [exact Hsmall|]. intros r [H1 H2].
    split; apply small_or_missing_cell; assumption. }
  unfold rmse, join_dfs. rewrite Hm. cbn [obind negb].
  split.
  - intros ->. reflexivity.
  - intros Hne. rewrite length_map.
    destruct (filled_squares c _ Hrows) as (qs & -> & Hnn & Hlen).
    assert (Hpos : (0 <? length (sort_values P m))%nat = true).
    { apply Nat.ltb_lt. destruct (sort_values P m); [congruence | simpl; lia]. }
    rewrite Hpos. unfold series_mean. rewrite filter_not_nan_Fin.
    unfold mean, fsum. rewrite fsum_Fin, length_map. fold (Qsum qs).
    set (n := inject_Z (Z.of_nat (length qs))).
    assert (Hn : (0 < n)%Q).
    { subst n. rewrite Hlen. apply Nat.ltb_lt in Hpos.
      unfold Qlt. simpl. lia. }
    unfold fdiv. destruct (Qeq_bool n 0) eqn:Hnb.
    { apply Qeq_bool_iff in Hnb. rewrite Hnb in Hn. discriminate. }
    unfold nsqrt, Qltb.
    rewrite (proj2 (Qle_bool_iff 0 (Qsum qs / n))).
    + cbn [negb]. eexists. split; [reflexivity | apply sqrt_pos].
    + apply Qle_shift_div_l; [exact Hn|]. rewrite Qmult_0_l.
      apply Qsum_nonneg. exact Hnn.
Qed.

Lemma r2_score_at_most_1 (y_true y_pred : list pyfloat) (v : npfloat) :
  r2_score y_true y_pred = Ret v -> exists r : R, v = Real r /\ (r <= 1)%R.
Proof.
  unfold r2_score. destruct (all_finite y_true) as [yt|]; [|discriminate].
  destruct (all_finite y_pred) as [yp|]; [|discriminate].
  destruct (negb (length yt =? length yp)%nat); [discriminate|].
  set (num := Qsum (map (fun tp : Q * Q => (tp.1 - tp.2) * (tp.1 - tp.2))%Q
                        (zip yt yp))).
  set (avg := (Qsum yt / inject_Z (Z.of_nat (length yt)))%Q).
  set (den := Qsum (map (fun t => (t - avg) * (t - avg))%Q yt)).
  assert (Hnum : (0 <= num)%Q).
  { subst num. apply Qsum_nonneg, Forall_forall. intros z Hz.
    apply list_elem_of_In, in_map_iff in Hz as (xy & <- & _).
    apply square_nonneg. }
  assert (Hden : (0 <= den)%Q).
  { subst den. apply Qsum_nonneg, Forall_forall. intros z Hz.
    apply list_elem_of_In, in_map_iff in Hz as (xy & <- & _).
    apply square_nonneg. }
  destruct (Qeq_bool den 0) eqn:Hb; cbn [negb].
  - destruct (negb (Qeq_bool num 0)); intros H; injection H as <-;
      eexists; (split; [reflexivity | lra]).
  - intros H. injection H as <-. eexists. split; [reflexivity|].
    assert (Hpos : (0 < den)%Q).
    { apply Qle_lteq in Hden as [Hlt | Heq]; [exact Hlt|].
      symmetry in Heq. apply Qeq_bool_iff in Heq. congruence. }
    assert (Hq : (0 <= num / den)%Q).
    { apply Qle_shift_div_l; [exact Hpos|]. rewrite Qmult_0_l. exact Hnum. }
    assert (Hle : (1 - num / den <= 1)%Q).
    { apply (Qplus_le_l _ _ (num / den)). ring_simplify.
      rewrite <- (Qplus_0_l 1) at 1. apply Qplus_le_l. exact Hq. }
    apply Qle_Rle in Hle.
    assert (H1 : Q2R 1 = 1%R) by (unfold Q2R; simpl; field).
    rewrite H1 in Hle. exact Hle.
Qed.

(** X20.  On two tables whose values are small numbers or missing, and
    with a small number or a fill method as fill value, a score that [r2]
    returns is at most 1 and is not [nan] (on lists the same function
    returns a root mean squared error, which has no such bound). *)
Theorem r2_of_tables_at_most_1
    (gt sim : @frame key) (join : join_kind) (fill_value : fill)
    (v : npfloat) :
  Forall (fun r => small_or_missing r.2) gt ->
  Forall (fun r => small_or_missing r.2) sim ->
  match fill_value with
  | FillNumber c => small (Fin c)
  | FillMethod _ => True
  end ->
  r2 P (MFrame gt) (MFrame sim) join fill_value = Ret (Some v) ->
  at_most_one v.
Proof.
  intros _ _ _. unfold r2.
  destruct (none_or_empty (MFrame sim) || none_or_empty (MFrame gt));
    [discriminate|].
  destruct (join_dfs P (finite_rows gt) (finite_rows sim) join fill_value)
    as [joined|e]; [|discriminate].
  cbn [obind].
  destruct (length _ <=? 1)%nat; [discriminate|].
  destruct (r2_score _ _) as [w|e] eqn:Hscore; [|discriminate].
  cbn [obind]. intros H. injection H as <-.
  destruct (r2_score_at_most_1 _ _ _ Hscore) as (r & -> & Hr). exact Hr.
Qed.

End FramesMore.

(** *** The further metric properties on a concrete instance *)

Section MetricsMoreExamples.
Import Metrics MetricsMore MetricsExample.

Lemma absolute_difference_is_distance_witness :
  exists v w : Q,
    absolute_difference lib (PyNumber (Fin 3)) (PyNumber (Fin 5))
    = Ret (Some (Fin v)) /\
    absolute_difference lib (PyNumber (Fin 5)) (PyNumber (Fin 3))
    = Ret (Some (Fin w)) /\
    (v == w)%Q /\ (0 <= v)%Q /\ (v <= DBL_MAX)%Q /\
    ((3 == 5)%Q -> (v == 0)%Q).
Proof.
  apply (absolute_difference_is_distance lib 3 5);
    vm_compute; discriminate.
Defined.

Lemma scalar_metrics_null_on_non_numbers_witness :
  absolute_difference lib PyNone (PyStr "12") = Ret None /\
  absolute_percentage_error lib PyNone (PyStr "12") = Ret None.
Proof.
  apply (scalar_metrics_null_on_non_numbers lib PyNone (PyStr "12")).
  right. split; [reflexivity|].
  exists (Fin (inject_Z 12)). reflexivity.
Defined.

Lemma absolute_percentage_error_sign_witness :
  exists r : pyfloat,
    absolute_percentage_error lib (PyNumber (Fin (-4))) (PyNumber (Fin 6))
    = Ret (Some r) /\
    ((-4 < 0)%Q -> at_most_zero r) /\
    ((0 < -4)%Q -> at_least_zero r) /\
    ((6 == -4)%Q -> exists v : Q, r = Fin v /\ (v == 0)%Q).
Proof.
  apply (absolute_percentage_error_sign lib (-4) 6).
  unfold Qeq. simpl. lia.
Defined.

Lemma rmse_of_lists_is_distance_witness :
  exists r : R,
    rmse lib (fun _ => Fin 1) (MList [Fin 1; NaN]) (MList [Fin 4; Fin 2])
         default_join default_fill_value false
    = Ret (Some (Real r)) /\
    rmse lib (fun _ => Fin 1) (MList [Fin 4; Fin 2]) (MList [Fin 1; NaN])
         default_join default_fill_value false
    = Ret (Some (Real r)) /\
    (0 <= r)%R.
Proof.
  apply (rmse_of_lists_is_distance lib (fun _ => Fin 1)
           [Fin 1; NaN] [Fin 4; Fin 2]).
  - reflexivity.
  - discriminate.
  - repeat (constructor;
            [first [left; reflexivity | right; vm_compute; discriminate]|]).
    constructor.
  - repeat (constructor;
            [first [left; reflexivity | right; vm_compute; discriminate]|]).
    constructor.
Defined.

Lemma shared_bins_count_every_value_witness :
  exists g s : list nat,
    histogram (Arr [Fin 1; Fin 2; Fin 2])
              (bin_edges lib [1; 2; 2; 5]%Q Doane) = Ret g /\
    histogram (Arr [Fin 5]) (bin_edges lib [1; 2; 2; 5]%Q Doane) = Ret s /\
    length g = length s /\ (1 <= length g)%nat /\
    S (length g) = length (bin_edges lib [1; 2; 2; 5]%Q Doane) /\
    sum_list g = 3%nat /\ sum_list s = 1%nat.
Proof.
  apply (shared_bins_count_every_value lib [Fin 1; Fin 2; Fin 2] [Fin 5]
           Doane (bin_edges lib [1; 2; 2; 5]%Q Doane)).
  reflexivity.
Defined.

Lemma rmse_of_lists_length_mismatch_witness :
  rmse lib (fun _ => Fin 1) (MList [Fin 1; Fin 2])
       (MList [Fin 1; Fin 2; Fin 3]) default_join default_fill_value false
  = Raise ValueError.
Proof.
  apply (rmse_of_lists_length_mismatch lib (fun _ => Fin 1)
           [Fin 1; Fin 2] [Fin 1; Fin 2; Fin 3]); simpl; lia.
Defined.

Lemma kl_divergences_raise_on_bad_input_witness :
  kl_divergence_smoothed lib (MList [Fin 1; NaN]) (MList [Fin 2])
                         default_alpha false
  = Raise ValueError /\
  (@MList string [Fin 2] <> MNone ->
   kl_divergence lib (MList [Fin 1; NaN]) (MList [Fin 2]) false
   = Raise ValueError).
Proof.
  apply (kl_divergences_raise_on_bad_input lib
           (MList [Fin 1; NaN]) (MList [Fin 2]) default_alpha).
  right. right. exists NaN. split; [|reflexivity].
  simpl. right. left. reflexivity.
Defined.

Lemma kl_divergence_of_sample_with_itself_witness :
  kl_divergence lib (MList [Fin 1; Fin 2; Fin 2])
                (MList [Fin 1; Fin 2; Fin 2]) false
  = Ret (Some (Real 0)).
Proof.
  apply (kl_divergence_of_sample_with_itself lib
           (MList [Fin 1; Fin 2; Fin 2]) 1 [2; 2]%Q).
  - reflexivity.
  - eexists. reflexivity.
Defined.

Lemma kl_divergence_smoothed_is_finite_witness :
  exists r : R,
    kl_divergence_smoothed lib (MList [Fin 1; Fin 2]) (MList [Fin 7])
                           (Fin (1 # 100)) false
    = Ret (Some (Real r)).
Proof.
  apply (kl_divergence_smoothed_is_finite lib
           (MList [Fin 1; Fin 2]) (MList [Fin 7]) (1 # 100) 1 [2%Q] [7%Q]).
  - discriminate.
  - reflexivity.
  - reflexivity.
  - eexists. reflexivity.
  - discriminate.
  - discriminate.
Defined.

Lemma js_divergence_is_real_witness :
  exists r : R,
    js_divergence lib (MList [Fin 1; Fin 2; NaN]) (MList [Fin 2; Fin 5])
                  false 10
    = Ret (Some (Real r)).
Proof.
  apply (js_divergence_is_real lib
           (MList [Fin 1; Fin 2; NaN]) (MList [Fin 2; Fin 5]) 10).
  - discriminate.
  - discriminate.
  - eexists. reflexivity.
  - lra.
  - lra.
Defined.

Lemma rmse_of_tables_with_number_fill_witness :
  (sort_values lib
     (join_rows Outer [("a", Fin 1); ("b", Fin 3)]
                      [("a", Fin 2); ("c", Fin 3)]) = [] ->
   rmse lib (fun _ => Fin 1) (MFrame [("a", Fin 1); ("b", Fin 3)])
        (MFrame [("a", Fin 2); ("c", Fin 3)]) Outer (FillNumber 0) false
   = Ret None) /\
  (sort_values lib
     (join_rows Outer [("a", Fin 1); ("b", Fin 3)]
                      [("a", Fin 2); ("c", Fin 3)]) <> [] ->
   exists r : R,
     rmse lib (fun _ => Fin 1) (MFrame [("a", Fin 1); ("b", Fin 3)])
          (MFrame [("a", Fin 2); ("c", Fin 3)]) Outer (FillNumber 0) false
     = Ret (Some (Real r)) /\ (0 <= r)%R).
Proof.
  apply (rmse_of_tables_with_number_fill lib (fun _ => Fin 1)
           [("a", Fin 1); ("b", Fin 3)] [("a", Fin 2); ("c", Fin 3)]
           Outer 0
           (join_rows Outer [("a", Fin 1); ("b", Fin 3)]
                            [("a", Fin 2); ("c", Fin 3)])).
  - reflexivity.
  - vm_compute. discriminate.
  - cbv [sort_values lib]. unfold sort_rows, join_rows. simpl.
    repeat (constructor;
            [split; first [left; reflexivity
                          | right; vm_compute; discriminate]|]).
    constructor.
Defined.

Lemma r2_of_tables_at_most_1_witness :
  exists v : npfloat,
    r2 lib (MFrame [("a", Fin 1); ("b", Fin 3)])
       (MFrame [("a", Fin 2); ("b", Fin 3)]) Inner (FillNumber 0)
    = Ret (Some v) /\
    at_most_one v.
Proof.
  destruct (r2 lib (MFrame [("a", Fin 1); ("b", Fin 3)])
               (MFrame [("a", Fin 2); ("b", Fin 3)]) Inner (FillNumber 0))
    as [[v|]|e] eqn:H.
  - exists v. split; [reflexivity|].
    apply (r2_of_tables_at_most_1 lib [("a", Fin 1); ("b", Fin 3)]
             [("a", Fin 2); ("b", Fin 3)] Inner (FillNumber 0) v);
      [| | vm_compute; discriminate | exact H];
      repeat (constructor; [right; vm_compute; discriminate|]);
      constructor.
  - vm_compute in H. discriminate H.
  - vm_compute in H. discriminate H.
Defined.

End MetricsMoreExamples.
